(** * Bank API: a token-authenticated account service

    A shallow embedding of the Express application
    ([routes/account.js], [middleware/auth.js], the login route, the
    in-memory store and the wiring of [server.js]) together with the
    properties of its withdrawal, interest and authorization logic.

    JavaScript numbers are IEEE 754 binary64 values; they are modelled with
    the Standard Library's [spec_float] at precision 53 and maximal
    exponent 1024, so that NaN, the infinities, signed zeros and rounding
    are the ones the program computes with.  Strings are sequences of code
    units below 256. *)

From Stdlib Require Import ZArith Bool List Ascii String Lia.
From Stdlib Require Import Floats.SpecFloat.
From stdpp Require Import base option gmap strings.

Local Open Scope string_scope.
Local Open Scope Z_scope.

Set Warnings "-register-all".

(** ** JavaScript numbers *)

Module JsNumber.

Definition prec : Z := 53.
Definition emax : Z := 1024.

Definition number : Type := spec_float.

Definition NaN : number := S754_nan.
Definition pos_zero : number := S754_zero false.
Definition neg_zero : number := S754_zero true.
Definition pos_infinity : number := S754_infinity false.
Definition neg_infinity : number := S754_infinity true.

(** The Number value of the mathematical integer [z]
    (round to nearest, ties to even). *)
Definition of_Z (z : Z) : number := binary_normalize prec emax z 0 false.

(** [Number.isNaN] *)
Definition isNaN (x : number) : bool :=
  match x with S754_nan => true | _ => false end.

(** The integer [n] with [n * 2^(Z.min e1 e2)] equal to the value of the
    finite number with sign [s], mantissa [m] and exponent [e1]. *)
Definition aligned (s : bool) (m : positive) (e1 e2 : Z) : Z :=
  cond_Zopp s (Zpos (fst (shl_align m e1 (Z.min e1 e2)))).

(** ECMAScript compares two numbers by their mathematical values; a
    comparison with NaN is undefined, and the two zeros are equal.  The
    values are compared whatever the representation of the mantissas; on
    canonical binary64 values this is the Standard Library's [SFcompare]
    (lemma [compare_SFcompare] below). *)
Definition compare (x y : number) : option comparison :=
  match x, y with
  | S754_nan, _ | _, S754_nan => None
  | S754_infinity s1, S754_infinity s2 =>
      Some (match s1, s2 with
            | true, false => Lt
            | false, true => Gt
            | _, _ => Eq
            end)
  | S754_infinity s, _ => Some (if s then Lt else Gt)
  | _, S754_infinity s => Some (if s then Gt else Lt)
  | S754_zero _, S754_zero _ => Some Eq
  | S754_finite s _ _, S754_zero _ => Some (if s then Lt else Gt)
  | S754_zero _, S754_finite s _ _ => Some (if s then Gt else Lt)
  | S754_finite s1 m1 e1, S754_finite s2 m2 e2 =>
      Some (Z.compare (aligned s1 m1 e1 e2) (aligned s2 m2 e2 e1))
  end.

(** [x < y], [x <= y], [x > y] *)
Definition lt (x y : number) : bool :=
  match compare x y with Some Lt => true | _ => false end.
Definition le (x y : number) : bool :=
  match compare x y with Some (Lt | Eq) => true | _ => false end.
Definition gt (x y : number) : bool := lt y x.

(** [x - y], [x * y], [x / y] *)
Definition sub (x y : number) : number := SFsub prec emax x y.
Definition mul (x y : number) : number := SFmul prec emax x y.
Definition div (x y : number) : number := SFdiv prec emax x y.

(** Number values in canonical binary64 form. *)
Definition is_double (x : number) : bool := valid_binary prec emax x.

(** Numbers that are not below zero: [x < 0] is false. *)
Definition not_negative (x : number) : bool := negb (lt x pos_zero).

(** Finite numbers in canonical form that are at least zero. *)
Definition finite_not_negative (x : number) : bool :=
  match x with
  | S754_zero _ => true
  | S754_finite false m e => bounded prec emax m e
  | _ => false
  end.

(** *** [Number(string)]: the StringToNumber operation

    The text is trimmed of white space; the empty text is [+0]; otherwise
    it must be a StrNumericLiteral as a whole: an optionally signed
    [Infinity] or decimal literal, or an unsigned [0x], [0o] or [0b]
    integer literal.  Anything else is [NaN]. *)

Definition is_whitespace (c : ascii) : bool :=
  let n := N_of_ascii c in
  (n =? 9)%N || (n =? 10)%N || (n =? 11)%N || (n =? 12)%N || (n =? 13)%N
  || (n =? 32)%N || (n =? 160)%N.

Fixpoint trim_start (s : list ascii) : list ascii :=
  match s with
  | c :: r => if is_whitespace c then trim_start r else s
  | [] => []
  end.

Definition trim (s : list ascii) : list ascii :=
  rev (trim_start (rev (trim_start s))).

Definition digit_of (c : ascii) : option Z :=
  let n := Z.of_N (N_of_ascii c) in
  if (48 <=? n) && (n <=? 57) then Some (n - 48)
  else if (97 <=? n) && (n <=? 102) then Some (n - 87)
  else if (65 <=? n) && (n <=? 70) then Some (n - 55)
  else None.

Definition digit_in (base : Z) (c : ascii) : option Z :=
  match digit_of c with
  | Some d => if d <? base then Some d else None
  | None => None
  end.

(** Reads the longest prefix of digits of [s]: the value accumulated on
    top of [acc], the number of digits read added to [cnt], and the rest. *)
Fixpoint read_digits (base acc cnt : Z) (s : list ascii)
  : Z * Z * list ascii :=
  match s with
  | c :: r =>
      match digit_in base c with
      | Some d => read_digits base (acc * base + d) (cnt + 1) r
      | None => (acc, cnt, s)
      end
  | [] => (acc, cnt, [])
  end.

Definition is_nil {A} (l : list A) : bool :=
  match l with [] => true | _ => false end.

(** An optional ExponentPart that ends the input. *)
Definition parse_exponent (s : list ascii) : option Z :=
  match s with
  | [] => Some 0
  | c :: r =>
      if Ascii.eqb c "e" || Ascii.eqb c "E" then
        let '(neg, r') :=
          match r with
          | "+"%char :: r' => (false, r')
          | "-"%char :: r' => (true, r')
          | _ => (false, r)
          end in
        let '(v, n, rest) := read_digits 10 0 0 r' in
        if (0 <? n) && is_nil rest then Some (cond_Zopp neg v) else None
      else None
  end.

(** A StrUnsignedDecimalLiteral other than [Infinity], as [(m, e)] with
    mathematical value [m * 10^e]. *)
Definition parse_unsigned_decimal (s : list ascii) : option (Z * Z) :=
  let '(i, ni, r1) := read_digits 10 0 0 s in
  match r1 with
  | "."%char :: r2 =>
      let '(m, nf, r3) := read_digits 10 i 0 r2 in
      if 0 <? ni + nf then
        match parse_exponent r3 with
        | Some e => Some (m, e - nf)
        | None => None
        end
      else None
  | _ =>
      if 0 <? ni then
        match parse_exponent r1 with
        | Some e => Some (i, e)
        | None => None
        end
      else None
  end.

(** The Number value of [m * 10^e], for [0 <= m]. *)
Definition of_decimal (m e : Z) : number :=
  match m with
  | Z0 => pos_zero
  | Zpos p =>
      if 0 <=? e then of_Z (m * 10 ^ e)
      else div (S754_finite false p 0)
               (S754_finite false (Z.to_pos (10 ^ (- e))) 0)
  | Zneg _ => NaN
  end.

Definition parse_non_decimal (s : list ascii) : number :=
  match s with
  | "0"%char :: c :: r =>
      let base :=
        if Ascii.eqb c "x" || Ascii.eqb c "X" then Some 16
        else if Ascii.eqb c "o" || Ascii.eqb c "O" then Some 8
        else if Ascii.eqb c "b" || Ascii.eqb c "B" then Some 2
        else None in
      match base with
      | Some b =>
          let '(v, n, rest) := read_digits b 0 0 r in
          if (0 <? n) && is_nil rest then of_Z v else NaN
      | None => NaN
      end
  | _ => NaN
  end.

Definition StringToNumber (str : string) : number :=
  match trim (list_ascii_of_string str) with
  | [] => pos_zero
  | c :: r =>
      let '(signed, neg, body) :=
        if Ascii.eqb c "+" then (true, false, r)
        else if Ascii.eqb c "-" then (true, true, r)
        else (false, false, c :: r) in
      let apply_sign (x : number) := if neg then SFopp x else x in
      if String.eqb (string_of_list_ascii body) "Infinity"
      then apply_sign pos_infinity
      else
        match parse_unsigned_decimal body with
        | Some (m, e) => apply_sign (of_decimal m e)
        | None => if signed then NaN else parse_non_decimal body
        end
  end.

(** Strings of decimal digits, at least one, and the integer they
    denote. *)
Definition is_decimal_digit (c : ascii) : bool :=
  let n := Z.of_N (N_of_ascii c) in (48 <=? n) && (n <=? 57).

Definition decimal_digits (s : string) : bool :=
  negb (is_nil (list_ascii_of_string s))
  && forallb is_decimal_digit (list_ascii_of_string s).

Definition decimal_value (s : string) : Z :=
  fold_left (fun acc c => acc * 10 + (Z.of_N (N_of_ascii c) - 48))
    (list_ascii_of_string s) 0.

End JsNumber.

Import JsNumber.

(** ** Values of a parsed JSON request body *)

Inductive json : Type :=
| JNull
| JBool (b : bool)
| JNum (x : number)
| JStr (s : string)
| JArr (elements : list json)
| JObj (fields : list (string * json)).

(** [obj.key] on a parsed JSON object; of two members with the same name
    the later one is kept by [JSON.parse].  [None] is [undefined]. *)
Fixpoint get_prop (key : string) (fields : list (string * json))
  : option json :=
  match fields with
  | [] => None
  | (k, v) :: rest =>
      match get_prop key rest with
      | Some v' => Some v'
      | None => if String.eqb key k then Some v else None
      end
  end.

Definition has_own (key : string) (fields : list (string * json)) : bool :=
  match get_prop key fields with Some _ => true | None => false end.

(** The result of evaluating an expression: a value or a thrown TypeError. *)
Inductive completion (A : Type) : Type :=
| Normal (v : A)
| ThrowTypeError.
Arguments Normal {A} v.
Arguments ThrowTypeError {A}.

(** Whether converting [v] to a string throws.  A plain object is printed
    by the inherited [Object.prototype.toString] unless it has a member
    named [toString] of its own, which JSON can only fill with something
    that is not callable; an array joins the strings of its elements. *)
Fixpoint to_string_throws (v : json) : bool :=
  match v with
  | JObj fields => has_own "toString" fields
  | JArr elements => existsb to_string_throws elements
  | _ => false
  end.

(** [Number(v)].  An array is converted through its string, the
    comma-separated strings of its elements ([null] printed as the empty
    string): no string, one element's string, or a text with a comma, which
    is no numeric literal.  A number printed and read back is itself,
    except that [-0] prints as ["0"]. *)
Fixpoint ToNumber (v : json) : completion number :=
  match v with
  | JNull => Normal pos_zero
  | JBool b => Normal (if b then of_Z 1 else pos_zero)
  | JNum x => Normal x
  | JStr s => Normal (StringToNumber s)
  | JObj fields =>
      if has_own "toString" fields then ThrowTypeError else Normal NaN
  | JArr [] => Normal pos_zero
  | JArr [e] =>
      match e with
      | JNull => Normal pos_zero
      | JBool _ => Normal NaN
      | JNum x => Normal (match x with S754_zero _ => pos_zero | _ => x end)
      | JStr s => Normal (StringToNumber s)
      | JArr _ => ToNumber e
      | JObj fields =>
          if has_own "toString" fields then ThrowTypeError else Normal NaN
      end
  | JArr elements =>
      if existsb to_string_throws elements then ThrowTypeError
      else Normal NaN
  end.

(** [Number(x)] for a property that may be absent: [Number(undefined)] is
    [NaN]. *)
Definition Number (x : option json) : completion number :=
  match x with
  | Some v => ToNumber v
  | None => Normal NaN
  end.

(** ** The store ([data/store.js]) *)

Record Account : Type := {
  balance : number;
  interestRate : number;
  lastWithdrawal : option number;
  currency : string
}.

Record User : Type := {
  passwordHash : string;
  account : option Account
}.

(** [users] is a plain object used as a map from usernames to users. *)
Abbreviation Users := (gmap string User).

(** The names every plain object inherits from [Object.prototype]. *)
Definition object_prototype_keys : list string :=
  [ "constructor"; "__defineGetter__"; "__defineSetter__"; "hasOwnProperty";
    "__lookupGetter__"; "__lookupSetter__"; "isPrototypeOf";
    "propertyIsEnumerable"; "toString"; "valueOf"; "__proto__";
    "toLocaleString" ].

(** The value of [users[key]]: a user of the store, otherwise a member
    inherited from [Object.prototype] (a function, or the prototype object
    itself: truthy, and without [passwordHash] or [account]), otherwise
    [undefined]. *)
Inductive property : Type :=
| Own (u : User)
| Inherited
| Undefined.

Definition users_get (users : Users) (key : string) : property :=
  match users !! key with
  | Some u => Own u
  | None =>
      if existsb (String.eqb key) object_prototype_keys then Inherited
      else Undefined
  end.

Definition customer1_account : Account :=
  {| balance := of_Z 2000;
     interestRate := StringToNumber "0.05";
     lastWithdrawal := None;
     currency := "USD" |}.

Definition customer1 (hash : string) : User :=
  {| passwordHash := hash; account := Some customer1_account |}.

(** The store as the module creates it; [hash] is the value of
    [bcrypt.hashSync("bank123", 10)]. *)
Definition initial_users (hash : string) : Users :=
  {[ "customer1" := customer1 hash ]}.

(** ** Requests and responses *)

(** [req.user], as the authorization middleware sets it. *)
Record ReqUser : Type := { username : option string }.

Record Request : Type := {
  user : option ReqUser;
  body : list (string * json)
}.

Inductive Body : Type :=
| Message (message : string)
| AccountBody (a : Account)
| WithdrawBody (message : string) (balance : number)
    (lastWithdrawal : option number)
| InterestBody (balance interestRate yearlyInterest monthlyInterest : number)
    (currency : string)
| TokenBody (token : string).

Record Response : Type := { status : Z; payload : Body }.

(** [res.json(b)] answers with status 200, [res.status(s).json(b)] with
    [s]. *)
Definition res_json (b : Body) : Response := {| status := 200; payload := b |}.
Definition res_status_json (s : Z) (b : Body) : Response :=
  {| status := s; payload := b |}.

(** What a synchronous handler does: it sends a response or throws. *)
Inductive Outcome : Type :=
| Sent (r : Response)
| Thrown.

(** ** The account routes ([routes/account.js]) *)

(** The account object of the request's user.  The object belongs to the
    store, so it is returned with the key of its owner, under which
    updates of the object are written. *)
Definition getAccountForReq (users : Users) (req : Request)
  : option (string * User * Account) :=
  match user req with
  | None => None
  | Some ru =>
      match username ru with
      | None => None
      | Some name =>
          if String.eqb name "" then None
          else
            match users_get users name with
            | Own u =>
                match account u with
                | Some a => Some (name, u, a)
                | None => None
                end
            | Inherited => None
            | Undefined => None
            end
      end
  end.

Definition not_found : Response :=
  res_status_json 404 (Message "Account not found").

(** [GET /] *)
Definition get_account (users : Users) (req : Request) : Users * Outcome :=
  match getAccountForReq users req with
  | None => (users, Sent not_found)
  | Some (_, _, a) => (users, Sent (res_json (AccountBody a)))
  end.

Definition set_balance (a : Account) (b : number) : Account :=
  {| balance := b; interestRate := interestRate a;
     lastWithdrawal := lastWithdrawal a; currency := currency a |}.

Definition set_lastWithdrawal (a : Account) (w : number) : Account :=
  {| balance := balance a; interestRate := interestRate a;
     lastWithdrawal := Some w; currency := currency a |}.

Definition set_account (u : User) (a : Account) : User :=
  {| passwordHash := passwordHash u; account := Some a |}.

(** [POST /withdraw] *)
Definition withdraw (users : Users) (req : Request) : Users * Outcome :=
  match Number (get_prop "amount" (body req)) with
  | ThrowTypeError => (users, Thrown)
  | Normal amount =>
      if isNaN amount then
        (users, Sent (res_status_json 400 (Message "Amount must be a number")))
      else if le amount pos_zero then
        (users,
         Sent (res_status_json 400 (Message "Invalid withdrawal amount")))
      else
        match getAccountForReq users req with
        | None => (users, Sent not_found)
        | Some (name, u, a) =>
            if gt amount (balance a) then
              (users,
               Sent (res_status_json 400 (Message "Insufficient funds")))
            else
              let a1 := set_balance a (sub (balance a) amount) in
              let a2 := set_lastWithdrawal a1 amount in
              (<[name := set_account u a2]> users,
               Sent (res_json (WithdrawBody "Withdrawal successful"
                                 (balance a2) (lastWithdrawal a2))))
        end
  end.

(** [GET /interest] *)
Definition interest (users : Users) (req : Request) : Users * Outcome :=
  match getAccountForReq users req with
  | None => (users, Sent not_found)
  | Some (_, _, a) =>
      let yearlyInterest := mul (balance a) (interestRate a) in
      let monthlyInterest := div yearlyInterest (of_Z 12) in
      (users,
       Sent (res_json (InterestBody (balance a) (interestRate a)
                         yearlyInterest monthlyInterest (currency a))))
  end.

(** ** JSON Web Tokens, as the [jsonwebtoken] package handles them *)

Record JwtPayload : Type := {
  jwt_username : option string;
  iat : option Z;
  nbf : option Z;
  exp : option Z
}.

Inductive JwtError : Type :=
| JsonWebTokenError
| NotBeforeError
| TokenExpiredError.

(** [process.env.JWT_SECRET || 'dev-secret'] *)
Definition jwt_secret (env_JWT_SECRET : option string) : string :=
  match env_JWT_SECRET with
  | Some s => if String.eqb s "" then "dev-secret" else s
  | None => "dev-secret"
  end.

(** [s.split(' ')]: the pieces of [s] between the occurrences of [sep];
    a string without [sep], the empty one included, is one piece. *)
Fixpoint split (sep : ascii) (s : string) : list string :=
  match s with
  | EmptyString => [""]
  | String c r =>
      if Ascii.eqb c sep then "" :: split sep r
      else
        match split sep r with
        | piece :: pieces => String c piece :: pieces
        | [] => [String c ""]
        end
  end.

(** [req.headers.authorization || ''] *)
Definition header_value (authorization : option string) : string :=
  match authorization with
  | Some h => h
  | None => ""
  end.

Section Server.

(** The packages the server calls.  [jws_sign p secret] is the compact
    serialization of the payload [p] with its HS256 signature under
    [secret]; [jws_verify token secret] decodes a well-formed token whose
    signature is the one for [secret].  [bcrypt_compare password hash]
    tells whether the password has this salted hash.  Times are in
    seconds, [Math.floor(Date.now() / 1000)]. *)
Variable jws_sign : JwtPayload -> string -> string.
Variable jws_verify : string -> string -> option JwtPayload.
Variable bcrypt_compare : string -> string -> bool.

(** [jwt.sign({ username }, secret, { expiresIn: '1h' })] at time [now] *)
Definition jwt_sign (name : option string) (secret : string) (now : Z)
  : string :=
  jws_sign {| jwt_username := name; iat := Some now; nbf := None;
              exp := Some (now + 3600) |} secret.

(** [jwt.verify(token, secret)] at time [now]: the payload, or the error
    thrown. *)
Definition jwt_verify (token secret : string) (now : Z)
  : JwtPayload + JwtError :=
  if String.eqb token "" then inr JsonWebTokenError
  else
    match jws_verify token secret with
    | None => inr JsonWebTokenError
    | Some p =>
        if match nbf p with Some t => now <? t | None => false end
        then inr NotBeforeError
        else if match exp p with Some t => t <=? now | None => false end
        then inr TokenExpiredError
        else inl p
    end.

(** *** The authorization middleware ([middleware/auth.js]) *)

Inductive AuthOutcome : Type :=
| Next (u : ReqUser)
| Rejected (r : Response).

(** The middleware's outcome for the [Authorization] header of a
    request, with the tokens it has passed to [jwt.verify]. *)
Definition auth (env_JWT_SECRET : option string) (now : Z)
    (authorization : option string) : AuthOutcome * list string :=
  let parts := split " " (header_value authorization) in
  if negb (Nat.eqb (length parts) 2)
     || negb (String.eqb (nth 0 parts "") "Bearer")
  then
    (Rejected (res_status_json 401
                 (Message "Missing or invalid Authorization header")), [])
  else
    let token := nth 1 parts "" in
    match jwt_verify token (jwt_secret env_JWT_SECRET) now with
    | inl p => (Next {| username := jwt_username p |}, [token])
    | inr _ =>
        (Rejected (res_status_json 401 (Message "Invalid or expired token")),
         [token])
    end.

(** *** The login route ([routes/auth.js]) *)

(** The members of the login body, where they are strings. *)
Record LoginBody : Type := {
  login_username : option string;
  login_password : option string
}.

(** The handler is asynchronous: it sends a response, or its promise is
    rejected with the error of [bcrypt.compare], which refuses arguments
    that are not strings. *)
Inductive LoginOutcome : Type :=
| LoginSent (r : Response)
| LoginRejected.

Definition invalid_credentials : Response :=
  res_status_json 401 (Message "Invalid credentials").

(** [bcrypt.compare(password, hash)] *)
Definition bcrypt_compare_async (password hash : option string)
  : option bool :=
  match password, hash with
  | Some p, Some h => Some (bcrypt_compare p h)
  | _, _ => None
  end.

Definition login (users : Users) (env_JWT_SECRET : option string) (now : Z)
    (b : LoginBody) : LoginOutcome :=
  let key := match login_username b with Some n => n | None => "undefined" end in
  let continue (hash : option string) :=
    match bcrypt_compare_async (login_password b) hash with
    | None => LoginRejected
    | Some false => LoginSent invalid_credentials
    | Some true =>
        let secret := jwt_secret env_JWT_SECRET in
        let token := jwt_sign (login_username b) secret now in
        LoginSent (res_json (TokenBody token))
    end in
  match users_get users key with
  | Undefined => LoginSent invalid_credentials
  | Inherited => continue None
  | Own u => continue (Some (passwordHash u))
  end.

(** *** The application ([server.js]) *)

(** The error handler answers for a handler that throws. *)
Definition error_handler : Response :=
  res_status_json 500 (Message "Internal Server Error").

Definition respond (o : Outcome) : Response :=
  match o with
  | Sent r => r
  | Thrown => error_handler
  end.

(** A route of the account router: [router.use(auth)] runs first, and
    the handler only when the middleware calls [next()]. *)
Definition account_route (handler : Users -> Request -> Users * Outcome)
    (users : Users) (env_JWT_SECRET : option string) (now : Z)
    (authorization : option string) (body : list (string * json))
  : Users * Response :=
  match fst (auth env_JWT_SECRET now authorization) with
  | Rejected r => (users, r)
  | Next u =>
      let '(users', o) := handler users {| user := Some u; body := body |} in
      (users', respond o)
  end.

End Server.

(** ** Stand-ins for the packages

    A serialization of payloads and a password check with which the server
    can be run on concrete requests.  The token is the secret and the four
    members of the payload, separated by dots; it has the shape the server
    relies on and no cryptographic strength. *)

Module Demo.

Definition hex_digit (n : N) : ascii :=
  ascii_of_N (if (n <? 10)%N then 48 + n else 87 + n)%N.

Fixpoint hex (s : string) : string :=
  match s with
  | EmptyString => ""
  | String c r =>
      String (hex_digit (N_of_ascii c / 16))
        (String (hex_digit (N_of_ascii c mod 16)) (hex r))
  end.

Fixpoint unhex (s : string) : option string :=
  match s with
  | EmptyString => Some ""
  | String h (String l r) =>
      match digit_in 16 h, digit_in 16 l, unhex r with
      | Some x, Some y, Some t =>
          Some (String (ascii_of_N (Z.to_N (16 * x + y))) t)
      | _, _, _ => None
      end
  | String _ EmptyString => None
  end.

Fixpoint bits (p : positive) (acc : string) : string :=
  match p with
  | xH => String "1" acc
  | xO q => bits q (String "0" acc)
  | xI q => bits q (String "1" acc)
  end.

Definition print_string (o : option string) : string :=
  match o with
  | None => "n"
  | Some s => String "s" (hex s)
  end.

Definition print_Z (o : option Z) : string :=
  match o with
  | None => "n"
  | Some Z0 => "p0"
  | Some (Zpos p) => String "p" (bits p "")
  | Some (Zneg p) => String "m" (bits p "")
  end.

Definition parse_string (s : string) : option (option string) :=
  match s with
  | String c r =>
      if Ascii.eqb c "n" then
        match r with EmptyString => Some None | _ => None end
      else if Ascii.eqb c "s" then option_map Some (unhex r)
      else None
  | EmptyString => None
  end.

Definition parse_Z (s : string) : option (option Z) :=
  match s with
  | String c r =>
      if Ascii.eqb c "n" then
        match r with EmptyString => Some None | _ => None end
      else if Ascii.eqb c "p" || Ascii.eqb c "m" then
        let '(v, n, rest) := read_digits 2 0 0 (list_ascii_of_string r) in
        if (0 <? n) && is_nil rest
        then Some (Some (cond_Zopp (Ascii.eqb c "m") v))
        else None
      else None
  | EmptyString => None
  end.

Definition jws_sign (p : JwtPayload) (secret : string) : string :=
  hex secret ++ "." ++ print_string (jwt_username p) ++ "."
  ++ print_Z (iat p) ++ "." ++ print_Z (nbf p) ++ "." ++ print_Z (exp p).

Definition jws_verify (token secret : string) : option JwtPayload :=
  match split "." token with
  | [sig; f1; f2; f3; f4] =>
      if String.eqb sig (hex secret) then
        match parse_string f1, parse_Z f2, parse_Z f3, parse_Z f4 with
        | Some name, Some i, Some n, Some e =>
            Some {| jwt_username := name; iat := i; nbf := n; exp := e |}
        | _, _, _, _ => None
        end
      else None
  | _ => None
  end.

(** The hash of a password is the password after a dollar sign. *)
Definition bcrypt_hash (password : string) : string :=
  String "$" password.

Definition bcrypt_compare (password hash : string) : bool :=
  String.eqb hash (bcrypt_hash password).

End Demo.

(** ** Runs of the withdrawal route *)

(** The store after a sequence of withdrawal requests, each handled to
    completion before the next. *)
Fixpoint run_withdrawals (users : Users) (reqs : list Request) : Users :=
  match reqs with
  | [] => users
  | req :: rest => run_withdrawals (fst (withdraw users req)) rest
  end.

(** A request of the authenticated user [name] with the given body. *)
Definition request_of (name : string) (body : list (string * json))
  : Request :=
  {| user := Some {| username := Some name |}; body := body |}.

(** The responses of the withdrawal route. *)
Definition NotANumber : Response :=
  res_status_json 400 (Message "Amount must be a number").
Definition InvalidAmount : Response :=
  res_status_json 400 (Message "Invalid withdrawal amount").
Definition NotFound : Response := not_found.
Definition InsufficientFunds : Response :=
  res_status_json 400 (Message "Insufficient funds").

(** Strings of white space only, the empty string among them. *)
Definition all_whitespace (s : string) : bool :=
  forallb is_whitespace (list_ascii_of_string s).

Definition is_error (o : Outcome) : bool :=
  match o with
  | Sent r => negb (status r =? 200)
  | Thrown => true
  end.

(** ** Notions of the proofs *)

(** Every account of the store has a balance for which [ok] holds. *)
Definition balances_satisfy (ok : number -> bool) (users : Users) : Prop :=
  forall name u a,
    users !! name = Some u -> account u = Some a -> ok (balance a) = true.

(** [ok] passes from a balance to what a withdrawal leaves of it: the
    balance less an amount that is a number, is above zero and does not
    exceed the balance. *)
Definition kept_by_withdrawal (ok : number -> bool) : Prop :=
  forall amount b,
    isNaN amount = false -> le amount pos_zero = false ->
    gt amount b = false -> ok b = true -> ok (sub b amount) = true.

(** Whether digits were lost on the way to the record. *)
Definition lost (mrs : shr_record) : bool := shr_r mrs || shr_s mrs.

(** [y] is [x] shifted right by [k] digits: the mantissa is divided by
    [2^k], and nothing is marked lost when nothing was. *)
Definition shifted (k : Z) (x y : shr_record) : Prop :=
  0 <= shr_m y
  /\ shr_m y = shr_m x / 2 ^ k
  /\ (lost x = false -> shr_m x mod 2 ^ k = 0 -> lost y = false).

(** ** Notions of the properties of whole stores *)

(** [u'] is [u] but for the balance and the last withdrawal of its
    account. *)
Definition same_but_balance (u u' : User) : Prop :=
  passwordHash u' = passwordHash u
  /\ match account u, account u' with
     | Some a, Some a' =>
         interestRate a' = interestRate a /\ currency a' = currency a
     | None, None => True
     | _, _ => False
     end.

(** The two stores have the same users, each the same but for balance and
    last withdrawal. *)
Definition same_users (users users' : Users) : Prop :=
  forall k,
    match users !! k, users' !! k with
    | Some u, Some u' => same_but_balance u u'
    | None, None => True
    | _, _ => False
    end.

(** Every recorded last withdrawal is a number above zero. *)
Definition last_withdrawals_positive (users : Users) : Prop :=
  forall k u a w,
    users !! k = Some u -> account u = Some a ->
    lastWithdrawal a = Some w -> gt w pos_zero = true.

(** The request [req] with another body. *)
Definition with_body (req : Request) (body' : list (string * json))
  : Request :=
  {| user := user req; body := body' |}.

(** A ledger in whole units: the balance [b] after the amount [n] is
    asked of it.  The amount is taken when it is above zero and the
    balance covers it. *)
Definition whole_withdraw (b n : Z) : Z :=
  if (0 <? n) && (n <=? b) then b - n else b.

(** The request is made in the name of [name] and its amount converts to
    the whole number [n], which is between [-2^53] and [2^53]. *)
Definition whole_request (name : string) (req : Request) (n : Z) : Prop :=
  user req = Some {| username := Some name |}
  /\ Number (get_prop "amount" (body req)) = Normal (of_Z n)
  /\ - 2 ^ 53 < n < 2 ^ 53.

(** What holds of every store that withdrawals make of the initial one:
    [customer1] is the only user, with the password hash, the rate and
    the currency of the start, a balance that is a finite number from 0
    to 2000, and a last withdrawal, where there is one, above zero. *)
Definition seed_invariant (hash : string) (users : Users) : Prop :=
  (forall k, is_Some (users !! k) <-> k = "customer1")
  /\ exists a,
       users !! "customer1"
       = Some {| passwordHash := hash; account := Some a |}
       /\ interestRate a = interestRate customer1_account
       /\ currency a = currency customer1_account
       /\ finite_not_negative (balance a) = true
       /\ le (balance a) (balance customer1_account) = true
       /\ (forall w, lastWithdrawal a = Some w -> gt w pos_zero = true).

(** * Properties *)

(** ** Numbers *)

Module JsNumberFacts.

(** *** Powers of two and binary digits *)

Lemma pow2_pos (k : Z) : 0 <= k -> 0 < 2 ^ k.
Proof. intros H. apply Z.pow_pos_nonneg; lia. Qed.

Lemma pow2_split (a b : Z) : 0 <= a -> 0 <= b -> 2 ^ (a + b) = 2 ^ a * 2 ^ b.
Proof. intros. apply Z.pow_add_r; assumption. Qed.

Lemma pow2_le (a b : Z) : 0 <= a <= b -> 2 ^ a <= 2 ^ b.
Proof. intros H. apply Z.pow_le_mono_r; lia. Qed.

Lemma pow2_lt_inv (a b : Z) : 0 <= b -> 2 ^ a < 2 ^ b -> a < b.
Proof.
  intros Hb H. destruct (Z_lt_le_dec a b) as [|Hle]; [assumption|].
  pose proof (pow2_le b a ltac:(lia)). lia.
Qed.

Lemma pow2_succ (k : Z) : 0 <= k -> 2 ^ (k + 1) = 2 * 2 ^ k.
Proof. intros H. rewrite pow2_split by lia. simpl. lia. Qed.

Lemma digits2_pos_bounds (p : positive) :
  2 ^ (Zpos (digits2_pos p) - 1) <= Zpos p < 2 ^ Zpos (digits2_pos p).
Proof.
  induction p as [p IH|p IH|]; cbn [digits2_pos]; [| |simpl; lia];
    rewrite Pos2Z.inj_succ;
    set (D := Zpos (digits2_pos p)) in *;
    assert (HD : 0 < D) by (unfold D; lia);
    pose proof (pow2_succ (D - 1) ltac:(lia)) as E1;
    pose proof (pow2_succ D ltac:(lia)) as E2;
    replace (D - 1 + 1) with D in E1 by lia;
    replace (Z.succ D - 1) with D by lia;
    replace (Z.succ D) with (D + 1) by lia;
    lia.
Qed.

Lemma digits2_pos_unique (p : positive) (d : Z) :
  2 ^ (d - 1) <= Zpos p < 2 ^ d -> Zpos (digits2_pos p) = d.
Proof.
  intros [Hl Hu]. pose proof (digits2_pos_bounds p) as [Hl' Hu'].
  set (D := Zpos (digits2_pos p)) in *.
  assert (0 < D) by (subst D; lia).
  assert (0 < d).
  { destruct (Z_lt_le_dec 0 d); [assumption|].
    destruct (Z.eq_dec d 0) as [->|]; [simpl in Hu; lia|].
    rewrite Z.pow_neg_r in Hu by lia. lia. }
  destruct (Z.lt_trichotomy D d) as [Hlt|[Heq|Hgt]]; [|assumption|].
  - pose proof (pow2_le D (d - 1) ltac:(lia)). lia.
  - pose proof (pow2_le d (D - 1) ltac:(lia)). lia.
Qed.

Lemma iter_xO (d m : positive) :
  Zpos (Pos.iter xO m d) = Zpos m * 2 ^ Zpos d.
Proof.
  change (Pos.iter xO m d) with (shift_pos d m).
  rewrite shift_pos_correct.
  change (Z.pow_pos 2 d) with (2 ^ Zpos d). lia.
Qed.

(** [shl_align] lowers the exponent to [Z.min e e'] and keeps the value. *)
Lemma shl_align_spec (m : positive) (e e' : Z) :
  snd (shl_align m e e') = Z.min e e'
  /\ Zpos (fst (shl_align m e e')) = Zpos m * 2 ^ (e - Z.min e e').
Proof.
  unfold shl_align. destruct (e' - e) as [|d|d] eqn:E; simpl.
  - replace (Z.min e e') with e by lia. rewrite Z.sub_diag. simpl. lia.
  - replace (Z.min e e') with e by lia. rewrite Z.sub_diag. simpl. lia.
  - replace (Z.min e e') with e' by lia. split; [reflexivity|].
    rewrite iter_xO. f_equal. f_equal. lia.
Qed.

Lemma digits2_pos_shift (p q : positive) (k : Z) :
  0 <= k -> Zpos q = Zpos p * 2 ^ k ->
  Zpos (digits2_pos q) = Zpos (digits2_pos p) + k.
Proof.
  intros Hk Hq. apply digits2_pos_unique. rewrite Hq.
  pose proof (digits2_pos_bounds p) as [Hl Hu].
  pose proof (pow2_pos k Hk).
  replace (Zpos (digits2_pos p) + k - 1) with ((Zpos (digits2_pos p) - 1) + k) by lia.
  rewrite !pow2_split by lia. nia.
Qed.

(** *** Comparison *)

Lemma aligned_value (s : bool) (m : positive) (e1 e2 : Z) :
  aligned s m e1 e2 = cond_Zopp s (Zpos m * 2 ^ (e1 - Z.min e1 e2)).
Proof.
  unfold aligned. f_equal.
  destruct (shl_align_spec m e1 (Z.min e1 e2)) as [_ H].
  rewrite H. f_equal. f_equal. lia.
Qed.

(** A canonical mantissa has at most 53 digits, and exactly 53 above the
    least exponent. *)
Lemma bounded_digits (m : positive) (e : Z) :
  bounded prec emax m e = true ->
  Zpos (digits2_pos m) <= 53 /\ -1074 <= e <= 971
  /\ (-1074 < e -> Zpos (digits2_pos m) = 53).
Proof.
  unfold bounded, canonical_mantissa, fexp, emin, prec, emax.
  intros H. apply andb_prop in H as [H1 H2].
  apply Z.eqb_eq in H1. apply Z.leb_le in H2. lia.
Qed.

Lemma magnitude_compare (m1 m2 : positive) (e1 e2 : Z) :
  bounded prec emax m1 e1 = true -> bounded prec emax m2 e2 = true ->
  (Zpos m1 * 2 ^ (e1 - Z.min e1 e2) ?= Zpos m2 * 2 ^ (e2 - Z.min e2 e1))
  = match e1 ?= e2 with
    | Lt => Lt
    | Gt => Gt
    | Eq => Pos.compare_cont Eq m1 m2
    end.
Proof.
  intros H1 H2.
  destruct (bounded_digits _ _ H1) as (Hd1 & He1 & Hn1).
  destruct (bounded_digits _ _ H2) as (Hd2 & He2 & Hn2).
  pose proof (digits2_pos_bounds m1) as [Hl1 Hu1].
  pose proof (digits2_pos_bounds m2) as [Hl2 Hu2].
  assert (Hcap : forall m : positive,
             Zpos (digits2_pos m) <= 53 -> Zpos m < 2 ^ 53).
  { intros m Hm. pose proof (digits2_pos_bounds m) as [_ Hu].
    pose proof (pow2_le (Zpos (digits2_pos m)) 53 ltac:(lia)). lia. }
  pose proof (Hcap m1 Hd1) as Hc1. pose proof (Hcap m2 Hd2) as Hc2.
  destruct (Z.compare_spec e1 e2) as [->|Hlt|Hgt].
  - rewrite Z.min_id, Z.sub_diag, !Z.mul_1_r. reflexivity.
  - replace (Z.min e1 e2) with e1 by lia.
    replace (Z.min e2 e1) with e1 by lia.
    rewrite Z.sub_diag, Z.mul_1_r. apply Z.compare_lt_iff.
    rewrite (Hn2 ltac:(lia)) in Hl2.
    pose proof (pow2_le 1 (e2 - e1) ltac:(lia)) as Hp.
    change (2 ^ 1) with 2 in Hp. change (2 ^ (53 - 1)) with (2 ^ 52) in Hl2.
    change (2 ^ 53) with (2 * 2 ^ 52) in Hc1. nia.
  - replace (Z.min e1 e2) with e2 by lia.
    replace (Z.min e2 e1) with e2 by lia.
    rewrite Z.sub_diag, Z.mul_1_r. apply Z.compare_gt_iff.
    rewrite (Hn1 ltac:(lia)) in Hl1.
    pose proof (pow2_le 1 (e1 - e2) ltac:(lia)) as Hp.
    change (2 ^ 1) with 2 in Hp. change (2 ^ (53 - 1)) with (2 ^ 52) in Hl1.
    change (2 ^ 53) with (2 * 2 ^ 52) in Hc2. nia.
Qed.

(** On canonical binary64 values the comparison by value is the
    comparison of the Standard Library. *)
Lemma compare_SFcompare (x y : number) :
  is_double x = true -> is_double y = true ->
  compare x y = SFcompare x y.
Proof.
  destruct x as [sx|sx| |sx mx ex], y as [sy|sy| |sy my ey];
    try reflexivity; try (destruct sx, sy; reflexivity).
  cbn [is_double valid_binary compare SFcompare]. intros Hx Hy.
  rewrite !aligned_value.
  pose proof (magnitude_compare mx my ex ey Hx Hy) as H.
  destruct sx, sy; cbn [cond_Zopp].
  - rewrite Z.compare_opp, Z.compare_antisym, H.
    destruct (ex ?= ey); reflexivity.
  - f_equal. apply Z.compare_lt_iff.
    pose proof (pow2_pos (ex - Z.min ex ey) ltac:(lia)).
    pose proof (pow2_pos (ey - Z.min ey ex) ltac:(lia)). nia.
  - f_equal. apply Z.compare_gt_iff.
    pose proof (pow2_pos (ex - Z.min ex ey) ltac:(lia)).
    pose proof (pow2_pos (ey - Z.min ey ex) ltac:(lia)). nia.
  - rewrite H. reflexivity.
Qed.

(** *** Shifting a mantissa to the right *)

Lemma shifted_refl (x : shr_record) : 0 <= shr_m x -> shifted 0 x x.
Proof.
  intros H. unfold shifted. change (2 ^ 0) with 1.
  rewrite Z.div_1_r. auto.
Qed.

Lemma shifted_shr_1 (x : shr_record) : 0 <= shr_m x -> shifted 1 x (shr_1 x).
Proof.
  destruct x as [m r s]. unfold shifted, lost. change (2 ^ 1) with 2.
  cbn [shr_m shr_r shr_s]. intros Hm.
  destruct m as [|[p|p|]|p]; cbn [shr_1 shr_m shr_r shr_s]; try lia.
  - rewrite Z.div_0_l by lia. repeat split; try lia.
    intros ->. reflexivity.
  - repeat split; try lia.
    + apply (Z.div_unique (Zpos p~1) 2 (Zpos p) 1); lia.
    + intros _ H. exfalso.
      pose proof (Z.mod_unique (Zpos p~1) 2 (Zpos p) 1 ltac:(lia) ltac:(lia)).
      lia.
  - repeat split; try lia.
    + apply (Z.div_unique (Zpos p~0) 2 (Zpos p) 0); lia.
    + intros ->. reflexivity.
  - repeat split; try lia. intros _ H. discriminate H.
Qed.

Lemma shifted_trans (a b : Z) (x y z : shr_record) :
  0 <= a -> 0 <= b -> 0 <= shr_m x ->
  shifted a x y -> shifted b y z -> shifted (a + b) x z.
Proof.
  intros Ha Hb Hx (Hy0 & Hy & Hly) (Hz0 & Hz & Hlz).
  pose proof (pow2_pos a Ha) as Hpa. pose proof (pow2_pos b Hb) as Hpb.
  unfold shifted. rewrite pow2_split by assumption.
  split; [assumption|]. split.
  - rewrite Hz, Hy. apply Z.div_div; lia.
  - intros Hl Hmod.
    apply Z.mod_divide in Hmod; [|lia]. destruct Hmod as [q Hq].
    apply Hlz.
    + apply Hly; [assumption|].
      apply Z.mod_divide; [lia|]. exists (q * 2 ^ b). lia.
    + rewrite Hy. apply Z.mod_divide; [lia|]. exists q.
      rewrite Hq. replace (q * (2 ^ a * 2 ^ b)) with (q * 2 ^ b * 2 ^ a) by lia.
      apply Z.div_mul. lia.
Qed.

Lemma shifted_iter_pos (p : positive) :
  forall x, 0 <= shr_m x -> shifted (Zpos p) x (SpecFloat.iter_pos shr_1 p x).
Proof.
  induction p as [p IH|p IH|]; intros x Hx; cbn [SpecFloat.iter_pos].
  - pose proof (shifted_shr_1 x Hx) as H1.
    pose proof (IH _ (proj1 H1)) as H2.
    pose proof (IH _ (proj1 H2)) as H3.
    replace (Zpos p~1) with (1 + Zpos p + Zpos p) by lia.
    apply (shifted_trans (1 + Zpos p) (Zpos p) x
             (SpecFloat.iter_pos shr_1 p (shr_1 x))); try lia; [|exact H3].
    apply (shifted_trans 1 (Zpos p) x (shr_1 x)); try lia; assumption.
  - pose proof (IH _ Hx) as H1.
    pose proof (IH _ (proj1 H1)) as H2.
    replace (Zpos p~0) with (Zpos p + Zpos p) by lia.
    apply (shifted_trans (Zpos p) (Zpos p) x (SpecFloat.iter_pos shr_1 p x));
      try lia; assumption.
  - apply shifted_shr_1. assumption.
Qed.

Lemma shr_spec (x : shr_record) (e n : Z) :
  0 <= shr_m x -> 0 <= n ->
  snd (shr x e n) = e + n /\ shifted n x (fst (shr x e n)).
Proof.
  intros Hx Hn. destruct n as [|p|p]; cbn [shr fst snd]; try lia.
  - split; [lia|]. apply shifted_refl. assumption.
  - split; [reflexivity|]. apply shifted_iter_pos. assumption.
Qed.

Lemma shr_nonpos (x : shr_record) (e n : Z) : n <= 0 -> shr x e n = (x, e).
Proof. destruct n; [reflexivity|lia|reflexivity]. Qed.

(** Rounding to nearest keeps the mantissa or adds one to it, and keeps
    it when nothing was lost. *)
Lemma round_nearest_even_spec (x : shr_record) :
  let m := round_nearest_even (shr_m x) (loc_of_shr_record x) in
  m = shr_m x \/ (m = shr_m x + 1 /\ lost x = true).
Proof.
  destruct x as [m r s]. unfold lost. cbn [shr_m shr_r shr_s].
  destruct r, s; cbn [loc_of_shr_record round_nearest_even]; auto.
  destruct (Z.even m); auto.
Qed.

(** *** Rounding a positive value that the largest finite number bounds *)

Lemma fexp_eq (e : Z) : fexp prec emax e = Z.max (e - 53) (-1074).
Proof. reflexivity. Qed.

(** The value [mz * 2^ez], with [ez] at or below its canonical exponent,
    is at most [(2^53 - 1) * 2^E] for an exponent [E] of binary64: it
    rounds to zero or to a finite number in canonical form, never to
    infinity. *)
Lemma binary_round_aux_finite (mz : positive) (ez E : Z) :
  ez <= fexp prec emax (Zpos (digits2_pos mz) + ez) ->
  ez <= E <= 971 ->
  Zpos mz <= (2 ^ 53 - 1) * 2 ^ (E - ez) ->
  finite_not_negative
    (binary_round_aux prec emax false (Zpos mz) ez loc_Exact) = true.
Proof.
  intros Hn HE Hbound.
  pose proof (digits2_pos_bounds mz) as [Hl Hu].
  unfold binary_round_aux, shr_fexp.
  cbn [Zdigits2 shr_record_of_loc].
  rewrite fexp_eq in *.
  remember (Zpos (digits2_pos mz)) as dz eqn:Edz.
  assert (Hdz : 0 < dz) by lia.
  remember (Z.max (dz + ez - 53) (-1074)) as e1 eqn:Ee1.
  remember (e1 - ez) as n eqn:En.
  destruct (shr_spec {| shr_m := Zpos mz; shr_r := false; shr_s := false |}
              ez n ltac:(simpl; lia) ltac:(lia))
    as [Hsnd (Hm1 & Hdiv & Hlost)].
  destruct (shr _ ez n) as [x1 e1'] eqn:Hshr. cbn [fst snd] in *.
  assert (He1 : e1' = e1) by lia. clear Hsnd. subst e1'.
  cbn [shr_m] in Hdiv, Hlost. specialize (Hlost eq_refl).
  remember (shr_m x1) as m1 eqn:Em1.
  pose proof (pow2_pos n ltac:(lia)) as HP.
  remember (2 ^ n) as P eqn:EP.
  assert (Hq1 : P * m1 <= Zpos mz)
    by (rewrite Hdiv; apply Z.mul_div_le; lia).
  assert (Hq2 : Zpos mz < P * (m1 + 1)).
  { rewrite Hdiv. pose proof (Z.mul_succ_div_gt (Zpos mz) P HP). lia. }
  assert (Hdn : dz <= 53 + n) by lia.
  assert (Hcap : m1 < 2 ^ 53).
  { pose proof (pow2_le dz (53 + n) ltac:(lia)) as H.
    rewrite (pow2_split 53 n) in H by lia. rewrite <- EP in H. nia. }
  assert (Hmant : -1074 < e1 -> 2 ^ 52 <= m1).
  { intros He. assert (Hd : dz - 1 = 52 + n) by lia.
    rewrite Hd, (pow2_split 52 n) in Hl by lia. rewrite <- EP in Hl. nia. }
  assert (HA : e1 <= 971).
  { assert (H : 2 ^ (dz - 1) < 2 ^ (53 + (E - ez))).
    { rewrite (pow2_split 53 (E - ez)) by lia.
      pose proof (pow2_pos (E - ez) ltac:(lia)). nia. }
    apply pow2_lt_inv in H; lia. }
  pose proof (round_nearest_even_spec x1) as Hr. cbn zeta in Hr.
  rewrite <- Em1 in Hr.
  remember (round_nearest_even m1 (loc_of_shr_record x1)) as m2 eqn:Em2.
  assert (HB : m2 = 2 ^ 53 -> e1 < 971).
  { intros H2. destruct Hr as [Hr|[Hr Hl1]]; [lia|].
    destruct (Z_lt_le_dec e1 971) as [|Hge]; [assumption|exfalso].
    assert (Hmod : Zpos mz mod P <> 0).
    { intros H0. rewrite (Hlost H0) in Hl1. discriminate. }
    pose proof (Z.div_mod (Zpos mz) P ltac:(lia)) as Hdm.
    pose proof (Z.mod_pos_bound (Zpos mz) P HP) as Hmb.
    rewrite <- Hdiv in Hdm.
    pose proof (pow2_le (E - ez) n ltac:(lia)) as Hpw.
    rewrite <- EP in Hpw. nia. }
  destruct m2 as [|p2|p2]; [| |lia].
  - rewrite shr_nonpos by (rewrite fexp_eq; cbn [Zdigits2]; lia).
    reflexivity.
  - pose proof (digits2_pos_bounds p2) as [Hl2 Hu2].
    cbn [Zdigits2]. rewrite fexp_eq.
    remember (Zpos (digits2_pos p2)) as d2 eqn:Ed2.
    assert (Hd2 : 0 < d2) by lia.
    destruct (Z_lt_le_dec (Zpos p2) (2 ^ 53)) as [Hlt|Hge].
    + assert (Hd2' : d2 <= 53).
      { assert (H : 2 ^ (d2 - 1) < 2 ^ 53) by lia.
        apply pow2_lt_inv in H; lia. }
      assert (Hd2'' : -1074 < e1 -> d2 = 53).
      { intros He. specialize (Hmant He).
        assert (H : 2 ^ 52 < 2 ^ d2) by lia.
        apply pow2_lt_inv in H; lia. }
      rewrite shr_nonpos by lia. cbn [shr_m].
      replace (e1 <=? emax - prec) with true
        by (symmetry; apply Z.leb_le; unfold emax, prec; lia).
      cbn [finite_not_negative]. unfold bounded, canonical_mantissa.
      rewrite fexp_eq, <- Ed2.
      apply andb_true_intro. split.
      * apply Z.eqb_eq. lia.
      * apply Z.leb_le. unfold emax, prec. lia.
    + assert (Hp2 : p2 = 9007199254740992%positive).
      { change (2 ^ 53) with 9007199254740992 in *. lia. }
      specialize (HB ltac:(subst p2; reflexivity)).
      subst p2. rewrite Ed2.
      replace (Z.max (Zpos (digits2_pos 9007199254740992) + e1 - 53) (-1074)
               - e1) with 1
        by (change (Zpos (digits2_pos 9007199254740992)) with 54; lia).
      cbn [shr SpecFloat.iter_pos shr_1 shr_m].
      replace (e1 + 1 <=? emax - prec) with true
        by (symmetry; apply Z.leb_le; unfold emax, prec; lia).
      cbn [finite_not_negative]. unfold bounded, canonical_mantissa.
      rewrite fexp_eq.
      change (Zpos (digits2_pos 4503599627370496)) with 53.
      apply andb_true_intro. split.
      * apply Z.eqb_eq. lia.
      * apply Z.leb_le. unfold emax, prec. lia.
Qed.

Lemma binary_round_finite (m : positive) (e E : Z) :
  e <= E <= 971 ->
  Zpos m <= (2 ^ 53 - 1) * 2 ^ (E - e) ->
  finite_not_negative (binary_round prec emax false m e) = true.
Proof.
  intros HE Hbound. unfold binary_round.
  remember (fexp prec emax (Zpos (digits2_pos m) + e)) as fe eqn:Efe.
  destruct (shl_align_spec m e fe) as [Hez Hmz].
  destruct (shl_align m e fe) as [mz ez]. cbn [fst snd] in *.
  pose proof (digits2_pos_shift m mz (e - Z.min e fe) ltac:(lia) Hmz) as Hd.
  apply (binary_round_aux_finite mz ez E).
  - rewrite Hd. replace (Zpos (digits2_pos m) + (e - Z.min e fe) + ez)
      with (Zpos (digits2_pos m) + e) by lia.
    rewrite <- Efe. lia.
  - lia.
  - rewrite Hmz.
    replace (E - ez) with ((E - e) + (e - Z.min e fe)) by lia.
    rewrite pow2_split by lia.
    pose proof (pow2_pos (e - Z.min e fe) ltac:(lia)). nia.
Qed.

(** Taking from a finite balance that is at least zero a positive amount
    that does not exceed it leaves a finite balance that is at least
    zero, in canonical form. *)
Lemma sub_finite_not_negative (a b : number) :
  isNaN a = false -> le a pos_zero = false -> gt a b = false ->
  finite_not_negative b = true -> finite_not_negative (sub b a) = true.
Proof.
  unfold gt, lt, le, sub.
  destruct a as [sa|sa| |sa ma ea], b as [sb|sb| |sb mb eb];
    try (simpl; discriminate); try (simpl; reflexivity);
    try (destruct sa; simpl; discriminate || reflexivity);
    try (destruct sb; simpl; discriminate || reflexivity);
    try (destruct sa, sb; simpl; discriminate || reflexivity).
  cbn [isNaN compare SFsub finite_not_negative].
  intros _ Ha Hab Hb.
  destruct sa; [discriminate|]. destruct sb; [discriminate|].
  rewrite !aligned_value in Hab. cbn [cond_Zopp] in Hab.
  destruct (shl_align_spec mb eb (Z.min eb ea)) as [_ Hx].
  destruct (shl_align_spec ma ea (Z.min eb ea)) as [_ Hy].
  rewrite Z.min_assoc, Z.min_id in Hx.
  rewrite (Z.min_comm eb ea), Z.min_assoc, Z.min_id in Hy.
  rewrite (Z.min_comm ea eb) in Hy.
  remember (fst (shl_align mb eb (Z.min eb ea))) as x eqn:Ex.
  remember (fst (shl_align ma ea (Z.min eb ea))) as y eqn:Ey.
  cbn [cond_Zopp]. rewrite (Z.min_comm ea eb), <- Hx, <- Hy in Hab.
  destruct (bounded_digits _ _ Hb) as (Hd & He & _).
  pose proof (digits2_pos_bounds mb) as [_ Hu].
  pose proof (pow2_le (Zpos (digits2_pos mb)) 53 ltac:(lia)) as Hcap.
  destruct (Zpos x - Zpos y) as [|d|d] eqn:Ed; cbn [binary_normalize].
  - reflexivity.
  - apply (binary_round_finite d (Z.min eb ea) eb); [lia|].
    pose proof (pow2_pos (eb - Z.min eb ea) ltac:(lia)). nia.
  - exfalso. destruct (Zpos x ?= Zpos y) eqn:E; try discriminate.
    + apply Z.compare_eq in E. lia.
    + apply Z.compare_gt_iff in E. lia.
Qed.

(** *** Signs and order *)

(** Rounding keeps the sign it is given. *)
Lemma binary_round_aux_sign (s : bool) (m e : Z) (l : location) :
  match binary_round_aux prec emax s m e l with
  | S754_zero s' | S754_infinity s' | S754_finite s' _ _ => s' = s
  | S754_nan => True
  end.
Proof.
  unfold binary_round_aux.
  destruct (shr_fexp prec emax m e l) as [mrs' e'].
  destruct (shr_fexp prec emax _ e' loc_Exact) as [mrs'' e''].
  destruct (shr_m mrs''); simpl; auto.
  destruct (e'' <=? emax - prec); simpl; auto.
Qed.

Lemma binary_normalize_sign (m e : Z) :
  0 <= m ->
  match binary_normalize prec emax m e false with
  | S754_zero s' | S754_infinity s' | S754_finite s' _ _ => s' = false
  | S754_nan => True
  end.
Proof.
  intros Hm. destruct m as [|p|p]; simpl; [reflexivity| |lia].
  unfold binary_round.
  destruct (shl_align p e _) as [mz ez].
  apply binary_round_aux_sign.
Qed.

Lemma compare_antisym (x y : number) :
  compare y x = option_map CompOpp (compare x y).
Proof.
  destruct x as [sx|sx| |sx mx ex], y as [sy|sy| |sy my ey]; simpl;
    try reflexivity;
    try (destruct sx; reflexivity); try (destruct sy; reflexivity);
    try (destruct sx, sy; reflexivity).
  f_equal. apply Z.compare_antisym.
Qed.

(** A number that is not [NaN] is either at most zero or above it. *)
Lemma le_zero_gt_zero (x : number) :
  isNaN x = false -> le x pos_zero = negb (gt x pos_zero).
Proof.
  destruct x as [s|s| |s m e]; simpl; intros H; try discriminate;
    unfold le, gt, lt; simpl; try reflexivity; destruct s; reflexivity.
Qed.

Lemma gt_not_NaN (x y : number) : gt x y = true -> isNaN x = false.
Proof.
  unfold gt, lt. destruct x, y; simpl; auto; discriminate.
Qed.

Lemma le_not_gt (x y : number) : le x y = true -> gt x y = false.
Proof.
  unfold gt, lt, le. rewrite (compare_antisym x y).
  destruct (compare x y) as [[]|]; simpl; auto; discriminate.
Qed.

(** Above a balance that is not negative there are only positive
    amounts. *)
Lemma gt_not_negative_positive (a b : number) :
  gt a b = true -> lt b pos_zero = false -> le a pos_zero = false.
Proof.
  unfold gt, lt, le.
  destruct a as [sa|sa| |sa ma ea], b as [sb|sb| |sb mb eb]; simpl;
    try discriminate; try reflexivity;
    try (destruct sa; simpl; discriminate || reflexivity);
    try (destruct sb; simpl; discriminate || reflexivity);
    try (destruct sa, sb; simpl; discriminate || reflexivity).
Qed.

(** Taking from a balance that is not negative a positive amount that
    does not exceed it leaves a balance that is not negative. *)
Lemma sub_not_negative (a b : number) :
  isNaN a = false -> le a pos_zero = false -> gt a b = false ->
  lt b pos_zero = false -> lt (sub b a) pos_zero = false.
Proof.
  unfold gt, lt, le, sub.
  destruct a as [sa|sa| |sa ma ea], b as [sb|sb| |sb mb eb];
    try (simpl; discriminate); try (simpl; reflexivity);
    try (destruct sa; simpl; discriminate || reflexivity);
    try (destruct sb; simpl; discriminate || reflexivity);
    try (destruct sa, sb; simpl; discriminate || reflexivity).
  cbn [isNaN compare SFsub].
  intros _ Ha Hab Hb.
  destruct sa; [discriminate|]. destruct sb; [discriminate|].
  unfold aligned in Hab. rewrite (Z.min_comm ea eb) in Hab.
  set (p := fst (shl_align mb eb (Z.min eb ea))) in *.
  set (q := fst (shl_align ma ea (Z.min eb ea))) in *.
  change (cond_Zopp false (Z.pos p)) with (Z.pos p) in *.
  change (cond_Zopp false (Z.pos q)) with (Z.pos q) in *.
  assert (Hpq : 0 <= Z.pos p - Z.pos q).
  { destruct (Z.pos p ?= Z.pos q) eqn:E; try discriminate.
    - apply Z.compare_eq in E. lia.
    - apply Z.compare_gt_iff in E. lia. }
  pose proof (binary_normalize_sign _ (Z.min eb ea) Hpq) as Hs.
  destruct (binary_normalize prec emax _ (Z.min eb ea) false)
    as [s|s| |s m e]; simpl; try reflexivity; subst s; reflexivity.
Qed.

Lemma finite_not_negative_le (x : number) :
  finite_not_negative x = true -> le pos_zero x = true.
Proof.
  destruct x as [s|s| |s m e]; simpl; try discriminate; try reflexivity.
  destruct s; [discriminate|reflexivity].
Qed.

(** *** Reading strings *)

Lemma trim_start_whitespace (l : list ascii) :
  forallb is_whitespace l = true -> trim_start l = [].
Proof.
  induction l as [|c r IH]; simpl; [reflexivity|].
  destruct (is_whitespace c); simpl; [exact IH|discriminate].
Qed.

(** A string of white space is read as [+0]. *)
Lemma StringToNumber_whitespace (s : string) :
  forallb is_whitespace (list_ascii_of_string s) = true ->
  StringToNumber s = pos_zero.
Proof.
  intros H. unfold StringToNumber, trim.
  rewrite (trim_start_whitespace _ H). reflexivity.
Qed.

Lemma digit_in_decimal (c : ascii) :
  is_decimal_digit c = true ->
  digit_in 10 c = Some (Z.of_N (N_of_ascii c) - 48).
Proof.
  unfold is_decimal_digit, digit_in, digit_of. cbn zeta. intros H.
  rewrite H. apply andb_prop in H as [_ H]. apply Z.leb_le in H.
  destruct (Z.ltb_spec (Z.of_N (N_of_ascii c) - 48) 10); [reflexivity|lia].
Qed.

Lemma decimal_digit_not_whitespace (c : ascii) :
  is_decimal_digit c = true -> is_whitespace c = false.
Proof.
  unfold is_decimal_digit, is_whitespace. cbn zeta. intros H.
  apply andb_prop in H as [H1 H2].
  apply Z.leb_le in H1. apply Z.leb_le in H2.
  repeat (apply orb_false_intro); apply N.eqb_neq; lia.
Qed.

Lemma read_digits_decimal (l : list ascii) :
  forallb is_decimal_digit l = true ->
  forall acc cnt,
    read_digits 10 acc cnt l
    = (fold_left (fun acc c => acc * 10 + (Z.of_N (N_of_ascii c) - 48)) l acc,
       cnt + Z.of_nat (length l), []).
Proof.
  induction l as [|c r IH]; intros Hl acc cnt; cbn [read_digits fold_left].
  - simpl. rewrite Z.add_0_r. reflexivity.
  - cbn [forallb] in Hl. apply andb_prop in Hl as [Hc Hr].
    rewrite (digit_in_decimal c Hc), (IH Hr).
    replace (cnt + Z.of_nat (length (c :: r)))
      with (cnt + 1 + Z.of_nat (length r)) by (cbn [length]; lia).
    reflexivity.
Qed.

Lemma trim_start_head (c : ascii) (r : list ascii) :
  is_whitespace c = false -> trim_start (c :: r) = c :: r.
Proof. intros H. cbn [trim_start]. rewrite H. reflexivity. Qed.

Lemma trim_decimal (l : list ascii) :
  forallb is_decimal_digit l = true -> trim l = l.
Proof.
  intros Hl. unfold trim.
  assert (Hstart : forall l', forallb is_decimal_digit l' = true ->
                              trim_start l' = l').
  { intros [|c r] H; [reflexivity|]. apply trim_start_head.
    cbn [forallb] in H. apply andb_prop in H as [H _].
    apply decimal_digit_not_whitespace. exact H. }
  rewrite (Hstart l Hl). rewrite Hstart.
  - apply rev_involutive.
  - apply forallb_forall. intros c Hc. apply in_rev in Hc.
    exact (proj1 (forallb_forall _ _) Hl c Hc).
Qed.

(** A string of decimal digits is read as the integer it denotes. *)
Lemma StringToNumber_decimal (s : string) :
  decimal_digits s = true -> StringToNumber s = of_Z (decimal_value s).
Proof.
  unfold decimal_digits, decimal_value, StringToNumber.
  intros H. apply andb_prop in H as [Hne Hl].
  rewrite (trim_decimal _ Hl).
  destruct (list_ascii_of_string s) as [|c r]; [discriminate|]. clear Hne.
  assert (Hc : is_decimal_digit c = true)
    by (cbn [forallb] in Hl; apply andb_prop in Hl as [Hc _]; exact Hc).
  assert (Hchar : forall c', is_decimal_digit c' = false ->
                             Ascii.eqb c c' = false).
  { intros c' Hc'. destruct (Ascii.eqb_spec c c') as [->|]; [|reflexivity].
    rewrite Hc in Hc'. discriminate. }
  rewrite (Hchar "+"%char eq_refl), (Hchar "-"%char eq_refl).
  cbn [string_of_list_ascii String.eqb].
  rewrite (Hchar "I"%char eq_refl). cbn [andb].
  unfold parse_unsigned_decimal.
  rewrite (read_digits_decimal _ Hl 0 0).
  replace (0 <? 0 + Z.of_nat (length (c :: r))) with true
    by (symmetry; apply Z.ltb_lt; cbn [length]; lia).
  cbn [parse_exponent].
  assert (Hfold : forall l z,
             forallb is_decimal_digit l = true -> 0 <= z ->
             0 <= fold_left
                    (fun acc c => acc * 10 + (Z.of_N (N_of_ascii c) - 48))
                    l z).
  { clear. induction l as [|c r IH]; intros z Hl Hz; cbn [fold_left];
      [exact Hz|].
    cbn [forallb] in Hl. apply andb_prop in Hl as [Hc Hr].
    unfold is_decimal_digit in Hc. cbn zeta in Hc.
    apply andb_prop in Hc as [Hc _]. apply Z.leb_le in Hc.
    apply (IH _ Hr). lia. }
  pose proof (Hfold (c :: r) 0 Hl ltac:(lia)) as Hv.
  set (v := fold_left _ (c :: r) 0) in *.
  unfold of_decimal. destruct v as [|p|p]; [reflexivity| |lia].
  cbn [Z.leb Z.compare]. rewrite Z.pow_0_r, Z.mul_1_r. reflexivity.
Qed.

(** *** The conversions on some inputs *)

Example StringToNumber_values :
  StringToNumber "0.05" = S754_finite false 7205759403792794 (-57)
  /\ StringToNumber "0.1" = S754_finite false 7205759403792794 (-56)
  /\ StringToNumber "9007199254740993" = of_Z 9007199254740992
  /\ StringToNumber "1.7976931348623157e308"
     = S754_finite false 9007199254740991 971
  /\ StringToNumber "1e309" = pos_infinity
  /\ StringToNumber "5e-324" = S754_finite false 1 (-1074)
  /\ StringToNumber "1e-400" = pos_zero
  /\ StringToNumber " 12.5e1 " = of_Z 125
  /\ StringToNumber "-0" = neg_zero
  /\ StringToNumber "-Infinity" = neg_infinity
  /\ StringToNumber "0x1F" = of_Z 31
  /\ StringToNumber "-0x1F" = NaN
  /\ StringToNumber "12px" = NaN
  /\ StringToNumber "1 2" = NaN
  /\ StringToNumber "." = NaN.
Proof. repeat split; vm_compute; reflexivity. Qed.

Example Number_values :
  Number None = Normal NaN
  /\ Number (Some JNull) = Normal pos_zero
  /\ Number (Some (JBool false)) = Normal pos_zero
  /\ Number (Some (JArr [])) = Normal pos_zero
  /\ Number (Some (JArr [JStr "7"])) = Normal (of_Z 7)
  /\ Number (Some (JArr [JNum (of_Z 1); JNum (of_Z 2)])) = Normal NaN
  /\ Number (Some (JObj [("a", JNull)])) = Normal NaN
  /\ Number (Some (JObj [("toString", JNull)])) = ThrowTypeError.
Proof. repeat split; vm_compute; reflexivity. Qed.

Example split_values :
  split " " "" = [""]
  /\ split " " "Bearer abc" = ["Bearer"; "abc"]
  /\ split " " "Bearer  abc" = ["Bearer"; ""; "abc"]
  /\ split " " "Bearer " = ["Bearer"; ""]
  /\ split " " "abc" = ["abc"].
Proof. repeat split; reflexivity. Qed.

End JsNumberFacts.

(** ** The account routes *)

(** Splits a goal about [withdraw] along the checks of the handler, in
    their order. *)
Ltac withdraw_cases amount name u a :=
  unfold withdraw;
  let Hn := fresh "Hnumber" in
  destruct (Number _) as [amount|] eqn:Hn;
  [ let H1 := fresh "HisNaN" in
    destruct (isNaN amount) eqn:H1;
    [ | let H2 := fresh "Hle" in
        destruct (le amount pos_zero) eqn:H2;
        [ | let H3 := fresh "Haccount" in
            destruct (getAccountForReq _ _) as [[[name u] a]|] eqn:H3;
            [ let H4 := fresh "Hgt" in
              destruct (gt amount (balance a)) eqn:H4 | ] ] ]
  | ].

(** The account a request resolves to is an account of the store. *)
Lemma getAccountForReq_lookup (users : Users) (req : Request) name u a :
  getAccountForReq users req = Some (name, u, a) ->
  users !! name = Some u /\ account u = Some a.
Proof.
  unfold getAccountForReq, users_get.
  destruct (user req) as [ru|]; [|discriminate].
  destruct (username ru) as [n|]; [|discriminate].
  destruct (String.eqb n ""); [discriminate|].
  destruct (users !! n) as [u'|] eqn:Hu.
  - destruct (account u') as [a'|] eqn:Ha; [|discriminate].
    intros [= <- <- <-]. auto.
  - destruct (existsb _ _); discriminate.
Qed.

Lemma withdraw_keeps (ok : number -> bool) (users : Users) (req : Request) :
  kept_by_withdrawal ok ->
  balances_satisfy ok users ->
  balances_satisfy ok (fst (withdraw users req)).
Proof.
  intros Hok Hinv. withdraw_cases amount name u a; simpl; try exact Hinv.
  destruct (getAccountForReq_lookup _ _ _ _ _ Haccount) as [Hu Ha].
  intros name' u' a' Hlook Hacc.
  destruct (decide (name = name')) as [->|Hne].
  - rewrite lookup_insert_eq in Hlook. injection Hlook as <-.
    simpl in Hacc. injection Hacc as <-. simpl.
    apply Hok; try assumption. exact (Hinv _ _ _ Hu Ha).
  - rewrite lookup_insert_ne in Hlook by assumption.
    exact (Hinv _ _ _ Hlook Hacc).
Qed.

Lemma run_withdrawals_keeps (ok : number -> bool) (reqs : list Request) :
  kept_by_withdrawal ok ->
  forall users : Users,
    balances_satisfy ok users ->
    balances_satisfy ok (run_withdrawals users reqs).
Proof.
  intros Hok. induction reqs as [|req rest IH]; intros users Hinv; simpl.
  - exact Hinv.
  - apply IH. apply withdraw_keeps; assumption.
Qed.

Lemma not_negative_kept : kept_by_withdrawal not_negative.
Proof.
  intros amount b Hnan Hle Hgt Hb. unfold not_negative in *.
  apply negb_true_iff in Hb. apply negb_true_iff.
  apply JsNumberFacts.sub_not_negative; assumption.
Qed.

Lemma finite_not_negative_kept : kept_by_withdrawal finite_not_negative.
Proof.
  intros amount b Hnan Hle Hgt Hb.
  apply JsNumberFacts.sub_finite_not_negative; assumption.
Qed.

(** C1: from a store whose balances are all at least zero, no sequence of
    withdrawals makes a balance negative, and in every state so reached a
    withdrawal of more than the balance answers "Insufficient funds" and
    leaves the store as it is.  Balances that are finite at the start,
    moreover, stay finite numbers that are at least zero. *)
Theorem withdraw_never_overdraws (users : Users) :
  (forall name u a,
      users !! name = Some u -> account u = Some a ->
      le pos_zero (balance a) = true) ->
  forall reqs : list Request,
    let users' := run_withdrawals users reqs in
    (forall name u a,
        users' !! name = Some u -> account u = Some a ->
        lt (balance a) pos_zero = false)
    /\ (forall req amount name u a,
          Number (get_prop "amount" (body req)) = Normal amount ->
          getAccountForReq users' req = Some (name, u, a) ->
          gt amount (balance a) = true ->
          withdraw users' req = (users', Sent InsufficientFunds))
    /\ ((forall name u a,
           users !! name = Some u -> account u = Some a ->
           finite_not_negative (balance a) = true) ->
        forall name u a,
          users' !! name = Some u -> account u = Some a ->
          finite_not_negative (balance a) = true
          /\ le pos_zero (balance a) = true).
Proof.
  intros Hstart reqs users'.
  assert (Hinv : balances_satisfy not_negative users').
  { apply run_withdrawals_keeps; [exact not_negative_kept|].
    intros name u a Hu Ha. unfold not_negative. apply negb_true_iff.
    apply (JsNumberFacts.le_not_gt pos_zero). exact (Hstart _ _ _ Hu Ha). }
  assert (Hlt : forall name u a,
             users' !! name = Some u -> account u = Some a ->
             lt (balance a) pos_zero = false).
  { intros name u a Hu Ha. apply negb_true_iff. exact (Hinv _ _ _ Hu Ha). }
  split; [exact Hlt|]. split.
  - intros req amount name u a Hnum Hacc Hgt.
    destruct (getAccountForReq_lookup _ _ _ _ _ Hacc) as [Hu Ha].
    pose proof (Hlt _ _ _ Hu Ha) as Hb.
    unfold withdraw. rewrite Hnum.
    rewrite (JsNumberFacts.gt_not_NaN _ _ Hgt).
    rewrite (JsNumberFacts.gt_not_negative_positive _ _ Hgt Hb).
    rewrite Hacc, Hgt. reflexivity.
  - intros Hfinite name u a Hu Ha.
    pose proof (run_withdrawals_keeps finite_not_negative reqs
                  finite_not_negative_kept users Hfinite _ _ _ Hu Ha) as Hf.
    split; [exact Hf|].
    apply JsNumberFacts.finite_not_negative_le. exact Hf.
Qed.

(** After a write to the account of [name], the request that resolved to
    it resolves to the written account. *)
Lemma getAccountForReq_insert (users : Users) (req : Request) name u a a' :
  getAccountForReq users req = Some (name, u, a) ->
  getAccountForReq (<[name := set_account u a']> users) req
  = Some (name, set_account u a', a').
Proof.
  unfold getAccountForReq, users_get.
  destruct (user req) as [ru|]; [|discriminate].
  destruct (username ru) as [n|]; [|discriminate].
  destruct (String.eqb n ""); [discriminate|].
  destruct (users !! n) as [u'|] eqn:Hu.
  - destruct (account u') as [a0|]; [|discriminate].
    intros [= <- <- <-]. rewrite lookup_insert_eq. reflexivity.
  - destruct (existsb _ _); discriminate.
Qed.

(** The successful path of the handler. *)
Lemma withdraw_ok (users : Users) (req : Request) amount name u a :
  Number (get_prop "amount" (body req)) = Normal amount ->
  gt amount pos_zero = true ->
  le amount (balance a) = true ->
  getAccountForReq users req = Some (name, u, a) ->
  withdraw users req
  = (<[name := {| passwordHash := passwordHash u;
                  account := Some {| balance := sub (balance a) amount;
                                     interestRate := interestRate a;
                                     lastWithdrawal := Some amount;
                                     currency := currency a |} |}]> users,
     Sent {| status := 200;
             payload := WithdrawBody "Withdrawal successful"
                          (sub (balance a) amount) (Some amount) |}).
Proof.
  intros Hnum Hpos Hle Hacc.
  pose proof (JsNumberFacts.gt_not_NaN _ _ Hpos) as Hnan.
  unfold withdraw. rewrite Hnum, Hnan.
  rewrite (JsNumberFacts.le_zero_gt_zero _ Hnan), Hpos. simpl.
  rewrite Hacc, (JsNumberFacts.le_not_gt _ _ Hle). reflexivity.
Qed.

(** C2: a withdrawal of a positive amount that the balance covers, by a
    user whose account resolves, succeeds: in the one step of the handler
    the balance is lowered by the amount and [lastWithdrawal] becomes the
    amount, the rate, the currency and the other users stay as they were,
    and the response reports the new balance and [lastWithdrawal]. *)
Theorem withdraw_success (users : Users) (req : Request) amount name u a :
  Number (get_prop "amount" (body req)) = Normal amount ->
  isNaN amount = false ->
  gt amount pos_zero = true ->
  le amount (balance a) = true ->
  getAccountForReq users req = Some (name, u, a) ->
  let a' := {| balance := sub (balance a) amount;
               interestRate := interestRate a;
               lastWithdrawal := Some amount;
               currency := currency a |} in
  let users' := <[name := {| passwordHash := passwordHash u;
                             account := Some a' |}]> users in
  withdraw users req
  = (users',
     Sent {| status := 200;
             payload := WithdrawBody "Withdrawal successful"
                          (sub (balance a) amount) (Some amount) |})
  /\ getAccountForReq users' req
     = Some (name, {| passwordHash := passwordHash u; account := Some a' |}, a')
  /\ (forall other, other <> name -> users' !! other = users !! other).
Proof.
  intros Hnum Hnan Hpos Hle Hacc a' users'.
  split; [|split].
  - exact (withdraw_ok users req amount name u a Hnum Hpos Hle Hacc).
  - exact (getAccountForReq_insert users req name u a a' Hacc).
  - intros other Hne. subst users'.
    rewrite lookup_insert_ne by congruence. reflexivity.
Qed.

(** Where the conversion of the amount gives a Number value, the checks
    of a withdrawal come in a fixed order, and the first that fails
    decides the response: an amount that is not a number, then an amount
    that is not positive, then an account that does not resolve, then an
    amount above the balance.  The four responses differ from one
    another. *)
Lemma withdraw_validation_order (users : Users) (req : Request) amount :
  Number (get_prop "amount" (body req)) = Normal amount ->
  (isNaN amount = true -> withdraw users req = (users, Sent NotANumber))
  /\ (isNaN amount = false -> le amount pos_zero = true ->
      withdraw users req = (users, Sent InvalidAmount))
  /\ (isNaN amount = false -> le amount pos_zero = false ->
      getAccountForReq users req = None ->
      withdraw users req = (users, Sent NotFound))
  /\ (forall name u a,
        isNaN amount = false -> le amount pos_zero = false ->
        getAccountForReq users req = Some (name, u, a) ->
        gt amount (balance a) = true ->
        withdraw users req = (users, Sent InsufficientFunds))
  /\ NoDup [NotANumber; InvalidAmount; NotFound; InsufficientFunds].
Proof.
  intros Hnum. unfold withdraw. rewrite Hnum.
  repeat split.
  - intros ->. reflexivity.
  - intros -> ->. reflexivity.
  - intros -> -> ->. reflexivity.
  - intros name u a -> -> -> ->. reflexivity.
  - repeat (apply NoDup_cons; split;
            [rewrite ?elem_of_cons, elem_of_nil; intros H;
             repeat destruct H as [H|H]; discriminate || exact H|]).
    apply NoDup_nil; exact I.
Qed.

(** C3, at an amount that is not numeric and whose conversion throws: for
    the JSON object with a member named [toString], [Number] throws
    before the first check, so the request is not answered "Amount must
    be a number", nor with any other of the four responses of the
    validation: the handler throws, the store is as before, and the
    error handler of the application answers 500. *)
Theorem withdraw_conversion_throws (users : Users) (name : string) :
  let req := request_of name [("amount", JObj [("toString", JNull)])] in
  Number (get_prop "amount" (body req)) = ThrowTypeError
  /\ withdraw users req = (users, Thrown)
  /\ respond (snd (withdraw users req))
     = {| status := 500; payload := Message "Internal Server Error" |}
  /\ ~ In (respond (snd (withdraw users req)))
         [NotANumber; InvalidAmount; NotFound; InsufficientFunds].
Proof.
  intros req. split; [reflexivity|]. split; [reflexivity|].
  split; [reflexivity|].
  intros [H|[H|[H|[H|[]]]]]; discriminate H.
Qed.

(** C4: a withdrawal that does not succeed leaves the store as it is; in
    particular one whose amount is not a number or is at most zero is
    answered with status 400 and changes nothing. *)
Theorem withdraw_error_leaves_store (users : Users) (req : Request) :
  (forall users' o,
      withdraw users req = (users', o) -> is_error o = true -> users' = users)
  /\ (forall amount,
        Number (get_prop "amount" (body req)) = Normal amount ->
        isNaN amount = true \/ le amount pos_zero = true ->
        (withdraw users req = (users, Sent NotANumber)
         \/ withdraw users req = (users, Sent InvalidAmount))).
Proof.
  split.
  - intros users' o. withdraw_cases amount name u a;
      intros [= <- <-]; try reflexivity.
    simpl. discriminate.
  - intros amount Hnum H. unfold withdraw. rewrite Hnum.
    destruct (isNaN amount); [left; reflexivity|].
    destruct H as [H|H]; [discriminate|]. rewrite H. right; reflexivity.
Qed.

(** C5: for a user whose account resolves, the interest route reports the
    balance times the rate as the yearly interest and a twelfth of that as
    the monthly interest, and leaves the store as it is, so that asking
    again gives the same answer. *)
Theorem interest_projection (users : Users) (req : Request) name u a :
  getAccountForReq users req = Some (name, u, a) ->
  let yearly := mul (balance a) (interestRate a) in
  let monthly := div yearly (of_Z 12) in
  let answer :=
    Sent {| status := 200;
            payload := InterestBody (balance a) (interestRate a)
                         yearly monthly (currency a) |} in
  interest users req = (users, answer)
  /\ interest (fst (interest users req)) req = (users, answer).
Proof.
  intros Hacc yearly monthly answer.
  assert (H : interest users req = (users, answer)).
  { unfold interest. rewrite Hacc. reflexivity. }
  rewrite H. simpl. split; [reflexivity|exact H].
Qed.

(** C10: the amount is converted with [Number] before it is checked.  An
    absent amount converts to [NaN] and is answered "Amount must be a
    number"; [null] and strings of white space, the empty one included,
    convert to [0] and are answered "Invalid withdrawal amount"; [true]
    converts to [1] and a string of decimal digits, such as ["50"], to the
    integer it denotes, and a withdrawal with either succeeds when the
    value is above zero and the balance of the account covers it. *)
Theorem withdraw_amount_coercion (users : Users) (req : Request) :
  let amount := get_prop "amount" (body req) in
  (amount = None ->
   Number amount = Normal NaN
   /\ withdraw users req = (users, Sent NotANumber))
  /\ (amount = Some JNull
      \/ (exists s, amount = Some (JStr s) /\ all_whitespace s = true) ->
      Number amount = Normal pos_zero
      /\ withdraw users req = (users, Sent InvalidAmount))
  /\ (forall v n name u a,
        (v = JBool true /\ n = of_Z 1)
        \/ (exists s, v = JStr s /\ decimal_digits s = true
                      /\ n = of_Z (decimal_value s)) ->
        amount = Some v ->
        getAccountForReq users req = Some (name, u, a) ->
        gt n pos_zero = true ->
        le n (balance a) = true ->
        Number amount = Normal n
        /\ withdraw users req
           = (<[name := {| passwordHash := passwordHash u;
                           account :=
                             Some {| balance := sub (balance a) n;
                                     interestRate := interestRate a;
                                     lastWithdrawal := Some n;
                                     currency := currency a |} |}]> users,
              Sent {| status := 200;
                      payload := WithdrawBody "Withdrawal successful"
                                   (sub (balance a) n) (Some n) |})).
Proof.
  intros amount. split; [|split].
  - intros H. unfold withdraw. fold amount. rewrite H. split; reflexivity.
  - intros H.
    assert (Hzero : Number amount = Normal pos_zero).
    { destruct H as [-> | (s & -> & Hs)]; [reflexivity|]. simpl.
      rewrite (JsNumberFacts.StringToNumber_whitespace s Hs). reflexivity. }
    split; [exact Hzero|].
    unfold withdraw. fold amount. rewrite Hzero. reflexivity.
  - intros v n name u a Hv Hamount Hacc Hpos Hle.
    assert (Hn : Number amount = Normal n).
    { rewrite Hamount. destruct Hv as [[-> ->] | (s & -> & Hs & ->)];
        [reflexivity|]. simpl.
      rewrite (JsNumberFacts.StringToNumber_decimal s Hs). reflexivity. }
    split; [exact Hn|].
    apply withdraw_ok; assumption.
Qed.

(** ** Authorization and login *)

Lemma split_Bearer (token : string) :
  split " " token = [token] ->
  split " " ("Bearer " ++ token) = ["Bearer"; token].
Proof.
  intros H.
  change ("Bearer " ++ token)
    with (String "B" (String "e" (String "a" (String "r" (String "e"
            (String "r" (String " " token))))))).
  simpl. rewrite H. reflexivity.
Qed.

Section ServerProperties.

Variable jws_sign : JwtPayload -> string -> string.
Variable jws_verify : string -> string -> option JwtPayload.
Variable bcrypt_compare : string -> string -> bool.

(** What the middleware does with a well-formed header. *)
Lemma auth_Bearer (env : option string) (now : Z) (token : string) :
  split " " token = [token] ->
  auth jws_verify env now (Some ("Bearer " ++ token))
  = match jwt_verify jws_verify token (jwt_secret env) now with
    | inl p => (Next {| username := jwt_username p |}, [token])
    | inr _ =>
        (Rejected (res_status_json 401 (Message "Invalid or expired token")),
         [token])
    end.
Proof.
  intros Hsplit. unfold auth, header_value.
  rewrite (split_Bearer _ Hsplit). reflexivity.
Qed.


(** C7: a request without [Authorization] header, or whose header does
    not split at spaces into exactly two parts, or whose first part is
    not [Bearer], is answered 401 "Missing or invalid Authorization
    header", and nothing is passed to [jwt.verify]. *)
Theorem malformed_header_rejected (env : option string) (now : Z)
    (authorization : option string) :
  let parts := split " " (header_value authorization) in
  authorization = None \/ length parts <> 2%nat
  \/ nth 0 parts "" <> "Bearer" ->
  auth jws_verify env now authorization
  = (Rejected (res_status_json 401
                 (Message "Missing or invalid Authorization header")), []).
Proof.
  intros parts H. unfold auth. fold parts.
  destruct (Nat.eqb_spec (length parts) 2) as [Hlen|Hlen];
    [|reflexivity].
  destruct (String.eqb_spec (nth 0 parts "") "Bearer") as [Hb|Hb];
    [|reflexivity].
  destruct H as [-> | [H|H]]; [discriminate Hlen|contradiction..].
Qed.

(** C8, at a name that every object inherits: [constructor] is no user
    of the store, yet a login with it is not answered "Invalid
    credentials": the lookup finds the inherited member, and
    [bcrypt.compare] rejects its missing hash. *)
Theorem login_inherited_name (hash : string) (env : option string)
    (now : Z) (password : string) :
  let users := initial_users hash in
  users !! "constructor" = None
  /\ login jws_sign bcrypt_compare users env now
       {| login_username := Some "constructor";
          login_password := Some password |}
     = LoginRejected.
Proof. split; reflexivity. Qed.

(** A login with a name that is neither in the store nor inherited, and a
    login with the wrong password for a user of the store, get the same
    response. *)
Lemma login_invalid_credentials (users : Users) (env : option string)
    (now : Z) (name password : string) :
  match users_get users name with
  | Undefined => True
  | Inherited => False
  | Own u => bcrypt_compare password (passwordHash u) = false
  end ->
  login jws_sign bcrypt_compare users env now
    {| login_username := Some name; login_password := Some password |}
  = LoginSent {| status := 401; payload := Message "Invalid credentials" |}.
Proof.
  unfold login. simpl.
  destruct (users_get users name) as [u| |]; simpl.
  - intros ->. reflexivity.
  - contradiction.
  - reflexivity.
Qed.

Lemma getAccountForReq_absent (users : Users) (name : string) body :
  users !! name = None ->
  getAccountForReq users
    {| user := Some {| username := Some name |}; body := body |} = None.
Proof.
  intros Hname. unfold getAccountForReq, users_get. cbn [user username].
  destruct (String.eqb name ""); [reflexivity|].
  rewrite Hname.
  destruct (existsb (String.eqb name) object_prototype_keys); reflexivity.
Qed.

(** C9: the middleware does not look the username up.  A well-formed,
    correctly signed token that is in its validity period and names a
    user who is not in the store is accepted; reading the account and
    the interest are then answered 404 "Account not found", and so is a
    withdrawal whose amount is a positive number, while a withdrawal
    whose amount converts to anything else is answered 400; no withdrawal
    is answered 401. *)
Theorem absent_principal_not_found (users : Users) (env : option string)
    (now : Z) (token : string) (p : JwtPayload) (name : string)
    (body : list (string * json)) :
  split " " token = [token] ->
  token <> "" ->
  jws_verify token (jwt_secret env) = Some p ->
  (forall t, nbf p = Some t -> t <= now) ->
  (forall t, exp p = Some t -> now < t) ->
  jwt_username p = Some name ->
  users !! name = None ->
  let authorization := Some ("Bearer " ++ token) in
  auth jws_verify env now authorization
  = (Next {| username := Some name |}, [token])
  /\ account_route jws_verify get_account users env now authorization body
     = (users, NotFound)
  /\ account_route jws_verify interest users env now authorization body
     = (users, NotFound)
  /\ (forall amount,
        Number (get_prop "amount" body) = Normal amount ->
        gt amount pos_zero = true ->
        account_route jws_verify withdraw users env now authorization body
        = (users, NotFound))
  /\ (forall amount,
        Number (get_prop "amount" body) = Normal amount ->
        gt amount pos_zero = false ->
        status (snd (account_route jws_verify withdraw users env now
                       authorization body)) = 400)
  /\ status (snd (account_route jws_verify withdraw users env now
                    authorization body)) <> 401.
Proof.
  intros Hsplit Hne Hverify Hnbf Hexp Hname Habsent authorization.
  assert (Hauth : auth jws_verify env now authorization
                  = (Next {| username := Some name |}, [token])).
  { unfold authorization. rewrite (auth_Bearer env now token Hsplit).
    unfold jwt_verify. rewrite Hverify.
    destruct (String.eqb_spec token ""); [contradiction|].
    destruct (nbf p) as [t|] eqn:En.
    - specialize (Hnbf t eq_refl).
      destruct (Z.ltb_spec now t); [lia|].
      destruct (exp p) as [t'|] eqn:Ee; [|rewrite Hname; reflexivity].
      specialize (Hexp t' eq_refl).
      destruct (Z.leb_spec t' now); [lia|rewrite Hname; reflexivity].
    - destruct (exp p) as [t'|] eqn:Ee; [|rewrite Hname; reflexivity].
      specialize (Hexp t' eq_refl).
      destruct (Z.leb_spec t' now); [lia|rewrite Hname; reflexivity]. }
  pose proof (getAccountForReq_absent users name body Habsent) as Hacc.
  split; [exact Hauth|].
  unfold account_route. rewrite Hauth. simpl.
  unfold get_account, interest. rewrite Hacc.
  split; [reflexivity|]. split; [reflexivity|]. split; [|split].
  - intros amount Hnum Hpos. unfold withdraw. simpl. rewrite Hnum.
    pose proof (JsNumberFacts.gt_not_NaN _ _ Hpos) as Hnan.
    rewrite Hnan, (JsNumberFacts.le_zero_gt_zero _ Hnan), Hpos. simpl.
    rewrite Hacc. reflexivity.
  - intros amount Hnum Hpos. unfold withdraw. simpl. rewrite Hnum.
    destruct (isNaN amount) eqn:Hnan; [reflexivity|].
    rewrite (JsNumberFacts.le_zero_gt_zero _ Hnan), Hpos. reflexivity.
  - unfold withdraw. simpl.
    destruct (Number _) as [amount|]; [|simpl; discriminate].
    destruct (isNaN amount); [simpl; discriminate|].
    destruct (le amount pos_zero); [simpl; discriminate|].
    rewrite Hacc. simpl. discriminate.
Qed.

End ServerProperties.

(** ** The properties at concrete requests *)

Lemma initial_users_lookup (hash name : string) (u : User) :
  initial_users hash !! name = Some u ->
  name = "customer1" /\ u = customer1 hash.
Proof.
  unfold initial_users. intros H.
  destruct (decide (name = "customer1")) as [->|Hne].
  - rewrite lookup_singleton_eq in H. injection H as <-. auto.
  - rewrite lookup_singleton_ne in H by congruence. discriminate.
Qed.

Lemma withdraw_never_overdraws_witness :
  let users := initial_users "h" in
  let reqs :=
    [ request_of "customer1" [("amount", JNum (of_Z 500))];
      request_of "customer1" [("amount", JStr "2500")];
      request_of "nobody" [("amount", JNum (of_Z 1))];
      request_of "customer1" [("amount", JNum (of_Z 1500))] ] in
  let users' := run_withdrawals users reqs in
  (forall name u a,
      users !! name = Some u -> account u = Some a ->
      le pos_zero (balance a) = true)
  /\ (forall name u a,
        users' !! name = Some u -> account u = Some a ->
        lt (balance a) pos_zero = false)
  /\ (forall req amount name u a,
        Number (get_prop "amount" (body req)) = Normal amount ->
        getAccountForReq users' req = Some (name, u, a) ->
        gt amount (balance a) = true ->
        withdraw users' req = (users', Sent InsufficientFunds))
  /\ (forall name u a,
        users' !! name = Some u -> account u = Some a ->
        finite_not_negative (balance a) = true
        /\ le pos_zero (balance a) = true).
Proof.
  intros users reqs users'.
  assert (Hstart : forall name u a,
             users !! name = Some u -> account u = Some a ->
             le pos_zero (balance a) = true).
  { intros name u a Hu Ha.
    destruct (initial_users_lookup _ _ _ Hu) as [_ ->].
    injection Ha as <-. reflexivity. }
  assert (Hfinite : forall name u a,
             users !! name = Some u -> account u = Some a ->
             finite_not_negative (balance a) = true).
  { intros name u a Hu Ha.
    destruct (initial_users_lookup _ _ _ Hu) as [_ ->].
    injection Ha as <-. reflexivity. }
  destruct (withdraw_never_overdraws users Hstart reqs) as (H1 & H2 & H3).
  split; [exact Hstart|]. split; [exact H1|]. split; [exact H2|].
  exact (H3 Hfinite).
Defined.

Lemma withdraw_success_witness :
  let users := initial_users "h" in
  let req := request_of "customer1" [("amount", JNum (of_Z 500))] in
  withdraw users req
  = (<["customer1" :=
         {| passwordHash := "h";
            account := Some {| balance := of_Z 1500;
                               interestRate := StringToNumber "0.05";
                               lastWithdrawal := Some (of_Z 500);
                               currency := "USD" |} |}]> users,
     Sent {| status := 200;
             payload := WithdrawBody "Withdrawal successful"
                          (of_Z 1500) (Some (of_Z 500)) |}).
Proof.
  intros users req.
  exact (proj1 (withdraw_success users req (of_Z 500) "customer1"
                  (customer1 "h") customer1_account
                  eq_refl eq_refl eq_refl eq_refl eq_refl)).
Defined.

Lemma withdraw_validation_order_witness :
  let users := initial_users "h" in
  withdraw users (request_of "nobody" [("amount", JStr "abc")])
  = (users, Sent NotANumber)
  /\ withdraw users (request_of "nobody" [("amount", JNum (of_Z (-5)))])
     = (users, Sent InvalidAmount)
  /\ withdraw users (request_of "nobody" [("amount", JNum (of_Z 2500))])
     = (users, Sent NotFound)
  /\ withdraw users (request_of "customer1" [("amount", JNum (of_Z 2500))])
     = (users, Sent InsufficientFunds).
Proof.
  intros users. split; [|split; [|split]].
  - exact (proj1 (withdraw_validation_order users
                    (request_of "nobody" [("amount", JStr "abc")]) NaN eq_refl)
             eq_refl).
  - exact (proj1 (proj2 (withdraw_validation_order users
                    (request_of "nobody" [("amount", JNum (of_Z (-5)))])
                    (of_Z (-5)) eq_refl))
             eq_refl eq_refl).
  - exact (proj1 (proj2 (proj2 (withdraw_validation_order users
                    (request_of "nobody" [("amount", JNum (of_Z 2500))])
                    (of_Z 2500) eq_refl)))
             eq_refl eq_refl eq_refl).
  - exact (proj1 (proj2 (proj2 (proj2 (withdraw_validation_order users
                    (request_of "customer1" [("amount", JNum (of_Z 2500))])
                    (of_Z 2500) eq_refl))))
             "customer1" (customer1 "h") customer1_account
             eq_refl eq_refl eq_refl eq_refl).
Defined.

Lemma withdraw_error_leaves_store_witness :
  let users := initial_users "h" in
  let req := request_of "customer1" [("amount", JNum (of_Z 2500))] in
  fst (withdraw users req) = users
  /\ (withdraw users (request_of "customer1" [("amount", JStr "-1")])
      = (users, Sent NotANumber)
      \/ withdraw users (request_of "customer1" [("amount", JStr "-1")])
         = (users, Sent InvalidAmount)).
Proof.
  intros users req. split.
  - exact (proj1 (withdraw_error_leaves_store users req)
             (fst (withdraw users req)) (snd (withdraw users req))
             eq_refl eq_refl).
  - exact (proj2 (withdraw_error_leaves_store users
                    (request_of "customer1" [("amount", JStr "-1")]))
             (StringToNumber "-1") eq_refl (or_intror eq_refl)).
Defined.

Lemma interest_projection_witness :
  let users := initial_users "h" in
  let req := request_of "customer1" [] in
  let answer :=
    Sent {| status := 200;
            payload := InterestBody (of_Z 2000) (StringToNumber "0.05")
                         (of_Z 100) (StringToNumber "8.333333333333334")
                         "USD" |} in
  interest users req = (users, answer)
  /\ interest (fst (interest users req)) req = (users, answer).
Proof.
  intros users req.
  exact (interest_projection users req "customer1" (customer1 "h")
           customer1_account eq_refl).
Defined.


Lemma malformed_header_rejected_witness :
  let rejected :=
    (Rejected (res_status_json 401
                 (Message "Missing or invalid Authorization header")),
     @nil string) in
  auth Demo.jws_verify None 0 None = rejected
  /\ auth Demo.jws_verify None 0 (Some "Bearer a b") = rejected
  /\ auth Demo.jws_verify None 0 (Some "Basic abc") = rejected.
Proof.
  intros rejected. split; [|split].
  - exact (malformed_header_rejected Demo.jws_verify None 0 None
             (or_introl eq_refl)).
  - apply (malformed_header_rejected Demo.jws_verify None 0
             (Some "Bearer a b")).
    right; left. vm_compute. discriminate.
  - apply (malformed_header_rejected Demo.jws_verify None 0
             (Some "Basic abc")).
    right; right. vm_compute. discriminate.
Defined.

Lemma absent_principal_not_found_witness :
  let users := initial_users "h" in
  let token := jwt_sign Demo.jws_sign (Some "nobody") "dev-secret" 1000 in
  let authorization := Some ("Bearer " ++ token) in
  let body := [("amount", JNum (of_Z 50))] in
  auth Demo.jws_verify None 2000 authorization
  = (Next {| username := Some "nobody" |}, [token])
  /\ account_route Demo.jws_verify get_account users None 2000
       authorization body = (users, NotFound)
  /\ account_route Demo.jws_verify interest users None 2000
       authorization body = (users, NotFound)
  /\ account_route Demo.jws_verify withdraw users None 2000
       authorization body = (users, NotFound).
Proof.
  intros users token authorization body.
  assert (Hne : token <> "") by (vm_compute; discriminate).
  assert (Hnbf : forall t : Z, @None Z = Some t -> t <= 2000)
    by (intros t; discriminate).
  assert (Hexp : forall t : Z, Some (1000 + 3600) = Some t -> 2000 < t)
    by (intros t [= <-]; lia).
  pose proof (absent_principal_not_found Demo.jws_verify users None 2000
                token _ "nobody" body
                eq_refl Hne eq_refl Hnbf Hexp eq_refl eq_refl)
    as (H1 & H2 & H3 & H4 & _ & _).
  split; [exact H1|]. split; [exact H2|]. split; [exact H3|].
  exact (H4 (of_Z 50) eq_refl eq_refl).
Defined.

(** A withdrawal of a user who is not in the store is answered 400, not
    404, when its amount is zero: the amount is checked first.  *)
Lemma absent_principal_withdraw_zero :
  let users := initial_users "h" in
  let token := jwt_sign Demo.jws_sign (Some "nobody") "dev-secret" 1000 in
  let authorization := Some ("Bearer " ++ token) in
  let body := [("amount", JNum pos_zero)] in
  users !! "nobody" = None
  /\ auth Demo.jws_verify None 2000 authorization
     = (Next {| username := Some "nobody" |}, [token])
  /\ account_route Demo.jws_verify withdraw users None 2000
       authorization body = (users, InvalidAmount)
  /\ account_route Demo.jws_verify withdraw users None 2000
       authorization body <> (users, NotFound).
Proof.
  intros users token authorization body.
  split; [reflexivity|]. split; [reflexivity|].
  assert (H : account_route Demo.jws_verify withdraw users None 2000
                authorization body = (users, InvalidAmount))
    by reflexivity.
  split; [exact H|]. rewrite H. intros [=].
Qed.

Lemma withdraw_amount_coercion_witness :
  let users := initial_users "h" in
  withdraw users (request_of "customer1" []) = (users, Sent NotANumber)
  /\ withdraw users (request_of "customer1" [("amount", JNull)])
     = (users, Sent InvalidAmount)
  /\ withdraw users (request_of "customer1" [("amount", JStr "  ")])
     = (users, Sent InvalidAmount)
  /\ snd (withdraw users (request_of "customer1" [("amount", JBool true)]))
     = Sent {| status := 200;
               payload := WithdrawBody "Withdrawal successful"
                            (of_Z 1999) (Some (of_Z 1)) |}
  /\ snd (withdraw users (request_of "customer1" [("amount", JStr "50")]))
     = Sent {| status := 200;
               payload := WithdrawBody "Withdrawal successful"
                            (of_Z 1950) (Some (of_Z 50)) |}.
Proof.
  intros users.
  pose proof (fun body =>
                withdraw_amount_coercion users (request_of "customer1" body))
    as H.
  split; [|split; [|split; [|split]]].
  - exact (proj2 (proj1 (H []) eq_refl)).
  - exact (proj2 (proj1 (proj2 (H [("amount", JNull)]))
                    (or_introl eq_refl))).
  - exact (proj2 (proj1 (proj2 (H [("amount", JStr "  ")]))
                    (or_intror (ex_intro _ "  " (conj eq_refl eq_refl))))).
  - exact (f_equal snd
             (proj2 (proj2 (proj2 (H [("amount", JBool true)]))
                       (JBool true) (of_Z 1) "customer1" (customer1 "h")
                       customer1_account (or_introl (conj eq_refl eq_refl))
                       eq_refl eq_refl eq_refl eq_refl))).
  - exact (f_equal snd
             (proj2 (proj2 (proj2 (H [("amount", JStr "50")]))
                       (JStr "50") (of_Z 50) "customer1" (customer1 "h")
                       customer1_account
                       (or_intror
                          (ex_intro _ "50" (conj eq_refl (conj eq_refl eq_refl))))
                       eq_refl eq_refl eq_refl eq_refl))).
Defined.

(** A withdrawal without an amount is answered "Amount must be a number":
    the absent amount converts to [NaN], not to zero. *)
Lemma withdraw_missing_amount :
  let users := initial_users "h" in
  let req := request_of "customer1" [] in
  Number (get_prop "amount" (body req)) = Normal NaN
  /\ withdraw users req = (users, Sent NotANumber)
  /\ ~ (Number (get_prop "amount" (body req)) = Normal pos_zero
        /\ withdraw users req = (users, Sent InvalidAmount)).
Proof.
  intros users req. split; [reflexivity|]. split; [reflexivity|].
  intros [H _]. discriminate H.
Qed.

(** * Further properties of the service *)

(** ** The authorization middleware *)

(** ** Splitting at a separator *)

Lemma split_not_nil (sep : ascii) (s : string) : split sep s <> [].
Proof.
  destruct s as [|c r]; simpl; [discriminate|].
  destruct (Ascii.eqb c sep); [discriminate|].
  destruct (split sep r); discriminate.
Qed.

Lemma split_one (sep : ascii) (s b : string) :
  split sep s = [b] -> s = b.
Proof.
  revert b. induction s as [|c r IH]; intros b; simpl.
  - intros [= <-]. reflexivity.
  - destruct (Ascii.eqb c sep).
    + intros [= _ H]. destruct (split_not_nil _ _ H).
    + destruct (split sep r) as [|piece pieces] eqn:E.
      * destruct (split_not_nil _ _ E).
      * intros [= <- ->]. rewrite (IH piece eq_refl). reflexivity.
Qed.

Lemma split_two (sep : ascii) (s a b : string) :
  split sep s = [a; b] ->
  s = a ++ String sep b /\ split sep a = [a] /\ split sep b = [b].
Proof.
  revert a. induction s as [|c r IH]; intros a; simpl; [discriminate|].
  destruct (Ascii.eqb_spec c sep) as [->|Hc].
  - intros [= <- H]. pose proof (split_one _ _ _ H) as ->.
    split; [reflexivity|]. split; [reflexivity|assumption].
  - destruct (split sep r) as [|piece pieces] eqn:E.
    + destruct (split_not_nil _ _ E).
    + intros [= <- ->]. destruct (IH piece eq_refl) as (Hr & Hp & Hb).
      split; [|split].
      * rewrite Hr. reflexivity.
      * simpl. destruct (Ascii.eqb_spec c sep); [contradiction|].
        rewrite Hp. reflexivity.
      * exact Hb.
Qed.

Section AuthorizationFacts.

Variable jws_sign : JwtPayload -> string -> string.
Variable jws_verify : string -> string -> option JwtPayload.
Variable bcrypt_compare : string -> string -> bool.

(** What [jwt.verify] accepts. *)
Lemma jwt_verify_inl (token secret : string) (now : Z) (p : JwtPayload) :
  jwt_verify jws_verify token secret now = inl p <->
  token <> "" /\ jws_verify token secret = Some p
  /\ (forall t, nbf p = Some t -> t <= now)
  /\ (forall t, exp p = Some t -> now < t).
Proof.
  unfold jwt_verify. split.
  - destruct (String.eqb_spec token "") as [|Hne]; [discriminate|].
    destruct (jws_verify token secret) as [q|]; [|discriminate].
    destruct (nbf q) as [t|] eqn:En.
    + destruct (Z.ltb_spec now t); [discriminate|].
      destruct (exp q) as [t'|] eqn:Ee.
      * destruct (Z.leb_spec t' now); [discriminate|].
        intros [= <-]. rewrite En, Ee. repeat split; auto.
        -- intros ? [= <-]. lia.
        -- intros ? [= <-]. lia.
      * intros [= <-]. rewrite En, Ee. repeat split; auto.
        -- intros ? [= <-]. lia.
        -- intros ? [=].
    + destruct (exp q) as [t'|] eqn:Ee.
      * destruct (Z.leb_spec t' now); [discriminate|].
        intros [= <-]. rewrite En, Ee. repeat split; auto.
        -- intros ? [=].
        -- intros ? [= <-]. lia.
      * intros [= <-]. rewrite En, Ee. repeat split; auto; intros ? [=].
  - intros (Hne & Hv & Hnbf & Hexp).
    destruct (String.eqb_spec token ""); [contradiction|]. rewrite Hv.
    destruct (nbf p) as [t|].
    + specialize (Hnbf t eq_refl). destruct (Z.ltb_spec now t); [lia|].
      destruct (exp p) as [t'|]; [|reflexivity].
      specialize (Hexp t' eq_refl).
      destruct (Z.leb_spec t' now); [lia|reflexivity].
    + destruct (exp p) as [t'|]; [|reflexivity].
      specialize (Hexp t' eq_refl).
      destruct (Z.leb_spec t' now); [lia|reflexivity].
Qed.

(** What a request that the middleware lets pass looks like. *)
Lemma auth_next_inv (env : option string) (now : Z)
    (authorization : option string) (u : ReqUser) (verified : list string) :
  auth jws_verify env now authorization = (Next u, verified) ->
  exists token p,
    authorization = Some ("Bearer " ++ token)
    /\ split " " token = [token]
    /\ token <> ""
    /\ jws_verify token (jwt_secret env) = Some p
    /\ (forall t, nbf p = Some t -> t <= now)
    /\ (forall t, exp p = Some t -> now < t)
    /\ u = {| username := jwt_username p |}
    /\ verified = [token].
Proof.
  unfold auth.
  destruct (Nat.eqb_spec (length (split " " (header_value authorization))) 2)
    as [Hlen|]; [|discriminate].
  destruct (String.eqb_spec
              (nth 0 (split " " (header_value authorization)) "") "Bearer")
    as [Hb|]; [|discriminate].
  cbn [negb orb].
  destruct (split " " (header_value authorization))
    as [|a [|b [|c rest]]] eqn:Hsplit; try discriminate Hlen.
  cbn [nth] in *. subst a.
  destruct (split_two _ _ _ _ Hsplit) as (Hh & _ & Htoken).
  destruct (jwt_verify jws_verify b (jwt_secret env) now) as [p|e] eqn:Hv;
    [|discriminate].
  intros [= <- <-].
  apply jwt_verify_inl in Hv as (Hne & Hv & Hnbf & Hexp).
  exists b, p.
  split; [|split; [exact Htoken|split; [exact Hne|split; [exact Hv|
    split; [exact Hnbf|split; [exact Hexp|split; reflexivity]]]]]].
  destruct authorization as [h|]; [|discriminate Hh].
  simpl in Hh. rewrite Hh. reflexivity.
Qed.

(** What the middleware does with a token that [jwt.verify] accepts. *)
Lemma auth_accepts (env : option string) (now : Z) (token : string)
    (p : JwtPayload) :
  split " " token = [token] ->
  token <> "" ->
  jws_verify token (jwt_secret env) = Some p ->
  (forall t, nbf p = Some t -> t <= now) ->
  (forall t, exp p = Some t -> now < t) ->
  auth jws_verify env now (Some ("Bearer " ++ token))
  = (Next {| username := jwt_username p |}, [token]).
Proof.
  intros Hsplit Hne Hv Hnbf Hexp.
  rewrite (auth_Bearer jws_verify env now token Hsplit).
  rewrite (proj2 (jwt_verify_inl token (jwt_secret env) now p));
    [reflexivity|auto].
Qed.

(** X1: the middleware lets a request pass exactly when its header is
    [Bearer], one space and a token without spaces that [jwt.verify]
    accepts at the time of the request: correctly signed, not before its
    [nbf] and before its [exp].  The user of the request is then the
    [username] of the payload, and the token is the only one verified. *)
Theorem auth_next_iff (env : option string) (now : Z)
    (authorization : option string) (u : ReqUser) (verified : list string) :
  auth jws_verify env now authorization = (Next u, verified) <->
  exists token p,
    authorization = Some ("Bearer " ++ token)
    /\ split " " token = [token]
    /\ token <> ""
    /\ jws_verify token (jwt_secret env) = Some p
    /\ (forall t, nbf p = Some t -> t <= now)
    /\ (forall t, exp p = Some t -> now < t)
    /\ u = {| username := jwt_username p |}
    /\ verified = [token].
Proof.
  split.
  - apply auth_next_inv.
  - intros (token & p & -> & Hsplit & Hne & Hv & Hnbf & Hexp & -> & ->).
    apply auth_accepts; assumption.
Qed.

(** X2: a header of the right shape whose token [jwt.verify] refuses, whatever
    the reason (no token at all, a wrong signature or form, a token not
    yet valid, an expired one), gets one and the same answer, 401 "Invalid
    or expired token". *)
Theorem auth_refused_token (env : option string) (now : Z) (token : string) :
  split " " token = [token] ->
  token = ""
  \/ jws_verify token (jwt_secret env) = None
  \/ (exists p t, jws_verify token (jwt_secret env) = Some p
                  /\ (nbf p = Some t /\ now < t
                      \/ exp p = Some t /\ t <= now)) ->
  auth jws_verify env now (Some ("Bearer " ++ token))
  = (Rejected (res_status_json 401 (Message "Invalid or expired token")),
     [token]).
Proof.
  intros Hsplit H.
  rewrite (auth_Bearer jws_verify env now token Hsplit).
  destruct (jwt_verify jws_verify token (jwt_secret env) now) as [p|e] eqn:Hv;
    [|reflexivity].
  exfalso. apply jwt_verify_inl in Hv as (Hne & Hv & Hnbf & Hexp).
  destruct H as [H|[H|(q & t & Hq & H)]].
  - contradiction.
  - congruence.
  - rewrite Hv in Hq. injection Hq as <-.
    destruct H as [[Hn Hlt]|[He Hle]].
    + specialize (Hnbf t Hn). lia.
    + specialize (Hexp t He). lia.
Qed.

End AuthorizationFacts.

(** ** Withdrawals and the store *)

(** The account of a request resolves exactly for a user name that is not
    empty and is a key of the store itself. *)
Lemma getAccountForReq_iff (users : Users) (req : Request) name u a :
  getAccountForReq users req = Some (name, u, a) <->
  user req = Some {| username := Some name |}
  /\ name <> "" /\ users !! name = Some u /\ account u = Some a.
Proof.
  unfold getAccountForReq, users_get. split.
  - destruct (user req) as [[[n|]]|]; try discriminate. cbn [username].
    destruct (String.eqb_spec n "") as [|Hn]; [discriminate|].
    destruct (users !! n) as [u'|] eqn:Hu.
    + destruct (account u') as [a'|] eqn:Ha; [|discriminate].
      intros [= <- <- <-]. auto.
    + destruct (existsb _ _); discriminate.
  - intros (-> & Hn & Hu & Ha). cbn [username].
    destruct (String.eqb_spec name ""); [contradiction|].
    rewrite Hu, Ha. reflexivity.
Qed.

Lemma getAccountForReq_with_body (users : Users) (req : Request) body' :
  getAccountForReq users (with_body req body') = getAccountForReq users req.
Proof. reflexivity. Qed.

(** X3: reading the account answers 200, with the account as the store holds
    it, exactly for a request in the name of a user whose name is not
    empty and is a key of the store itself; every other request is
    answered 404 "Account not found", so also one in a name that every
    object inherits.  The store is as before in either case. *)
Theorem get_account_answers (users : Users) (req : Request) :
  fst (get_account users req) = users
  /\ (forall a,
        snd (get_account users req)
        = Sent {| status := 200; payload := AccountBody a |}
        <-> exists name u,
              user req = Some {| username := Some name |}
              /\ name <> "" /\ users !! name = Some u
              /\ account u = Some a)
  /\ (snd (get_account users req) = Sent not_found
      <-> ~ exists name u a,
              user req = Some {| username := Some name |}
              /\ name <> "" /\ users !! name = Some u
              /\ account u = Some a).
Proof.
  unfold get_account.
  destruct (getAccountForReq users req) as [[[name u] a]|] eqn:Hacc;
    cbn [fst snd].
  - pose proof (proj1 (getAccountForReq_iff _ _ _ _ _) Hacc)
      as (Huser & Hne & Hu & Ha).
    split; [reflexivity|]. split.
    + intros b. split.
      * intros [= <-]. exists name, u. auto.
      * intros (n & v & Hn & _ & Hv & Hb).
        rewrite Huser in Hn. injection Hn as <-.
        rewrite Hu in Hv. injection Hv as <-.
        rewrite Ha in Hb. injection Hb as <-. reflexivity.
    + split; [discriminate|]. intros H. destruct H. exists name, u, a. auto.
  - split; [reflexivity|]. split.
    + intros b. split; [discriminate|].
      intros (n & v & Hn & Hne & Hv & Hb).
      rewrite (proj2 (getAccountForReq_iff users req n v b)) in Hacc;
        [discriminate|auto].
    + split; [|reflexivity]. intros _ (n & v & b & Hn & Hne & Hv & Hb).
      rewrite (proj2 (getAccountForReq_iff users req n v b)) in Hacc;
        [discriminate|auto].
Qed.

Lemma same_but_balance_refl (u : User) : same_but_balance u u.
Proof.
  unfold same_but_balance. split; [reflexivity|].
  destruct (account u); auto.
Qed.

Lemma same_users_refl (users : Users) : same_users users users.
Proof.
  intros k. destruct (users !! k); [apply same_but_balance_refl|exact I].
Qed.

Lemma same_users_trans (x y z : Users) :
  same_users x y -> same_users y z -> same_users x z.
Proof.
  intros Hxy Hyz k. specialize (Hxy k). specialize (Hyz k).
  destruct (x !! k) as [u|], (y !! k) as [v|], (z !! k) as [w|];
    try contradiction; try exact I.
  unfold same_but_balance in *.
  destruct Hxy as [H1 H2], Hyz as [H3 H4]. split; [congruence|].
  destruct (account u) as [a|], (account v) as [b|], (account w) as [c|];
    try contradiction; try exact I.
  destruct H2, H4. split; congruence.
Qed.

(** What a withdrawal answered 200 has done. *)
Lemma withdraw_200 (users users' : Users) (req : Request) (r : Response) :
  withdraw users req = (users', Sent r) -> status r = 200 ->
  exists amount name u a,
    Number (get_prop "amount" (body req)) = Normal amount
    /\ isNaN amount = false /\ le amount pos_zero = false
    /\ getAccountForReq users req = Some (name, u, a)
    /\ gt amount (balance a) = false
    /\ users' = <[name := set_account u
                            (set_lastWithdrawal
                               (set_balance a (sub (balance a) amount))
                               amount)]> users
    /\ r = res_json (WithdrawBody "Withdrawal successful"
                       (sub (balance a) amount) (Some amount)).
Proof.
  withdraw_cases amount name u a; intros [= <- <-]; simpl;
    try discriminate.
  intros _. exists amount, name, u, a. repeat split; auto.
Qed.

(** What a withdrawal that is not answered 200 has done: nothing. *)
Lemma withdraw_not_200 (users : Users) (req : Request) :
  is_error (snd (withdraw users req)) = true ->
  fst (withdraw users req) = users.
Proof.
  withdraw_cases amount name u a; simpl; try reflexivity. discriminate.
Qed.

Lemma withdraw_same_users (users : Users) (req : Request) :
  same_users users (fst (withdraw users req)).
Proof.
  destruct (withdraw users req) as [users' o] eqn:Hw. cbn [fst].
  destruct (is_error o) eqn:Herr.
  - pose proof (withdraw_not_200 users req) as H. rewrite Hw in H.
    simpl in H. rewrite (H Herr). apply same_users_refl.
  - destruct o as [r|]; [|discriminate]. simpl in Herr.
    apply negb_false_iff, Z.eqb_eq in Herr.
    destruct (withdraw_200 _ _ _ _ Hw Herr)
      as (amount & name & u & a & _ & _ & _ & Hacc & _ & -> & _).
    apply getAccountForReq_iff in Hacc as (_ & _ & Hu & Ha).
    intros k. destruct (decide (name = k)) as [<-|Hne].
    + rewrite lookup_insert_eq, Hu. unfold same_but_balance. simpl.
      rewrite Ha. auto.
    + rewrite lookup_insert_ne by assumption.
      destruct (users !! k); [apply same_but_balance_refl|exact I].
Qed.

Lemma withdraw_other_user (users : Users) (req : Request) (k : string) :
  user req <> Some {| username := Some k |} ->
  fst (withdraw users req) !! k = users !! k.
Proof.
  intros Hk. destruct (withdraw users req) as [users' o] eqn:Hw. cbn [fst].
  destruct (is_error o) eqn:Herr.
  - pose proof (withdraw_not_200 users req) as H. rewrite Hw in H.
    simpl in H. rewrite (H Herr). reflexivity.
  - destruct o as [r|]; [|discriminate]. simpl in Herr.
    apply negb_false_iff, Z.eqb_eq in Herr.
    destruct (withdraw_200 _ _ _ _ Hw Herr)
      as (amount & name & u & a & _ & _ & _ & Hacc & _ & -> & _).
    apply getAccountForReq_iff in Hacc as (Huser & _).
    rewrite lookup_insert_ne; [reflexivity|]. intros <-. contradiction.
Qed.

Lemma run_withdrawals_same_users (reqs : list Request) :
  forall users : Users, same_users users (run_withdrawals users reqs).
Proof.
  induction reqs as [|req rest IH]; intros users; simpl.
  - apply same_users_refl.
  - eapply same_users_trans; [apply withdraw_same_users|apply IH].
Qed.

Lemma run_withdrawals_other_user (k : string) (reqs : list Request) :
  Forall (fun req => user req <> Some {| username := Some k |}) reqs ->
  forall users : Users, run_withdrawals users reqs !! k = users !! k.
Proof.
  induction 1 as [|req rest Hreq Hrest IH]; intros users; simpl.
  - reflexivity.
  - rewrite IH. apply withdraw_other_user. exact Hreq.
Qed.

(** X4: whatever the requests, withdrawals never add or remove a user and
    never change a password hash, an interest rate or a currency; and a
    user in whose name no request of the sequence is made keeps the whole
    record. *)
Theorem run_withdrawals_frame (users : Users) (reqs : list Request) :
  let users' := run_withdrawals users reqs in
  (forall k, is_Some (users' !! k) <-> is_Some (users !! k))
  /\ (forall k u u',
        users !! k = Some u -> users' !! k = Some u' ->
        passwordHash u' = passwordHash u
        /\ (account u = None <-> account u' = None)
        /\ (forall a a',
              account u = Some a -> account u' = Some a' ->
              interestRate a' = interestRate a
              /\ currency a' = currency a))
  /\ (forall k,
        Forall (fun req => user req <> Some {| username := Some k |}) reqs ->
        users' !! k = users !! k).
Proof.
  intros users'.
  pose proof (run_withdrawals_same_users reqs users) as Hsame.
  fold users' in Hsame.
  split; [|split].
  - intros k. specialize (Hsame k). unfold is_Some.
    destruct (users !! k), (users' !! k); try contradiction;
      split; intros [x H]; eauto; discriminate.
  - intros k u u' Hu Hu'. specialize (Hsame k). rewrite Hu, Hu' in Hsame.
    destruct Hsame as [Hh Ha]. split; [exact Hh|].
    destruct (account u) as [a|], (account u') as [a'|];
      try contradiction.
    + split; [split; discriminate|]. intros ? ? [= <-] [= <-]. exact Ha.
    + split; [split; reflexivity|]. intros ? ? [=].
  - intros k Hk. apply run_withdrawals_other_user. exact Hk.
Qed.

(** X5: whenever a withdrawal is answered 200, the balance and the last
    withdrawal of the response are the ones the store now holds: reading
    the account right after returns them, with the rate and the currency
    as before, and the interest is projected from the new balance. *)
Theorem withdraw_then_read (users users' : Users) (req : Request)
    (r : Response) :
  withdraw users req = (users', Sent r) ->
  status r = 200 ->
  exists name u a amount,
    getAccountForReq users req = Some (name, u, a)
    /\ Number (get_prop "amount" (body req)) = Normal amount
    /\ payload r = WithdrawBody "Withdrawal successful"
                     (sub (balance a) amount) (Some amount)
    /\ (forall body',
          get_account users' (with_body req body')
          = (users',
             Sent {| status := 200;
                     payload :=
                       AccountBody {| balance := sub (balance a) amount;
                                      interestRate := interestRate a;
                                      lastWithdrawal := Some amount;
                                      currency := currency a |} |})
          /\ interest users' (with_body req body')
             = (users',
                Sent {| status := 200;
                        payload :=
                          InterestBody (sub (balance a) amount)
                            (interestRate a)
                            (mul (sub (balance a) amount) (interestRate a))
                            (div (mul (sub (balance a) amount)
                                    (interestRate a)) (of_Z 12))
                            (currency a) |})).
Proof.
  intros Hw H200.
  destruct (withdraw_200 _ _ _ _ Hw H200)
    as (amount & name & u & a & Hnum & _ & _ & Hacc & _ & -> & ->).
  exists name, u, a, amount.
  split; [exact Hacc|]. split; [exact Hnum|]. split; [reflexivity|].
  intros body'. unfold get_account, interest.
  rewrite getAccountForReq_with_body.
  rewrite (getAccountForReq_insert users req name u a _ Hacc).
  split; reflexivity.
Qed.

Lemma sub_self (x : number) :
  gt x pos_zero = true -> lt x pos_infinity = true -> sub x x = pos_zero.
Proof.
  destruct x as [s|s| |s m e]; try discriminate.
  - destruct s; discriminate.
  - destruct s; [discriminate|]. intros _ _.
    unfold sub. cbn [SFsub]. rewrite Z.sub_diag. reflexivity.
Qed.

Lemma le_refl_finite (x : number) :
  gt x pos_zero = true -> lt x pos_infinity = true -> le x x = true.
Proof.
  destruct x as [s|s| |s m e]; try discriminate.
  - destruct s; discriminate.
  - intros _ _. unfold le. cbn [compare]. rewrite Z.compare_refl.
    reflexivity.
Qed.

(** X6: the check is [amount > balance], so the whole of a finite positive
    balance can be withdrawn.  The balance is then [+0], and every further
    withdrawal in the same name is refused, whatever its body. *)
Theorem withdraw_entire_balance (users : Users) (req : Request) name u a :
  getAccountForReq users req = Some (name, u, a) ->
  gt (balance a) pos_zero = true ->
  lt (balance a) pos_infinity = true ->
  Number (get_prop "amount" (body req)) = Normal (balance a) ->
  let users' := fst (withdraw users req) in
  snd (withdraw users req)
  = Sent {| status := 200;
            payload := WithdrawBody "Withdrawal successful" pos_zero
                         (Some (balance a)) |}
  /\ (forall body',
        fst (withdraw users' (with_body req body')) = users'
        /\ is_error (snd (withdraw users' (with_body req body'))) = true).
Proof.
  intros Hacc Hpos Hfin Hnum users'.
  pose proof (withdraw_ok users req (balance a) name u a Hnum Hpos
                (le_refl_finite _ Hpos Hfin) Hacc) as Hw.
  rewrite (sub_self _ Hpos Hfin) in Hw.
  subst users'. rewrite Hw. cbn [fst snd]. split; [reflexivity|].
  intros body'.
  set (users' := <[name := _]> users).
  assert (Hacc' : exists u' a',
             getAccountForReq users' (with_body req body')
             = Some (name, u', a') /\ balance a' = pos_zero).
  { eexists _, _. rewrite getAccountForReq_with_body.
    split; [apply (getAccountForReq_insert users req name u a _ Hacc)|].
    reflexivity. }
  destruct Hacc' as (u' & a' & Hacc' & Hzero).
  unfold withdraw. clear Hnum Hw.
  destruct (Number (get_prop "amount" (body (with_body req body'))))
    as [amount|]; [|split; reflexivity].
  destruct (isNaN amount) eqn:Hnan; [split; reflexivity|].
  rewrite (JsNumberFacts.le_zero_gt_zero _ Hnan).
  destruct (gt amount pos_zero) eqn:Hgt; [|split; reflexivity].
  cbn [negb]. rewrite Hacc', Hzero, Hgt. split; reflexivity.
Qed.

Lemma withdraw_last_withdrawals_positive (users : Users) (req : Request) :
  last_withdrawals_positive users ->
  last_withdrawals_positive (fst (withdraw users req)).
Proof.
  intros Hinv. destruct (withdraw users req) as [users' o] eqn:Hw.
  cbn [fst]. destruct (is_error o) eqn:Herr.
  - pose proof (withdraw_not_200 users req) as H. rewrite Hw in H.
    simpl in H. rewrite (H Herr). exact Hinv.
  - destruct o as [r|]; [|discriminate]. simpl in Herr.
    apply negb_false_iff, Z.eqb_eq in Herr.
    destruct (withdraw_200 _ _ _ _ Hw Herr)
      as (amount & name & u & a & _ & Hnan & Hle & _ & _ & -> & _).
    intros k u' a' w Hu' Ha' Hw'.
    destruct (decide (name = k)) as [<-|Hne].
    + rewrite lookup_insert_eq in Hu'. injection Hu' as <-.
      simpl in Ha'. injection Ha' as <-. simpl in Hw'.
      injection Hw' as <-.
      rewrite (JsNumberFacts.le_zero_gt_zero _ Hnan) in Hle.
      apply negb_false_iff in Hle. exact Hle.
    + rewrite lookup_insert_ne in Hu' by assumption.
      exact (Hinv _ _ _ _ Hu' Ha' Hw').
Qed.

(** X7: over any sequence of withdrawals the last withdrawal of an account,
    where one is recorded, is a number above zero: an amount that is
    [NaN], zero or negative is never recorded. *)
Theorem run_withdrawals_last_positive (reqs : list Request) :
  forall users : Users,
    last_withdrawals_positive users ->
    last_withdrawals_positive (run_withdrawals users reqs).
Proof.
  induction reqs as [|req rest IH]; intros users Hinv; simpl.
  - exact Hinv.
  - apply IH. apply withdraw_last_withdrawals_positive. exact Hinv.
Qed.

Lemma mul_not_negative (x y : number) :
  lt x pos_zero = false -> lt y pos_zero = false ->
  lt (mul x y) pos_zero = false.
Proof.
  unfold lt, mul.
  destruct x as [sx|sx| |sx mx ex], y as [sy|sy| |sy my ey];
    try (destruct sx; simpl; discriminate || reflexivity);
    try (destruct sy; simpl; discriminate || reflexivity);
    try (destruct sx, sy; simpl; discriminate || reflexivity);
    try (simpl; reflexivity).
  destruct sx; [simpl; discriminate|]. destruct sy; [simpl; discriminate|].
  intros _ _. cbn [SFmul xorb].
  pose proof (JsNumberFacts.binary_round_aux_sign false
                (Zpos (mx * my)) (ex + ey) loc_Exact) as H.
  destruct (binary_round_aux prec emax false _ _ _) as [s|s| |s m e];
    try reflexivity; subst s; reflexivity.
Qed.

Lemma div_not_negative (x y : number) :
  lt x pos_zero = false -> gt y pos_zero = true ->
  lt (div x y) pos_zero = false.
Proof.
  unfold gt, lt, div.
  destruct x as [sx|sx| |sx mx ex], y as [sy|sy| |sy my ey];
    try (destruct sx; simpl; discriminate || reflexivity);
    try (destruct sy; simpl; discriminate || reflexivity);
    try (destruct sx, sy; simpl; discriminate || reflexivity);
    try (simpl; discriminate); try (simpl; reflexivity).
  destruct sx; [simpl; discriminate|]. destruct sy; [simpl; discriminate|].
  intros _ _. cbn [SFdiv xorb].
  destruct (SFdiv_core_binary prec emax (Zpos mx) ex (Zpos my) ey)
    as [[mz ez] lz].
  pose proof (JsNumberFacts.binary_round_aux_sign false mz ez lz) as H.
  destruct (binary_round_aux prec emax false mz ez lz) as [s|s| |s m e];
    try reflexivity; subst s; reflexivity.
Qed.

(** X8: for an account whose balance and rate are not negative, neither the
    yearly nor the monthly interest of the projection is negative. *)
Theorem interest_not_negative (users : Users) (req : Request) name u a :
  getAccountForReq users req = Some (name, u, a) ->
  lt (balance a) pos_zero = false ->
  lt (interestRate a) pos_zero = false ->
  exists yearly monthly,
    interest users req
    = (users,
       Sent {| status := 200;
               payload := InterestBody (balance a) (interestRate a)
                            yearly monthly (currency a) |})
    /\ lt yearly pos_zero = false
    /\ lt monthly pos_zero = false.
Proof.
  intros Hacc Hb Hr. unfold interest. rewrite Hacc.
  eexists _, _. split; [reflexivity|].
  pose proof (mul_not_negative _ _ Hb Hr) as Hy.
  split; [exact Hy|].
  apply div_not_negative; [exact Hy|reflexivity].
Qed.

(** ** The order of balances *)

Module JsNumberOrder.

Import JsNumberFacts.

(** *** Rounding below a number of the format *)

(** The value [mz * 2^ez] is at most [T * 2^e1], with [e1] the exponent
    rounding gives it: what it rounds to is at most [T * 2^e1] too. *)
Lemma binary_round_aux_upper (mz : positive) (ez T : Z) :
  let e1 := fexp prec emax (Zpos (digits2_pos mz) + ez) in
  ez <= e1 ->
  Zpos mz <= T * 2 ^ (e1 - ez) ->
  match binary_round_aux prec emax false (Zpos mz) ez loc_Exact with
  | S754_finite _ m e => e1 <= e /\ Zpos m * 2 ^ (e - e1) <= T
  | _ => True
  end.
Proof.
  intros e1 Hn Hbound.
  unfold binary_round_aux, shr_fexp.
  cbn [Zdigits2 shr_record_of_loc]. fold e1.
  remember (e1 - ez) as n eqn:En.
  destruct (shr_spec {| shr_m := Zpos mz; shr_r := false; shr_s := false |}
              ez n ltac:(simpl; lia) ltac:(lia))
    as [Hsnd (Hm1 & Hdiv & Hlost)].
  destruct (shr _ ez n) as [x1 e1'] eqn:Hshr. cbn [fst snd] in *.
  assert (He1 : e1' = e1) by lia. clear Hsnd. subst e1'.
  cbn [shr_m] in Hdiv, Hlost. specialize (Hlost eq_refl).
  remember (shr_m x1) as m1 eqn:Em1.
  pose proof (pow2_pos n ltac:(lia)) as HP.
  remember (2 ^ n) as P eqn:EP.
  pose proof (Z.div_mod (Zpos mz) P ltac:(lia)) as Hdm.
  pose proof (Z.mod_pos_bound (Zpos mz) P HP) as Hmb.
  rewrite <- Hdiv in Hdm.
  pose proof (round_nearest_even_spec x1) as Hr. cbn zeta in Hr.
  rewrite <- Em1 in Hr.
  remember (round_nearest_even m1 (loc_of_shr_record x1)) as m2 eqn:Em2.
  assert (Hm2 : 0 <= m2 <= T).
  { destruct Hr as [Hr|[Hr Hl1]]; [nia|].
    assert (Hmod : Zpos mz mod P <> 0).
    { intros H0. rewrite (Hlost H0) in Hl1. discriminate. }
    nia. }
  remember (fexp prec emax (Zdigits2 m2 + e1) - e1) as n2 eqn:En2.
  destruct (Z_le_gt_dec n2 0) as [Hn2|Hn2].
  - rewrite shr_nonpos by assumption. cbn [shr_m].
    destruct m2 as [|p2|p2]; try exact I.
    destruct (e1 <=? emax - prec); [|exact I].
    split; [lia|]. rewrite Z.sub_diag. simpl. lia.
  - destruct (shr_spec {| shr_m := m2; shr_r := false; shr_s := false |}
                e1 n2 ltac:(simpl; lia) ltac:(lia))
      as [Hsnd (Hm3 & Hdiv3 & _)].
    destruct (shr _ e1 n2) as [x2 e2] eqn:Hshr2. cbn [fst snd] in *.
    cbn [shr_m] in Hdiv3.
    destruct (shr_m x2) as [|p3|p3] eqn:Hx2; try exact I.
    destruct (e2 <=? emax - prec); [|exact I].
    split; [lia|].
    replace (e2 - e1) with n2 by lia.
    pose proof (pow2_pos n2 ltac:(lia)).
    pose proof (Z.mul_div_le m2 (2 ^ n2) ltac:(lia)). nia.
Qed.

Lemma fexp_le (x y : Z) : x <= y -> fexp prec emax x <= fexp prec emax y.
Proof. intros H. rewrite !fexp_eq. lia. Qed.

(** A positive value that is at most a number of the format rounds to at
    most that number. *)
Lemma binary_round_upper (d : positive) (ez : Z) (mb : positive) (eb : Z) :
  bounded prec emax mb eb = true ->
  ez <= eb ->
  Zpos d <= Zpos mb * 2 ^ (eb - ez) ->
  match binary_round prec emax false d ez with
  | S754_finite _ m e =>
      exists c, c <= e /\ c <= eb
                /\ Zpos m * 2 ^ (e - c) <= Zpos mb * 2 ^ (eb - c)
  | _ => True
  end.
Proof.
  intros Hb Hez Hbound. unfold binary_round.
  remember (fexp prec emax (Zpos (digits2_pos d) + ez)) as fe eqn:Efe.
  destruct (shl_align_spec d ez fe) as [Hez' Hmz].
  destruct (shl_align d ez fe) as [mz ez'] eqn:Hsh. cbn [fst snd] in *.
  pose proof (digits2_pos_shift d mz (ez - Z.min ez fe) ltac:(lia) Hmz) as Hd.
  assert (He1 : fexp prec emax (Zpos (digits2_pos mz) + ez') = fe).
  { rewrite Hd, Efe. f_equal. lia. }
  assert (Hfe : fe <= eb).
  { unfold bounded, canonical_mantissa in Hb.
    apply andb_prop in Hb as [Hc _]. apply Z.eqb_eq in Hc.
    rewrite <- Hc, Efe. apply fexp_le.
    pose proof (digits2_pos_bounds d) as [Hl _].
    pose proof (digits2_pos_bounds mb) as [_ Hu].
    pose proof (pow2_pos (eb - ez) ltac:(lia)) as Hp.
    assert (H : 2 ^ (Zpos (digits2_pos d) - 1)
                < 2 ^ (Zpos (digits2_pos mb) + (eb - ez))).
    { rewrite pow2_split by lia. nia. }
    apply pow2_lt_inv in H; lia. }
  pose proof (binary_round_aux_upper mz ez' (Zpos mb * 2 ^ (eb - fe))) as H.
  cbn zeta in H. rewrite He1 in H.
  assert (Hpre : Zpos mz <= Zpos mb * 2 ^ (eb - fe) * 2 ^ (fe - ez')).
  { rewrite <- Z.mul_assoc, <- pow2_split by lia.
    replace (eb - fe + (fe - ez')) with ((eb - ez) + (ez - Z.min ez fe))
      by lia.
    rewrite Hmz, pow2_split by lia.
    pose proof (pow2_pos (ez - Z.min ez fe) ltac:(lia)). nia. }
  specialize (H ltac:(lia) Hpre).
  destruct (binary_round_aux prec emax false (Zpos mz) ez' loc_Exact)
    as [s|s| |s m e]; try exact I.
  destruct H as [H1 H2]. exists fe. split; [lia|]. split; [lia|]. exact H2.
Qed.

(** *** Order between finite numbers *)

Lemma le_finite_intro (m1 m2 : positive) (e1 e2 c : Z) :
  c <= e1 -> c <= e2 ->
  Zpos m1 * 2 ^ (e1 - c) <= Zpos m2 * 2 ^ (e2 - c) ->
  le (S754_finite false m1 e1) (S754_finite false m2 e2) = true.
Proof.
  intros H1 H2 H. unfold le. cbn [compare]. rewrite !aligned_value.
  cbn [cond_Zopp]. rewrite (Z.min_comm e2 e1).
  set (mu := Z.min e1 e2).
  replace (e1 - c) with ((e1 - mu) + (mu - c)) in H by lia.
  replace (e2 - c) with ((e2 - mu) + (mu - c)) in H by lia.
  rewrite !pow2_split in H by lia.
  pose proof (pow2_pos (mu - c) ltac:(lia)) as Hp.
  assert (Hle : Zpos m1 * 2 ^ (e1 - mu) <= Zpos m2 * 2 ^ (e2 - mu)) by nia.
  destruct (Z.compare_spec (Zpos m1 * 2 ^ (e1 - mu))
              (Zpos m2 * 2 ^ (e2 - mu))); try reflexivity; lia.
Qed.

Lemma le_finite_elim (m1 m2 : positive) (e1 e2 c : Z) :
  c <= e1 -> c <= e2 ->
  le (S754_finite false m1 e1) (S754_finite false m2 e2) = true ->
  Zpos m1 * 2 ^ (e1 - c) <= Zpos m2 * 2 ^ (e2 - c).
Proof.
  intros H1 H2. unfold le. cbn [compare]. rewrite !aligned_value.
  cbn [cond_Zopp]. rewrite (Z.min_comm e2 e1).
  set (mu := Z.min e1 e2).
  replace (e1 - c) with ((e1 - mu) + (mu - c)) by lia.
  replace (e2 - c) with ((e2 - mu) + (mu - c)) by lia.
  rewrite !pow2_split by lia.
  pose proof (pow2_pos (mu - c) ltac:(lia)) as Hp.
  destruct (Z.compare_spec (Zpos m1 * 2 ^ (e1 - mu))
              (Zpos m2 * 2 ^ (e2 - mu))); try discriminate; intros _; nia.
Qed.

Lemma le_refl_finite_not_negative (x : number) :
  finite_not_negative x = true -> le x x = true.
Proof.
  destruct x as [s|s| |s m e]; try discriminate; intros H.
  - reflexivity.
  - unfold le. cbn [compare]. rewrite Z.compare_refl. reflexivity.
Qed.

Lemma le_trans_finite_not_negative (x y z : number) :
  finite_not_negative x = true -> finite_not_negative y = true ->
  finite_not_negative z = true ->
  le x y = true -> le y z = true -> le x z = true.
Proof.
  destruct x as [sx|sx| |sx mx ex]; try discriminate;
    destruct y as [sy|sy| |sy my ey]; try discriminate;
    destruct z as [sz|sz| |sz mz ez]; try discriminate;
    cbn [finite_not_negative]; intros Hx Hy Hz;
    try (destruct sx; [discriminate|]);
    try (destruct sy; [discriminate|]);
    try (destruct sz; [discriminate|]);
    try (intros; reflexivity); try discriminate.
  intros Hxy Hyz.
  set (c := Z.min ex (Z.min ey ez)).
  pose proof (le_finite_elim mx my ex ey c ltac:(lia) ltac:(lia) Hxy).
  pose proof (le_finite_elim my mz ey ez c ltac:(lia) ltac:(lia) Hyz).
  apply (le_finite_intro mx mz ex ez c); lia.
Qed.

(** What a withdrawal leaves of a finite balance is at most the balance. *)
Lemma sub_le_balance (a b : number) :
  isNaN a = false -> le a pos_zero = false -> gt a b = false ->
  finite_not_negative b = true -> le (sub b a) b = true.
Proof.
  intros Hnan Hle Hgt Hb.
  pose proof (sub_finite_not_negative a b Hnan Hle Hgt Hb) as Hfin.
  revert Hnan Hle Hgt Hb Hfin. unfold gt, lt, le, sub.
  destruct a as [sa|sa| |sa ma ea], b as [sb|sb| |sb mb eb];
    try (simpl; discriminate);
    try (destruct sa; simpl; discriminate);
    try (destruct sb; simpl; discriminate);
    try (destruct sa, sb; simpl; discriminate).
  cbn [isNaN compare SFsub finite_not_negative].
  intros _ Ha Hab Hb.
  destruct sa; [discriminate|]. destruct sb; [discriminate|].
  rewrite !aligned_value in Hab. cbn [cond_Zopp] in Hab.
  destruct (shl_align_spec mb eb (Z.min eb ea)) as [_ Hx].
  destruct (shl_align_spec ma ea (Z.min eb ea)) as [_ Hy].
  rewrite Z.min_assoc, Z.min_id in Hx.
  rewrite (Z.min_comm eb ea), Z.min_assoc, Z.min_id in Hy.
  rewrite (Z.min_comm ea eb) in Hy.
  remember (fst (shl_align mb eb (Z.min eb ea))) as x eqn:Ex.
  remember (fst (shl_align ma ea (Z.min eb ea))) as y eqn:Ey.
  cbn [cond_Zopp]. rewrite (Z.min_comm ea eb), <- Hx, <- Hy in Hab.
  destruct (Zpos x - Zpos y) as [|d|d] eqn:Ed; cbn [binary_normalize].
  - intros _. reflexivity.
  - pose proof (binary_round_upper d (Z.min eb ea) mb eb Hb ltac:(lia)
                  ltac:(lia)) as Hup.
    destruct (binary_round prec emax false d (Z.min eb ea))
      as [s|s| |s m e]; cbn [finite_not_negative]; try discriminate.
    + intros _. reflexivity.
    + destruct s; [discriminate|]. intros _.
      destruct Hup as (c & Hc1 & Hc2 & Hup).
      fold (le (S754_finite false m e) (S754_finite false mb eb)).
      apply (le_finite_intro m mb e eb c); assumption.
  - intros _. exfalso. destruct (Zpos x ?= Zpos y) eqn:E; try discriminate.
    + apply Z.compare_eq in E. lia.
    + apply Z.compare_gt_iff in E. lia.
Qed.

End JsNumberOrder.

Lemma withdraw_balance_le (users : Users) (req : Request) k u a u' a' :
  users !! k = Some u -> account u = Some a ->
  finite_not_negative (balance a) = true ->
  fst (withdraw users req) !! k = Some u' -> account u' = Some a' ->
  le (balance a') (balance a) = true.
Proof.
  intros Hu Ha Hfin. destruct (withdraw users req) as [users' o] eqn:Hw.
  cbn [fst]. destruct (is_error o) eqn:Herr.
  - pose proof (withdraw_not_200 users req) as H. rewrite Hw in H.
    simpl in H. rewrite (H Herr), Hu. intros [= <-]. rewrite Ha.
    intros [= <-]. apply JsNumberOrder.le_refl_finite_not_negative. exact Hfin.
  - destruct o as [r|]; [|discriminate]. simpl in Herr.
    apply negb_false_iff, Z.eqb_eq in Herr.
    destruct (withdraw_200 _ _ _ _ Hw Herr)
      as (amount & name & v & b & _ & Hnan & Hle & Hacc & Hgt & -> & _).
    apply getAccountForReq_iff in Hacc as (_ & _ & Hv & Hb).
    destruct (decide (name = k)) as [->|Hne].
    + rewrite lookup_insert_eq. intros [= <-]. simpl. intros [= <-]. simpl.
      rewrite Hu in Hv. injection Hv as <-.
      rewrite Ha in Hb. injection Hb as <-.
      apply JsNumberOrder.sub_le_balance; assumption.
    + rewrite lookup_insert_ne by assumption. rewrite Hu. intros [= <-].
      rewrite Ha. intros [= <-].
      apply JsNumberOrder.le_refl_finite_not_negative. exact Hfin.
Qed.

(** X9: from a store whose balances are finite and at least zero, no sequence
    of withdrawals raises a balance: each account ends with at most what
    it started with. *)
Theorem run_withdrawals_never_raise (reqs : list Request) :
  forall users : Users,
    balances_satisfy finite_not_negative users ->
    forall k u a u' a',
      users !! k = Some u -> account u = Some a ->
      run_withdrawals users reqs !! k = Some u' -> account u' = Some a' ->
      le (balance a') (balance a) = true.
Proof.
  induction reqs as [|req rest IH]; intros users Hinv k u a u' a' Hu Ha;
    simpl.
  - rewrite Hu. intros [= <-]. rewrite Ha. intros [= <-].
    apply JsNumberOrder.le_refl_finite_not_negative. exact (Hinv _ _ _ Hu Ha).
  - intros Hu' Ha'.
    pose proof (withdraw_keeps finite_not_negative users req
                  finite_not_negative_kept Hinv) as Hinv1.
    pose proof (withdraw_same_users users req k) as Hsame.
    rewrite Hu in Hsame.
    destruct (fst (withdraw users req) !! k) as [u1|] eqn:Hu1;
      [|contradiction].
    destruct Hsame as [_ Hsame]. rewrite Ha in Hsame.
    destruct (account u1) as [a1|] eqn:Ha1; [|contradiction].
    pose proof (withdraw_balance_le users req k u a u1 a1 Hu Ha
                  (Hinv _ _ _ Hu Ha) Hu1 Ha1) as Hstep.
    pose proof (IH _ Hinv1 k u1 a1 u' a' Hu1 Ha1 Hu' Ha') as Hrest.
    apply (JsNumberOrder.le_trans_finite_not_negative _ (balance a1));
      try assumption.
    + exact (run_withdrawals_keeps finite_not_negative rest
               finite_not_negative_kept _ Hinv1 _ _ _ Hu' Ha').
    + exact (Hinv1 _ _ _ Hu1 Ha1).
    + exact (Hinv _ _ _ Hu Ha).
Qed.

(** ** Withdrawals of different users *)

(** A withdrawal reads of the store only the record of the user in whose
    name it is made. *)
Lemma getAccountForReq_local (users users' : Users) (req : Request) :
  (forall k, user req = Some {| username := Some k |} ->
             users' !! k = users !! k) ->
  getAccountForReq users' req = getAccountForReq users req.
Proof.
  intros H. unfold getAccountForReq, users_get.
  destruct (user req) as [[[n|]]|]; try reflexivity. cbn [username].
  destruct (String.eqb n ""); [reflexivity|].
  rewrite (H n eq_refl). reflexivity.
Qed.

(** A withdrawal does the same to two stores in which the account of its
    user is the same: the same response and the same write, if any. *)
Lemma withdraw_transport (s s' : Users) (r : Request) :
  getAccountForReq s' r = getAccountForReq s r ->
  snd (withdraw s' r) = snd (withdraw s r)
  /\ ((fst (withdraw s r) = s /\ fst (withdraw s' r) = s')
      \/ exists n x,
           user r = Some {| username := Some n |}
           /\ fst (withdraw s r) = <[n := x]> s
           /\ fst (withdraw s' r) = <[n := x]> s').
Proof.
  intros H. unfold withdraw. rewrite H.
  destruct (Number (get_prop "amount" (body r))) as [amount|];
    [|split; [reflexivity|left; split; reflexivity]].
  destruct (isNaN amount); [split; [reflexivity|left; split; reflexivity]|].
  destruct (le amount pos_zero);
    [split; [reflexivity|left; split; reflexivity]|].
  destruct (getAccountForReq s r) as [[[name u] a]|] eqn:Hacc;
    [|split; [reflexivity|left; split; reflexivity]].
  destruct (gt amount (balance a));
    [split; [reflexivity|left; split; reflexivity]|].
  split; [reflexivity|]. right.
  apply getAccountForReq_iff in Hacc as (Hu & _).
  eexists name, _. split; [exact Hu|]. split; reflexivity.
Qed.

(** X10: withdrawals in the names of two different users do not depend on each
    other: each gets the same response whether it comes first or second,
    and the store is the same in the end. *)
Theorem withdrawals_commute (users : Users) (req1 req2 : Request) :
  (forall k, user req1 = Some {| username := Some k |} ->
             user req2 <> Some {| username := Some k |}) ->
  let first := withdraw users req1 in
  let second := withdraw (fst first) req2 in
  let first' := withdraw users req2 in
  let second' := withdraw (fst first') req1 in
  snd second = snd first'
  /\ snd second' = snd first
  /\ fst second = fst second'.
Proof.
  intros Hdiff. cbn zeta.
  assert (Hdiff' : forall k, user req2 = Some {| username := Some k |} ->
                             user req1 <> Some {| username := Some k |}).
  { intros k H2 H1. exact (Hdiff k H1 H2). }
  assert (Hlocal : forall (r r' : Request) (s : Users),
             (forall k, user r' = Some {| username := Some k |} ->
                        user r <> Some {| username := Some k |}) ->
             getAccountForReq (fst (withdraw s r)) r'
             = getAccountForReq s r').
  { intros r r' s H. apply getAccountForReq_local.
    intros k Hk. apply withdraw_other_user. exact (H k Hk). }
  destruct (withdraw_transport users (fst (withdraw users req1)) req2
              (Hlocal req1 req2 users Hdiff')) as [H2 S2].
  destruct (withdraw_transport users (fst (withdraw users req2)) req1
              (Hlocal req2 req1 users Hdiff)) as [H1 S1].
  split; [exact H2|]. split; [exact H1|].
  destruct S2 as [[E2 E2']|(n2 & x2 & Hu2 & E2 & E2')];
    destruct S1 as [[E1 E1']|(n1 & x1 & Hu1 & E1 & E1')];
    rewrite E2', E1'; rewrite ?E1, ?E2; try reflexivity.
  apply insert_insert_ne. intros <-. exact (Hdiff n2 Hu1 Hu2).
Qed.

(** ** Login, middleware and routes together *)

Section ServerFacts.

Variable jws_sign : JwtPayload -> string -> string.
Variable jws_verify : string -> string -> option JwtPayload.
Variable bcrypt_compare : string -> string -> bool.

(** X11: a login is answered with a token exactly when the name is a key of
    the store itself and the password is a string that [bcrypt.compare]
    accepts for the stored hash; the token is then the one signed for that
    name at the time of the request, valid for an hour. *)
Theorem login_token_iff (users : Users) (env : option string) (now : Z)
    (name : string) (password : option string) (r : Response) :
  (login jws_sign bcrypt_compare users env now
     {| login_username := Some name; login_password := password |}
   = LoginSent r /\ status r = 200) <->
  exists u pw,
    users !! name = Some u
    /\ password = Some pw
    /\ bcrypt_compare pw (passwordHash u) = true
    /\ r = {| status := 200;
              payload :=
                TokenBody
                  (jws_sign {| jwt_username := Some name; iat := Some now;
                               nbf := None; exp := Some (now + 3600) |}
                     (jwt_secret env)) |}.
Proof.
  unfold login, users_get, bcrypt_compare_async, jwt_sign.
  cbn [login_username login_password]. split.
  - destruct (users !! name) as [u|] eqn:Hu.
    + destruct password as [pw|]; [|intros [[=] _]].
      destruct (bcrypt_compare pw (passwordHash u)) eqn:Hc.
      * intros [[= <-] _]. exists u, pw. auto.
      * intros [[= <-] H]. discriminate H.
    + destruct (existsb _ _).
      * destruct password; intros [[=] _].
      * intros [[= <-] H]. discriminate H.
  - intros (u & pw & Hu & -> & Hc & ->). rewrite Hu, Hc. auto.
Qed.

(** X12: the promise of the login handler is rejected, the handler
    having sent neither "Invalid credentials" nor a token, exactly when
    [bcrypt.compare] is given something that is not a string: for a name
    that is no user of the store but a member every object inherits,
    where the hash is missing, and for a user of the store when the
    password is missing.  What is then answered is no longer the
    handler's doing. *)
Theorem login_handler_rejects_iff (users : Users) (env : option string)
    (now : Z) (name : string) (password : option string) :
  login jws_sign bcrypt_compare users env now
    {| login_username := Some name; login_password := password |}
  = LoginRejected <->
  (users !! name = None /\ In name object_prototype_keys)
  \/ (is_Some (users !! name) /\ password = None).
Proof.
  unfold login, users_get, bcrypt_compare_async.
  cbn [login_username login_password].
  assert (Hkeys : existsb (String.eqb name) object_prototype_keys = true
                  <-> In name object_prototype_keys).
  { rewrite existsb_exists. split.
    - intros (k & Hk & Heq). apply String.eqb_eq in Heq. subst k. exact Hk.
    - intros Hk. exists name. split; [exact Hk|apply String.eqb_refl]. }
  destruct (users !! name) as [u|] eqn:Hu.
  - destruct password as [pw|].
    + destruct (bcrypt_compare pw (passwordHash u)); split; try discriminate;
        intros [[H _]|[_ H]]; discriminate.
    + split; [|reflexivity]. intros _. right. split; [eauto|reflexivity].
  - destruct (existsb (String.eqb name) object_prototype_keys) eqn:Hex.
    + split.
      * intros _. left. split; [reflexivity|]. apply Hkeys. reflexivity.
      * intros _. destruct password; reflexivity.
    + split; [discriminate|].
      intros [[_ H]|[[x H] _]]; [|discriminate].
      apply Hkeys in H. discriminate.
Qed.


(** X14: the store is changed through the account routes only by a withdrawal
    that is answered 200 under a token that [jwt.verify] accepts, and only
    in the record of the user that the token names, who is a user of the
    store; reading the account and projecting the interest never change
    the store. *)
Theorem account_routes_change (users : Users) (env : option string)
    (now : Z) (authorization : option string)
    (body : list (string * json)) :
  fst (account_route jws_verify get_account users env now authorization body)
  = users
  /\ fst (account_route jws_verify interest users env now authorization body)
     = users
  /\ (let result :=
        account_route jws_verify withdraw users env now authorization body in
      fst result <> users ->
      exists token p name,
        authorization = Some ("Bearer " ++ token)
        /\ jws_verify token (jwt_secret env) = Some p
        /\ (forall t, nbf p = Some t -> t <= now)
        /\ (forall t, exp p = Some t -> now < t)
        /\ jwt_username p = Some name
        /\ is_Some (users !! name)
        /\ status (snd result) = 200
        /\ forall k, k <> name -> fst result !! k = users !! k).
Proof.
  unfold account_route.
  destruct (auth jws_verify env now authorization) as [[ru|r] verified]
    eqn:Hauth; cbn [fst].
  - split; [|split].
    + unfold get_account. destruct (getAccountForReq _ _) as [[[? ?] ?]|];
        reflexivity.
    + unfold interest. destruct (getAccountForReq _ _) as [[[? ?] ?]|];
        reflexivity.
    + set (req := {| user := Some ru; body := body |}).
      destruct (withdraw users req) as [users' o] eqn:Hw.
      cbn [fst snd]. intros Hchanged.
      apply auth_next_inv in Hauth
        as (token & p & -> & _ & _ & Hv & Hnbf & Hexp & -> & _).
      destruct (is_error o) eqn:Herr.
      { pose proof (withdraw_not_200 users req) as H. rewrite Hw in H.
        simpl in H. destruct Hchanged. exact (H Herr). }
      destruct o as [r|]; [|discriminate]. simpl in Herr.
      apply negb_false_iff, Z.eqb_eq in Herr.
      destruct (withdraw_200 _ _ _ _ Hw Herr)
        as (amount & name & u & a & _ & _ & _ & Hacc & _ & -> & _).
      apply getAccountForReq_iff in Hacc as (Huser & _ & Hu & _).
      injection Huser as Huser.
      exists token, p, name.
      split; [reflexivity|]. split; [exact Hv|]. split; [exact Hnbf|].
      split; [exact Hexp|]. split; [exact Huser|].
      split; [rewrite Hu; eauto|]. split; [exact Herr|].
      intros k Hk. rewrite lookup_insert_ne by congruence. reflexivity.
  - split; [reflexivity|]. split; [reflexivity|].
    cbn [fst]. intros H. contradiction.
Qed.

(** X15: a withdrawal request whose amount is a JSON object with a member
    named [toString] makes the handler throw while converting the amount:
    under a token the middleware accepts the request is answered 500
    "Internal Server Error" by the error handler, and the store is as
    before. *)
Theorem withdraw_object_amount (users : Users) (env : option string)
    (now : Z) (authorization : option string) (u : ReqUser)
    (verified : list string) (sent : list (string * json))
    (fields : list (string * json)) :
  auth jws_verify env now authorization = (Next u, verified) ->
  get_prop "amount" sent = Some (JObj fields) ->
  has_own "toString" fields = true ->
  account_route jws_verify withdraw users env now authorization sent
  = (users, {| status := 500; payload := Message "Internal Server Error" |}).
Proof.
  intros Hauth Hamount Hown. unfold account_route. rewrite Hauth. cbn [fst].
  unfold withdraw. cbn [body]. rewrite Hamount.
  cbn [Number ToNumber]. rewrite Hown. reflexivity.
Qed.

End ServerFacts.

(** ** Whole amounts *)

Module JsNumberIntegers.

Import JsNumberFacts.

(** *** Whole numbers below [2^53] *)

(** A value [mz * 2^ez] whose digits below the exponent [e1] of its
    rounding are all zero is rounded to itself. *)
Lemma binary_round_aux_exact (s : bool) (mz : positive) (ez : Z) :
  let e1 := fexp prec emax (Zpos (digits2_pos mz) + ez) in
  ez <= e1 <= 971 ->
  Zpos mz mod 2 ^ (e1 - ez) = 0 ->
  exists m,
    Zpos m * 2 ^ (e1 - ez) = Zpos mz
    /\ binary_round_aux prec emax s (Zpos mz) ez loc_Exact
       = S754_finite s m e1.
Proof.
  intros e1 He1 Hmod.
  pose proof (digits2_pos_bounds mz) as [Hl Hu].
  unfold binary_round_aux, shr_fexp.
  cbn [Zdigits2 shr_record_of_loc]. fold e1.
  remember (e1 - ez) as n eqn:En.
  destruct (shr_spec {| shr_m := Zpos mz; shr_r := false; shr_s := false |}
              ez n ltac:(simpl; lia) ltac:(lia))
    as [Hsnd (Hm1 & Hdiv & Hlost)].
  destruct (shr _ ez n) as [x1 e1'] eqn:Hshr. cbn [fst snd] in *.
  assert (He1' : e1' = e1) by lia. clear Hsnd. subst e1'.
  cbn [shr_m] in Hdiv, Hlost. specialize (Hlost eq_refl Hmod).
  remember (shr_m x1) as m1 eqn:Em1.
  pose proof (pow2_pos n ltac:(lia)) as HP.
  remember (2 ^ n) as P eqn:EP.
  pose proof (Z.div_mod (Zpos mz) P ltac:(lia)) as Hdm.
  rewrite <- Hdiv, Hmod in Hdm.
  pose proof (round_nearest_even_spec x1) as Hr. cbn zeta in Hr.
  rewrite <- Em1 in Hr.
  destruct Hr as [Hr|[_ Hr]]; [|rewrite Hlost in Hr; discriminate].
  rewrite Hr.
  destruct m1 as [|p1|p1]; [lia| |lia].
  assert (Hd1 : Zpos (digits2_pos p1) + n = Zpos (digits2_pos mz)).
  { symmetry. apply (digits2_pos_shift p1 mz n); [lia|]. rewrite <- EP. lia. }
  cbn [Zdigits2].
  replace (Zpos (digits2_pos p1) + e1) with (Zpos (digits2_pos mz) + ez)
    by lia.
  fold e1. rewrite Z.sub_diag. cbn [shr fst snd shr_m].
  replace (e1 <=? emax - prec) with true
    by (symmetry; apply Z.leb_le; unfold emax, prec; lia).
  exists p1. split; [lia|reflexivity].
Qed.

(** The whole number [n] below [2^53], given as [q * 2^(-k)], rounds to
    [n] in canonical form. *)
Lemma binary_round_whole (s : bool) (n q : positive) (k : Z) :
  0 <= k -> Zpos q = Zpos n * 2 ^ k -> Zpos n < 2 ^ 53 ->
  exists m,
    Zpos m = Zpos n * 2 ^ (53 - Zpos (digits2_pos n))
    /\ binary_round prec emax s q (- k)
       = S754_finite s m (Zpos (digits2_pos n) - 53).
Proof.
  intros Hk Hq Hn.
  pose proof (digits2_pos_bounds n) as [Hl Hu].
  remember (Zpos (digits2_pos n)) as d eqn:Ed.
  assert (Hd0 : 0 < d) by lia.
  assert (Hd : d <= 53).
  { assert (H : 2 ^ (d - 1) < 2 ^ 53) by lia.
    apply pow2_lt_inv in H; lia. }
  pose proof (digits2_pos_shift n q k Hk Hq) as Hdq. rewrite <- Ed in Hdq.
  unfold binary_round. rewrite Hdq.
  replace (d + k + - k) with d by lia.
  assert (Hf : fexp prec emax d = d - 53) by (rewrite fexp_eq; lia).
  rewrite Hf.
  destruct (shl_align_spec q (- k) (d - 53)) as [Hez Hmz].
  destruct (shl_align q (- k) (d - 53)) as [mz ez]. cbn [fst snd] in *.
  assert (Hmz' : Zpos mz = Zpos n * 2 ^ (- ez)).
  { rewrite Hmz, Hq, <- Z.mul_assoc, <- pow2_split by lia.
    f_equal. f_equal. lia. }
  pose proof (digits2_pos_shift n mz (- ez) ltac:(lia) Hmz') as Hdz.
  rewrite <- Ed in Hdz.
  assert (He1 : fexp prec emax (Zpos (digits2_pos mz) + ez) = d - 53).
  { rewrite Hdz. replace (d + - ez + ez) with d by lia. exact Hf. }
  assert (Hsplit : Zpos mz = Zpos n * 2 ^ (53 - d) * 2 ^ (d - 53 - ez)).
  { rewrite Hmz', <- Z.mul_assoc, <- pow2_split by lia.
    f_equal. f_equal. lia. }
  destruct (binary_round_aux_exact s mz ez) as (m & Hm & Hr).
  - rewrite He1. lia.
  - rewrite He1, Hsplit. apply Z.mod_mul.
    pose proof (pow2_pos (d - 53 - ez) ltac:(lia)). lia.
  - rewrite He1 in Hm, Hr. exists m. split; [|exact Hr].
    pose proof (pow2_pos (d - 53 - ez) ltac:(lia)). nia.
Qed.

(** The Number value of a whole number between [-2^53] and [2^53]. *)
Lemma of_Z_pos (n : positive) :
  Zpos n < 2 ^ 53 ->
  exists m,
    Zpos m = Zpos n * 2 ^ (53 - Zpos (digits2_pos n))
    /\ of_Z (Zpos n) = S754_finite false m (Zpos (digits2_pos n) - 53).
Proof.
  intros Hn. unfold of_Z. cbn [binary_normalize].
  apply (binary_round_whole false n n 0); [lia| |assumption].
  simpl. lia.
Qed.

Lemma of_Z_neg (n : positive) :
  Zpos n < 2 ^ 53 ->
  exists m, of_Z (Zneg n) = S754_finite true m (Zpos (digits2_pos n) - 53).
Proof.
  intros Hn. unfold of_Z. cbn [binary_normalize].
  destruct (binary_round_whole true n n 0) as (m & _ & H);
    [lia|simpl; lia|assumption|].
  exists m. exact H.
Qed.

Lemma isNaN_of_Z (n : Z) : - 2 ^ 53 < n < 2 ^ 53 -> isNaN (of_Z n) = false.
Proof.
  intros Hn. destruct n as [|p|p].
  - reflexivity.
  - destruct (of_Z_pos p ltac:(lia)) as (m & _ & ->). reflexivity.
  - destruct (of_Z_neg p ltac:(lia)) as (m & ->). reflexivity.
Qed.

Lemma le_of_Z_zero (n : Z) :
  - 2 ^ 53 < n < 2 ^ 53 -> le (of_Z n) pos_zero = (n <=? 0).
Proof.
  intros Hn. destruct n as [|p|p].
  - reflexivity.
  - destruct (of_Z_pos p ltac:(lia)) as (m & _ & ->). reflexivity.
  - destruct (of_Z_neg p ltac:(lia)) as (m & ->). reflexivity.
Qed.

(** Whole numbers compare as their Number values do. *)
Lemma gt_of_Z (n b : Z) :
  0 < n < 2 ^ 53 -> 0 <= b < 2 ^ 53 -> gt (of_Z n) (of_Z b) = (b <? n).
Proof.
  intros Hn Hb. destruct n as [|p|p]; try lia.
  destruct (of_Z_pos p ltac:(lia)) as (mp & Hmp & ->).
  destruct b as [|q|q]; try lia.
  - reflexivity.
  - destruct (of_Z_pos q ltac:(lia)) as (mq & Hmq & ->).
    unfold gt, lt. cbn [compare]. rewrite !aligned_value. cbn [cond_Zopp].
    pose proof (digits2_pos_bounds p) as [Hlp Hup].
    pose proof (digits2_pos_bounds q) as [Hlq Huq].
    remember (Zpos (digits2_pos p)) as dp eqn:Edp.
    remember (Zpos (digits2_pos q)) as dq eqn:Edq.
    assert (Hdp : 0 < dp <= 53).
    { split; [lia|]. assert (H : 2 ^ (dp - 1) < 2 ^ 53) by lia.
      apply pow2_lt_inv in H; lia. }
    assert (Hdq : 0 < dq <= 53).
    { split; [lia|]. assert (H : 2 ^ (dq - 1) < 2 ^ 53) by lia.
      apply pow2_lt_inv in H; lia. }
    rewrite (Z.min_comm (dp - 53) (dq - 53)).
    remember (Z.min (dq - 53) (dp - 53)) as e eqn:Ee.
    assert (Hq : Zpos mq * 2 ^ (dq - 53 - e) = Zpos q * 2 ^ (- e)).
    { rewrite Hmq, <- Z.mul_assoc, <- pow2_split by lia.
      f_equal. f_equal. lia. }
    assert (Hp : Zpos mp * 2 ^ (dp - 53 - e) = Zpos p * 2 ^ (- e)).
    { rewrite Hmp, <- Z.mul_assoc, <- pow2_split by lia.
      f_equal. f_equal. lia. }
    rewrite Hq, Hp.
    pose proof (pow2_pos (- e) ltac:(lia)) as HP.
    remember (2 ^ (- e)) as P eqn:EP.
    clear - HP. 
    destruct (Z.ltb_spec (Zpos q) (Zpos p)) as [Hlt|Hge].
    + replace (Zpos q * P ?= Zpos p * P) with Lt; [reflexivity|].
      symmetry. apply Z.compare_lt_iff. nia.
    + destruct (Zpos q * P ?= Zpos p * P) eqn:E; try reflexivity.
      rewrite Z.compare_lt_iff in E. nia.
Qed.

(** Subtraction of whole numbers below [2^53] is exact. *)
Lemma sub_of_Z (n b : Z) :
  0 < n <= b -> b < 2 ^ 53 -> sub (of_Z b) (of_Z n) = of_Z (b - n).
Proof.
  intros Hn Hb. destruct n as [|p|p]; try lia. destruct b as [|q|q]; try lia.
  destruct (of_Z_pos p ltac:(lia)) as (mp & Hmp & ->).
  destruct (of_Z_pos q ltac:(lia)) as (mq & Hmq & ->).
  unfold sub. cbn [SFsub cond_Zopp].
  pose proof (digits2_pos_bounds p) as [Hlp Hup].
  pose proof (digits2_pos_bounds q) as [Hlq Huq].
  remember (Zpos (digits2_pos p)) as dp eqn:Edp.
  remember (Zpos (digits2_pos q)) as dq eqn:Edq.
  assert (Hdp : 0 < dp <= 53).
  { split; [lia|]. assert (H : 2 ^ (dp - 1) < 2 ^ 53) by lia.
    apply pow2_lt_inv in H; lia. }
  assert (Hdq : 0 < dq <= 53).
  { split; [lia|]. assert (H : 2 ^ (dq - 1) < 2 ^ 53) by lia.
    apply pow2_lt_inv in H; lia. }
  remember (Z.min (dq - 53) (dp - 53)) as e eqn:Ee.
  destruct (shl_align_spec mq (dq - 53) e) as [_ Hx].
  destruct (shl_align_spec mp (dp - 53) e) as [_ Hy].
  replace (Z.min (dq - 53) e) with e in Hx by lia.
  replace (Z.min (dp - 53) e) with e in Hy by lia.
  remember (fst (shl_align mq (dq - 53) e)) as x eqn:Ex.
  remember (fst (shl_align mp (dp - 53) e)) as y eqn:Ey.
  assert (Hq : Zpos x = Zpos q * 2 ^ (- e)).
  { rewrite Hx, Hmq, <- Z.mul_assoc, <- pow2_split by lia.
    f_equal. f_equal. lia. }
  assert (Hp : Zpos y = Zpos p * 2 ^ (- e)).
  { rewrite Hy, Hmp, <- Z.mul_assoc, <- pow2_split by lia.
    f_equal. f_equal. lia. }
  pose proof (pow2_pos (- e) ltac:(lia)) as HP.
  destruct (Zpos q - Zpos p) as [|r|r] eqn:Er; try lia.
  - replace (Zpos x - Zpos y) with 0 by nia. reflexivity.
  - assert (Hr : Zpos r < 2 ^ 53) by lia.
    destruct (Zpos x - Zpos y) as [|z|z] eqn:Ez; try nia.
    assert (Hz : Zpos z = Zpos r * 2 ^ (- e)) by nia.
    destruct (of_Z_pos r Hr) as (m1 & Hm1 & ->).
    cbn [binary_normalize].
    destruct (binary_round_whole false r z (- e) ltac:(lia) Hz Hr)
      as (m2 & Hm2 & H2).
    replace (- - e) with e in H2 by lia. rewrite H2.
    f_equal. lia.
Qed.

End JsNumberIntegers.

(** A withdrawal of a whole amount from a whole balance. *)
Lemma withdraw_whole (users : Users) (req : Request) name u a (b n : Z) :
  getAccountForReq users req = Some (name, u, a) ->
  balance a = of_Z b -> 0 <= b < 2 ^ 53 ->
  Number (get_prop "amount" (body req)) = Normal (of_Z n) ->
  - 2 ^ 53 < n < 2 ^ 53 ->
  withdraw users req
  = if n <=? 0 then (users, Sent InvalidAmount)
    else if b <? n then (users, Sent InsufficientFunds)
    else (<[name := set_account u
                      (set_lastWithdrawal (set_balance a (of_Z (b - n)))
                         (of_Z n))]> users,
          Sent (res_json (WithdrawBody "Withdrawal successful"
                            (of_Z (b - n)) (Some (of_Z n))))).
Proof.
  intros Hacc Hbal Hb Hnum Hn. unfold withdraw. rewrite Hnum.
  rewrite (JsNumberIntegers.isNaN_of_Z n Hn).
  rewrite (JsNumberIntegers.le_of_Z_zero n Hn).
  destruct (Z.leb_spec n 0) as [Hle|Hpos]; [reflexivity|].
  rewrite Hacc, Hbal.
  rewrite (JsNumberIntegers.gt_of_Z n b ltac:(lia) Hb).
  destruct (Z.ltb_spec b n) as [Hlt|Hge]; [reflexivity|].
  cbn zeta. cbn [set_lastWithdrawal set_balance balance lastWithdrawal].
  rewrite (JsNumberIntegers.sub_of_Z n b ltac:(lia) ltac:(lia)).
  reflexivity.
Qed.

(** X16: on whole numbers the withdrawal is exact.  For a balance that is
    a whole number [b] below [2^53] and an amount that converts to a whole
    number [n] between [-2^53] and [2^53], the request is answered 200
    exactly when [0 < n <= b], and the new balance is the whole number
    [b - n], with nothing lost to rounding; [n <= 0] is answered "Invalid
    withdrawal amount" and [b < n] "Insufficient funds". *)
Theorem withdraw_whole_amount (users : Users) (req : Request) name u a
    (b n : Z) :
  getAccountForReq users req = Some (name, u, a) ->
  balance a = of_Z b -> 0 <= b < 2 ^ 53 ->
  Number (get_prop "amount" (body req)) = Normal (of_Z n) ->
  - 2 ^ 53 < n < 2 ^ 53 ->
  (n <= 0 -> withdraw users req = (users, Sent InvalidAmount))
  /\ (b < n -> withdraw users req = (users, Sent InsufficientFunds))
  /\ (0 < n <= b ->
      snd (withdraw users req)
      = Sent {| status := 200;
                payload := WithdrawBody "Withdrawal successful"
                             (of_Z (b - n)) (Some (of_Z n)) |}
      /\ exists u' a',
           fst (withdraw users req) !! name = Some u'
           /\ account u' = Some a'
           /\ balance a' = of_Z (b - n)
           /\ lastWithdrawal a' = Some (of_Z n)).
Proof.
  intros Hacc Hbal Hb Hnum Hn.
  rewrite (withdraw_whole users req name u a b n Hacc Hbal Hb Hnum Hn).
  split; [|split].
  - intros H. destruct (Z.leb_spec n 0); [reflexivity|lia].
  - intros H. destruct (Z.leb_spec n 0); [lia|].
    destruct (Z.ltb_spec b n); [reflexivity|lia].
  - intros H. destruct (Z.leb_spec n 0); [lia|].
    destruct (Z.ltb_spec b n); [lia|]. cbn [fst snd].
    split; [reflexivity|]. eexists _, _.
    rewrite lookup_insert_eq. split; [reflexivity|].
    split; [reflexivity|]. split; reflexivity.
Qed.

Lemma whole_withdraw_bounds (b n : Z) :
  0 <= b < 2 ^ 53 -> 0 <= whole_withdraw b n < 2 ^ 53.
Proof.
  unfold whole_withdraw. intros H.
  destruct (Z.ltb_spec 0 n), (Z.leb_spec n b); cbn [andb]; lia.
Qed.

(** X17: requests of whole amounts, all in the name of one user whose
    balance is a whole number below [2^53], keep an exact ledger: after
    any sequence of them the balance is the whole number that taking, in
    turn, every amount that is above zero and covered leaves, with no
    rounding error however long the sequence. *)
Theorem run_withdrawals_whole (name : string) (reqs : list Request)
    (ns : list Z) :
  Forall2 (whole_request name) reqs ns ->
  forall (users : Users) u a (b : Z),
    name <> "" -> users !! name = Some u -> account u = Some a ->
    balance a = of_Z b -> 0 <= b < 2 ^ 53 ->
    exists u' a',
      run_withdrawals users reqs !! name = Some u'
      /\ account u' = Some a'
      /\ balance a' = of_Z (fold_left whole_withdraw ns b)
      /\ 0 <= fold_left whole_withdraw ns b <= b.
Proof.
  induction 1 as [|req n reqs ns (Huser & Hnum & Hn) _ IH];
    intros users u a b Hname Hu Ha Hbal Hb; cbn [run_withdrawals fold_left].
  - exists u, a. split; [exact Hu|]. split; [exact Ha|].
    split; [exact Hbal|lia].
  - assert (Hacc : getAccountForReq users req = Some (name, u, a)).
    { unfold getAccountForReq, users_get. rewrite Huser. cbn [username].
      destruct (String.eqb_spec name ""); [contradiction|].
      rewrite Hu, Ha. reflexivity. }
    pose proof (withdraw_whole users req name u a b n Hacc Hbal Hb Hnum Hn)
      as Hw.
    pose proof (whole_withdraw_bounds b n Hb) as Hb'.
    assert (Hstep : exists u1 a1,
               fst (withdraw users req) !! name = Some u1
               /\ account u1 = Some a1
               /\ balance a1 = of_Z (whole_withdraw b n)
               /\ whole_withdraw b n <= b).
    { rewrite Hw. unfold whole_withdraw.
      destruct (Z.leb_spec n 0) as [Hle|Hpos].
      - replace (0 <? n) with false by (symmetry; apply Z.ltb_ge; lia).
        cbn [andb fst]. exists u, a. auto with zarith.
      - replace (0 <? n) with true by (symmetry; apply Z.ltb_lt; lia).
        destruct (Z.ltb_spec b n) as [Hlt|Hge].
        + replace (n <=? b) with false by (symmetry; apply Z.leb_gt; lia).
          cbn [andb fst]. exists u, a. auto with zarith.
        + replace (n <=? b) with true by (symmetry; apply Z.leb_le; lia).
          cbn [andb fst]. eexists _, _. rewrite lookup_insert_eq.
          split; [reflexivity|]. split; [reflexivity|].
          split; [reflexivity|lia]. }
    destruct Hstep as (u1 & a1 & Hu1 & Ha1 & Hbal1 & Hle1).
    destruct (IH _ u1 a1 (whole_withdraw b n) Hname Hu1 Ha1 Hbal1 Hb')
      as (u' & a' & Hu' & Ha' & Hbal' & Hrange).
    exists u', a'. split; [exact Hu'|]. split; [exact Ha'|].
    split; [exact Hbal'|lia].
Qed.

(** ** Amounts with a minus sign *)

Lemma trim_start_last (c : ascii) (l : list ascii) :
  is_whitespace c = false ->
  exists l', trim_start (l ++ [c])%list = (l' ++ [c])%list.
Proof.
  intros Hc. induction l as [|d r IH]; cbn [app trim_start].
  - rewrite Hc. exists []. reflexivity.
  - destruct (is_whitespace d); [exact IH|]. exists (d :: r). reflexivity.
Qed.

Lemma trim_head (c : ascii) (rest : list ascii) :
  is_whitespace c = false -> exists r, trim (c :: rest) = c :: r.
Proof.
  intros Hc. unfold trim. rewrite (JsNumberFacts.trim_start_head c rest Hc).
  cbn [rev]. destruct (trim_start_last c (rev rest) Hc) as (l' & ->).
  rewrite rev_app_distr. exists (rev l'). reflexivity.
Qed.

Lemma opp_not_above_zero (x : number) :
  match x with
  | S754_zero s | S754_infinity s | S754_finite s _ _ => s = false
  | S754_nan => True
  end ->
  isNaN (SFopp x) = true \/ le (SFopp x) pos_zero = true.
Proof.
  destruct x as [s|s| |s m e]; cbn [SFopp isNaN].
  - intros _. right. reflexivity.
  - intros ->. right. reflexivity.
  - intros _. left. reflexivity.
  - intros ->. right. reflexivity.
Qed.

Lemma of_decimal_sign (m e : Z) :
  match of_decimal m e with
  | S754_zero s | S754_infinity s | S754_finite s _ _ => s = false
  | S754_nan => True
  end.
Proof.
  destruct m as [|p|p]; cbn [of_decimal]; [reflexivity| |exact I].
  destruct (0 <=? e) eqn:He.
  - apply JsNumberFacts.binary_normalize_sign.
    apply Z.leb_le in He. pose proof (Z.pow_nonneg 10 e ltac:(lia)). lia.
  - unfold div. cbn [SFdiv xorb].
    destruct (SFdiv_core_binary prec emax (Zpos p) 0
                (Zpos (Z.to_pos (10 ^ (- e)))) 0) as [[mz ez] lz].
    apply JsNumberFacts.binary_round_aux_sign.
Qed.

(** A text that begins with a minus sign converts to [NaN] or to a number
    that is not above zero. *)
Lemma StringToNumber_minus (rest : string) :
  isNaN (StringToNumber (String "-" rest)) = true
  \/ le (StringToNumber (String "-" rest)) pos_zero = true.
Proof.
  unfold StringToNumber. cbn [list_ascii_of_string].
  destruct (trim_head "-" (list_ascii_of_string rest) eq_refl) as (r & ->).
  change (Ascii.eqb "-" "+") with false.
  change (Ascii.eqb "-" "-") with true. cbv iota beta.
  destruct (String.eqb (string_of_list_ascii r) "Infinity").
  - right. reflexivity.
  - destruct (parse_unsigned_decimal r) as [[m e]|].
    + apply opp_not_above_zero. apply of_decimal_sign.
    + left. reflexivity.
Qed.

(** X18: no text that begins with a minus sign is ever withdrawn.  Such an
    amount is answered with one of the two 400 responses for amounts, and
    the store is as before, whatever follows the sign and whoever asks. *)
Theorem withdraw_minus_sign (users : Users) (req : Request) (rest : string) :
  get_prop "amount" (body req) = Some (JStr (String "-" rest)) ->
  withdraw users req = (users, Sent NotANumber)
  \/ withdraw users req = (users, Sent InvalidAmount).
Proof.
  intros Hamount. unfold withdraw. rewrite Hamount. cbn [Number ToNumber].
  destruct (StringToNumber_minus rest) as [H|H].
  - rewrite H. left. reflexivity.
  - destruct (isNaN _); [left; reflexivity|]. rewrite H. right. reflexivity.
Qed.

(** ** What the account routes answer *)

Section RouteFacts.

Variable jws_sign : JwtPayload -> string -> string.
Variable jws_verify : string -> string -> option JwtPayload.
Variable bcrypt_compare : string -> string -> bool.

Lemma auth_rejected_401 (env : option string) (now : Z)
    (authorization : option string) (r : Response) (verified : list string) :
  auth jws_verify env now authorization = (Rejected r, verified) ->
  status r = 401.
Proof.
  unfold auth.
  destruct (negb _ || negb _).
  - intros [= <- _]. reflexivity.
  - destruct (jwt_verify _ _ _ _); [discriminate|].
    intros [= <- _]. reflexivity.
Qed.

(** X19: the status codes of the account routes.  Reading the account and
    projecting the interest are answered 200, 401 or 404 and nothing
    else; a withdrawal is answered 200, 400, 401, 404 or 500, and 500
    exactly when the middleware lets the request pass and converting the
    amount throws. *)
Theorem account_route_statuses (users : Users) (env : option string)
    (now : Z) (authorization : option string)
    (sent : list (string * json)) :
  let answer handler :=
    status (snd (account_route jws_verify handler users env now
                   authorization sent)) in
  (answer get_account = 200 \/ answer get_account = 401
   \/ answer get_account = 404)
  /\ (answer interest = 200 \/ answer interest = 401
      \/ answer interest = 404)
  /\ (answer withdraw = 200 \/ answer withdraw = 400
      \/ answer withdraw = 401 \/ answer withdraw = 404
      \/ answer withdraw = 500)
  /\ (answer withdraw = 500
      <-> (exists u verified,
              auth jws_verify env now authorization = (Next u, verified))
          /\ Number (get_prop "amount" sent) = ThrowTypeError).
Proof.
  cbv zeta. unfold account_route.
  destruct (auth jws_verify env now authorization) as [[ru|r] verified]
    eqn:Hauth; cbn [fst].
  - split; [|split; [|split]].
    + unfold get_account.
      destruct (getAccountForReq _ _) as [[[? ?] ?]|]; cbn; auto.
    + unfold interest.
      destruct (getAccountForReq _ _) as [[[? ?] ?]|]; cbn; auto.
    + withdraw_cases amount name u a; cbn; auto 6.
    + unfold withdraw. cbn [body].
      destruct (Number (get_prop "amount" sent)) as [amount|].
      * split; [|intros [_ [=]]].
        destruct (isNaN amount); [cbn; discriminate|].
        destruct (le amount pos_zero); [cbn; discriminate|].
        destruct (getAccountForReq _ _) as [[[name u] a]|];
          [|cbn; discriminate].
        destruct (gt amount (balance a)); cbn; discriminate.
      * split; [|reflexivity]. intros _. split; [eauto|reflexivity].
  - pose proof (auth_rejected_401 _ _ _ _ _ Hauth) as H401.
    cbn [snd]. rewrite H401.
    split; [auto|]. split; [auto|]. split; [auto|].
    split; [discriminate|]. intros [(u & v & [=]) _].
Qed.

(** X20: what a 200 answer of an account route tells.  Such an answer is
    only ever given under a token that [jwt.verify] accepts, to the user
    the token names, who is a user of the store with an account; it is
    the answer of the handler run in that name, and for reading the
    account it carries the account of that user as the store holds it. *)
Theorem account_route_200 (users : Users) (env : option string) (now : Z)
    (authorization : option string) (body : list (string * json))
    (handler : Users -> Request -> Users * Outcome) :
  handler = get_account \/ handler = interest \/ handler = withdraw ->
  status (snd (account_route jws_verify handler users env now
                 authorization body)) = 200 ->
  exists token p name u a,
    authorization = Some ("Bearer " ++ token)
    /\ jws_verify token (jwt_secret env) = Some p
    /\ (forall t, nbf p = Some t -> t <= now)
    /\ (forall t, exp p = Some t -> now < t)
    /\ jwt_username p = Some name
    /\ users !! name = Some u
    /\ account u = Some a
    /\ account_route jws_verify handler users env now authorization body
       = (fst (handler users (request_of name body)),
          respond (snd (handler users (request_of name body))))
    /\ (handler = get_account ->
        snd (account_route jws_verify handler users env now authorization
               body)
        = {| status := 200; payload := AccountBody a |}).
Proof.
  intros Hhandler. unfold account_route.
  destruct (auth jws_verify env now authorization) as [[ru|r] verified]
    eqn:Hauth; cbn [fst].
  - apply auth_next_inv in Hauth
      as (token & p & -> & _ & _ & Hv & Hnbf & Hexp & -> & _).
    set (req := {| user := Some {| username := jwt_username p |};
                   body := body |}).
    intros H200.
    assert (Hacc : exists name u a,
               getAccountForReq users req = Some (name, u, a)).
    { destruct (getAccountForReq users req) as [[[name u] a]|] eqn:Hacc;
        [eauto|exfalso].
      destruct Hhandler as [-> | [-> | ->]]; revert H200.
      - unfold get_account. rewrite Hacc. cbn. discriminate.
      - unfold interest. rewrite Hacc. cbn. discriminate.
      - unfold withdraw. rewrite Hacc.
        destruct (Number _) as [amount|]; [|cbn; discriminate].
        destruct (isNaN amount); [cbn; discriminate|].
        destruct (le amount pos_zero); cbn; discriminate. }
    destruct Hacc as (name & u & a & Hacc).
    pose proof (proj1 (getAccountForReq_iff _ _ _ _ _) Hacc)
      as (Huser & _ & Hu & Ha).
    cbn [req user] in Huser. injection Huser as Huser.
    exists token, p, name, u, a.
    split; [reflexivity|]. split; [exact Hv|]. split; [exact Hnbf|].
    split; [exact Hexp|]. split; [exact Huser|]. split; [exact Hu|].
    split; [exact Ha|].
    assert (Hreq : req = request_of name body)
      by (unfold req, request_of; rewrite Huser; reflexivity).
    rewrite Hreq in *. split.
    + destruct (handler users (request_of name body)); reflexivity.
    + intros ->. unfold get_account. rewrite Hacc. reflexivity.
  - intros H200. pose proof (auth_rejected_401 _ _ _ _ _ Hauth) as H401.
    cbn [snd] in H200. rewrite H401 in H200. discriminate H200.
Qed.

End RouteFacts.

(** ** The states reached from the initial store *)

Lemma seed_invariant_initial (hash : string) :
  seed_invariant hash (initial_users hash).
Proof.
  split.
  - intros k. split.
    + intros [u Hu]. apply initial_users_lookup in Hu as [-> _]. reflexivity.
    + intros ->. exists (customer1 hash). reflexivity.
  - exists customer1_account. split; [reflexivity|].
    split; [reflexivity|]. split; [reflexivity|]. split; [reflexivity|].
    split; [reflexivity|]. intros w [=].
Qed.

Lemma seed_invariant_withdraw (hash : string) (users : Users)
    (req : Request) :
  seed_invariant hash users ->
  seed_invariant hash (fst (withdraw users req)).
Proof.
  intros (Hkeys & a & Hu & Hrate & Hcur & Hfin & Hle & Hlast).
  destruct (withdraw users req) as [users' o] eqn:Hw. cbn [fst].
  destruct (is_error o) eqn:Herr.
  { pose proof (withdraw_not_200 users req) as H. rewrite Hw in H.
    simpl in H. rewrite (H Herr). split; [exact Hkeys|].
    exists a. auto 10. }
  destruct o as [r|]; [|discriminate]. simpl in Herr.
  apply negb_false_iff, Z.eqb_eq in Herr.
  destruct (withdraw_200 _ _ _ _ Hw Herr)
    as (amount & name & u & b & _ & Hnan & Hpos & Hacc & Hgt & -> & _).
  apply getAccountForReq_iff in Hacc as (_ & _ & Hname & Hb).
  assert (Hn : name = "customer1") by (apply Hkeys; eauto).
  subst name. rewrite Hu in Hname. injection Hname as <-.
  cbn [account] in Hb. injection Hb as <-.
  split.
  - intros k. destruct (decide ("customer1" = k)) as [<-|Hne].
    + rewrite lookup_insert_eq. split; [reflexivity|eauto].
    + rewrite lookup_insert_ne by assumption. apply Hkeys.
  - eexists. rewrite lookup_insert_eq. split; [reflexivity|].
    cbn [set_lastWithdrawal set_balance interestRate currency balance
           lastWithdrawal].
    split; [exact Hrate|]. split; [exact Hcur|].
    assert (Hfin' : finite_not_negative (sub (balance a) amount) = true)
      by (apply JsNumberFacts.sub_finite_not_negative; assumption).
    split; [exact Hfin'|]. split.
    + apply (JsNumberOrder.le_trans_finite_not_negative _ (balance a));
        try assumption; try reflexivity.
      apply JsNumberOrder.sub_le_balance; assumption.
    + intros w [= <-].
      rewrite (JsNumberFacts.le_zero_gt_zero _ Hnan) in Hpos.
      apply negb_false_iff in Hpos. exact Hpos.
Qed.

Lemma run_withdrawals_seed_invariant (hash : string) (reqs : list Request) :
  forall users : Users,
    seed_invariant hash users ->
    seed_invariant hash (run_withdrawals users reqs).
Proof.
  induction reqs as [|req rest IH]; intros users Hinv;
    cbn [run_withdrawals].
  - exact Hinv.
  - apply IH. apply seed_invariant_withdraw. exact Hinv.
Qed.

(** X21: the states of the service.  Whatever withdrawal requests are made
    of the store the module starts with, [customer1] stays its only user,
    with the password hash, the interest rate 0.05 and the currency USD
    of the start; the balance is a finite number from 0 to 2000, and a
    last withdrawal, once there is one, is above zero. *)
Theorem seed_store_states (hash : string) (reqs : list Request) :
  let users := run_withdrawals (initial_users hash) reqs in
  (forall k, is_Some (users !! k) <-> k = "customer1")
  /\ exists a,
       users !! "customer1"
       = Some {| passwordHash := hash; account := Some a |}
       /\ interestRate a = StringToNumber "0.05"
       /\ currency a = "USD"
       /\ finite_not_negative (balance a) = true
       /\ le pos_zero (balance a) = true
       /\ le (balance a) (of_Z 2000) = true
       /\ (forall w, lastWithdrawal a = Some w -> gt w pos_zero = true).
Proof.
  intros users.
  destruct (run_withdrawals_seed_invariant hash reqs (initial_users hash)
              (seed_invariant_initial hash))
    as (Hkeys & a & Hu & Hrate & Hcur & Hfin & Hle & Hlast).
  split; [exact Hkeys|]. exists a.
  split; [exact Hu|]. split; [exact Hrate|]. split; [exact Hcur|].
  split; [exact Hfin|].
  split; [apply JsNumberFacts.finite_not_negative_le; exact Hfin|].
  split; [exact Hle|exact Hlast].
Qed.

(** ** The further properties at concrete requests *)

Lemma auth_next_iff_witness :
  let token := jwt_sign Demo.jws_sign (Some "customer1") "dev-secret" 1000 in
  auth Demo.jws_verify None 2000 (Some ("Bearer " ++ token))
  = (Next {| username := Some "customer1" |}, [token]).
Proof.
  intros token.
  apply (proj2 (auth_next_iff Demo.jws_verify None 2000
                  (Some ("Bearer " ++ token))
                  {| username := Some "customer1" |} [token])).
  exists token,
    {| jwt_username := Some "customer1"; iat := Some 1000; nbf := None;
       exp := Some 4600 |}.
  split; [reflexivity|]. split; [reflexivity|].
  split; [vm_compute; discriminate|]. split; [reflexivity|].
  split; [intros t [=]|]. split; [intros t [= <-]; lia|].
  split; reflexivity.
Defined.

Lemma auth_refused_token_witness :
  let token := jwt_sign Demo.jws_sign (Some "customer1") "dev-secret" 1000 in
  let refused :=
    Rejected (res_status_json 401 (Message "Invalid or expired token")) in
  auth Demo.jws_verify None 4600 (Some ("Bearer " ++ token))
  = (refused, [token])
  /\ auth Demo.jws_verify None 2000 (Some ("Bearer " ++ "")) = (refused, [""])
  /\ auth Demo.jws_verify None 2000 (Some ("Bearer " ++ "abc"))
     = (refused, ["abc"]).
Proof.
  intros token refused. split; [|split].
  - apply (auth_refused_token Demo.jws_verify None 4600 token eq_refl).
    right; right.
    exists {| jwt_username := Some "customer1"; iat := Some 1000;
              nbf := None; exp := Some 4600 |}, 4600.
    split; [reflexivity|]. right. split; [reflexivity|lia].
  - exact (auth_refused_token Demo.jws_verify None 2000 "" eq_refl
             (or_introl eq_refl)).
  - exact (auth_refused_token Demo.jws_verify None 2000 "abc" eq_refl
             (or_intror (or_introl eq_refl))).
Defined.

Lemma get_account_answers_witness :
  let users := initial_users "h" in
  snd (get_account users (request_of "customer1" []))
  = Sent {| status := 200; payload := AccountBody customer1_account |}
  /\ snd (get_account users (request_of "constructor" []))
     = Sent not_found.
Proof.
  intros users. split.
  - apply (proj2 (proj1 (proj2 (get_account_answers users
                                  (request_of "customer1" [])))
                    customer1_account)).
    exists "customer1", (customer1 "h").
    split; [reflexivity|]. split; [discriminate|].
    split; reflexivity.
  - apply (proj2 (proj2 (proj2 (get_account_answers users
                                  (request_of "constructor" []))))).
    intros (name & u & a & Huser & _ & Hu & _).
    injection Huser as <-.
    apply initial_users_lookup in Hu as [Hname _]. discriminate Hname.
Defined.

Lemma run_withdrawals_frame_witness :
  let users := initial_users "h" in
  let reqs :=
    [ request_of "customer1" [("amount", JNum (of_Z 500))];
      request_of "nobody" [("amount", JNum (of_Z 1))] ] in
  let users' := run_withdrawals users reqs in
  (forall k, is_Some (users' !! k) <-> is_Some (users !! k))
  /\ (forall u', users' !! "customer1" = Some u' -> passwordHash u' = "h")
  /\ run_withdrawals users [request_of "nobody" [("amount", JNum (of_Z 1))]]
     !! "customer1"
     = users !! "customer1".
Proof.
  intros users reqs users'.
  pose proof (run_withdrawals_frame users reqs) as (Hkeys & Hsame & _).
  split; [exact Hkeys|]. split.
  - intros u' Hu'.
    exact (proj1 (Hsame "customer1" (customer1 "h") u' eq_refl Hu')).
  - apply (proj2 (proj2 (run_withdrawals_frame users
                           [request_of "nobody" [("amount", JNum (of_Z 1))]]))).
    constructor; [discriminate|constructor].
Defined.

Lemma withdraw_then_read_witness :
  let users := initial_users "h" in
  let req := request_of "customer1" [("amount", JNum (of_Z 500))] in
  let users' := fst (withdraw users req) in
  get_account users' (with_body req [])
  = (users',
     Sent {| status := 200;
             payload :=
               AccountBody {| balance := of_Z 1500;
                              interestRate := StringToNumber "0.05";
                              lastWithdrawal := Some (of_Z 500);
                              currency := "USD" |} |}).
Proof.
  intros users req users'.
  destruct (withdraw_then_read users users' req
              {| status := 200;
                 payload := WithdrawBody "Withdrawal successful"
                              (of_Z 1500) (Some (of_Z 500)) |}
              eq_refl eq_refl)
    as (name & u & a & amount & Hacc & Hnum & _ & Hread).
  injection Hacc as <- <- <-. injection Hnum as <-.
  exact (proj1 (Hread [])).
Defined.

Lemma withdraw_entire_balance_witness :
  let users := initial_users "h" in
  let req := request_of "customer1" [("amount", JNum (of_Z 2000))] in
  let users' := fst (withdraw users req) in
  snd (withdraw users req)
  = Sent {| status := 200;
            payload := WithdrawBody "Withdrawal successful" pos_zero
                         (Some (of_Z 2000)) |}
  /\ is_error (snd (withdraw users'
                      (with_body req [("amount", JStr "0.01")]))) = true.
Proof.
  intros users req users'.
  pose proof (withdraw_entire_balance users req "customer1" (customer1 "h")
                customer1_account eq_refl eq_refl eq_refl eq_refl)
    as [Hfirst Hnext].
  split; [exact Hfirst|].
  exact (proj2 (Hnext [("amount", JStr "0.01")])).
Defined.

Lemma run_withdrawals_last_positive_witness :
  let users := initial_users "h" in
  let reqs :=
    [ request_of "customer1" [("amount", JNum (of_Z 500))];
      request_of "customer1" [("amount", JNum (of_Z (-5)))];
      request_of "customer1" [("amount", JStr "abc")] ] in
  last_withdrawals_positive (run_withdrawals users reqs).
Proof.
  intros users reqs.
  apply (run_withdrawals_last_positive reqs users).
  intros k u a w Hu Ha Hw.
  apply initial_users_lookup in Hu as [_ ->].
  injection Ha as <-. discriminate Hw.
Defined.

Lemma interest_not_negative_witness :
  let users := initial_users "h" in
  let req := request_of "customer1" [] in
  exists yearly monthly,
    interest users req
    = (users,
       Sent {| status := 200;
               payload := InterestBody (of_Z 2000) (StringToNumber "0.05")
                            yearly monthly "USD" |})
    /\ lt yearly pos_zero = false
    /\ lt monthly pos_zero = false.
Proof.
  intros users req.
  exact (interest_not_negative users req "customer1" (customer1 "h")
           customer1_account eq_refl eq_refl eq_refl).
Defined.

Lemma run_withdrawals_never_raise_witness :
  let users := initial_users "h" in
  let reqs :=
    [ request_of "customer1" [("amount", JNum (of_Z 500))];
      request_of "customer1" [("amount", JStr "0.1")];
      request_of "customer1" [("amount", JNum (of_Z 5000))] ] in
  exists u' a',
    run_withdrawals users reqs !! "customer1" = Some u'
    /\ account u' = Some a'
    /\ le (balance a') (of_Z 2000) = true.
Proof.
  intros users reqs.
  assert (Hinv : balances_satisfy finite_not_negative users).
  { intros k u a Hu Ha.
    apply initial_users_lookup in Hu as [_ ->].
    injection Ha as <-. reflexivity. }
  destruct (run_withdrawals users reqs !! "customer1") as [u'|] eqn:Hu';
    [|vm_compute in Hu'; discriminate Hu'].
  destruct (account u') as [a'|] eqn:Ha'.
  - exists u', a'. split; [reflexivity|]. split; [exact Ha'|].
    exact (run_withdrawals_never_raise reqs users Hinv "customer1"
             (customer1 "h") customer1_account u' a' eq_refl eq_refl
             Hu' Ha').
  - vm_compute in Hu'. injection Hu' as <-. discriminate Ha'.
Defined.

Lemma withdrawals_commute_witness :
  let users := <["customer2" := customer1 "g"]> (initial_users "h") in
  let req1 := request_of "customer1" [("amount", JNum (of_Z 500))] in
  let req2 := request_of "customer2" [("amount", JNum (of_Z 700))] in
  snd (withdraw (fst (withdraw users req1)) req2) = snd (withdraw users req2)
  /\ snd (withdraw (fst (withdraw users req2)) req1)
     = snd (withdraw users req1)
  /\ fst (withdraw (fst (withdraw users req1)) req2)
     = fst (withdraw (fst (withdraw users req2)) req1).
Proof.
  intros users req1 req2.
  apply (withdrawals_commute users req1 req2).
  intros k [= <-] [=].
Defined.

Lemma login_token_iff_witness :
  let users := initial_users (Demo.bcrypt_hash "bank123") in
  let r :=
    {| status := 200;
       payload :=
         TokenBody
           (Demo.jws_sign {| jwt_username := Some "customer1";
                             iat := Some 1000; nbf := None;
                             exp := Some 4600 |} "dev-secret") |} in
  login Demo.jws_sign Demo.bcrypt_compare users None 1000
    {| login_username := Some "customer1";
       login_password := Some "bank123" |}
  = LoginSent r
  /\ status r = 200.
Proof.
  intros users r.
  apply (proj2 (login_token_iff Demo.jws_sign Demo.bcrypt_compare users None
                  1000 "customer1" (Some "bank123") r)).
  exists (customer1 (Demo.bcrypt_hash "bank123")), "bank123".
  split; [reflexivity|]. split; [reflexivity|]. split; reflexivity.
Defined.

Lemma login_handler_rejects_iff_witness :
  let users := initial_users (Demo.bcrypt_hash "bank123") in
  login Demo.jws_sign Demo.bcrypt_compare users None 1000
    {| login_username := Some "toString"; login_password := Some "x" |}
  = LoginRejected
  /\ login Demo.jws_sign Demo.bcrypt_compare users None 1000
       {| login_username := Some "customer1"; login_password := None |}
     = LoginRejected.
Proof.
  intros users. split.
  - apply (proj2 (login_handler_rejects_iff Demo.jws_sign
                    Demo.bcrypt_compare users None 1000 "toString"
                    (Some "x"))).
    left. split; [reflexivity|]. simpl. tauto.
  - apply (proj2 (login_handler_rejects_iff Demo.jws_sign
                    Demo.bcrypt_compare users None 1000 "customer1" None)).
    right. split; [|reflexivity].
    exists (customer1 (Demo.bcrypt_hash "bank123")). reflexivity.
Defined.


Lemma account_routes_change_witness :
  let users := initial_users "h" in
  let token := jwt_sign Demo.jws_sign (Some "customer1") "dev-secret" 1000 in
  let authorization := Some ("Bearer " ++ token) in
  let sent := [("amount", JNum (of_Z 500))] in
  let result :=
    account_route Demo.jws_verify withdraw users None 2000 authorization
      sent in
  fst (account_route Demo.jws_verify get_account users None 2000
         authorization sent) = users
  /\ fst (account_route Demo.jws_verify interest users None 2000
            authorization sent) = users
  /\ fst result <> users
  /\ exists token' p name,
       authorization = Some ("Bearer " ++ token')
       /\ Demo.jws_verify token' "dev-secret" = Some p
       /\ (forall t, nbf p = Some t -> t <= 2000)
       /\ (forall t, exp p = Some t -> 2000 < t)
       /\ jwt_username p = Some name
       /\ is_Some (users !! name)
       /\ status (snd result) = 200
       /\ forall k, k <> name -> fst result !! k = users !! k.
Proof.
  intros users token authorization sent result.
  pose proof (account_routes_change Demo.jws_verify users None 2000
                authorization sent) as (Hget & Hinterest & Hwithdraw).
  assert (Hchanged : fst result <> users).
  { intros H. apply (f_equal (fun m : Users => m !! "customer1")) in H.
    vm_compute in H. discriminate H. }
  split; [exact Hget|]. split; [exact Hinterest|].
  split; [exact Hchanged|]. exact (Hwithdraw Hchanged).
Defined.

Lemma withdraw_object_amount_witness :
  let users := initial_users "h" in
  let token := jwt_sign Demo.jws_sign (Some "customer1") "dev-secret" 1000 in
  account_route Demo.jws_verify withdraw users None 2000
    (Some ("Bearer " ++ token))
    [("amount", JObj [("toString", JNum (of_Z 1))])]
  = (users, {| status := 500; payload := Message "Internal Server Error" |}).
Proof.
  intros users token.
  exact (withdraw_object_amount Demo.jws_verify users None 2000
           (Some ("Bearer " ++ token)) {| username := Some "customer1" |}
           [token] [("amount", JObj [("toString", JNum (of_Z 1))])]
           [("toString", JNum (of_Z 1))] eq_refl eq_refl eq_refl).
Defined.

Lemma withdraw_whole_amount_witness :
  let users := initial_users "h" in
  withdraw users (request_of "customer1" [("amount", JNum (of_Z (-5)))])
  = (users, Sent InvalidAmount)
  /\ withdraw users (request_of "customer1" [("amount", JNum (of_Z 2001))])
     = (users, Sent InsufficientFunds)
  /\ snd (withdraw users (request_of "customer1" [("amount", JStr "2000")]))
     = Sent {| status := 200;
               payload := WithdrawBody "Withdrawal successful"
                            (of_Z 0) (Some (of_Z 2000)) |}.
Proof.
  intros users.
  pose proof (fun amount n Hnum Hn =>
                withdraw_whole_amount users
                  (request_of "customer1" [("amount", amount)])
                  "customer1" (customer1 "h") customer1_account 2000 n
                  eq_refl eq_refl ltac:(lia) Hnum Hn) as H.
  split; [|split].
  - apply (proj1 (H (JNum (of_Z (-5))) (-5) eq_refl ltac:(lia))). lia.
  - apply (proj1 (proj2 (H (JNum (of_Z 2001)) 2001 eq_refl ltac:(lia)))). lia.
  - apply (proj2 (proj2 (H (JStr "2000") 2000 eq_refl ltac:(lia)))). lia.
Defined.

Lemma run_withdrawals_whole_witness :
  let users := initial_users "h" in
  let reqs :=
    [ request_of "customer1" [("amount", JNum (of_Z 500))];
      request_of "customer1" [("amount", JStr "700")];
      request_of "customer1" [("amount", JNum (of_Z (-5)))];
      request_of "customer1" [("amount", JNum (of_Z 5000))] ] in
  exists u' a',
    run_withdrawals users reqs !! "customer1" = Some u'
    /\ account u' = Some a'
    /\ balance a' = of_Z 800
    /\ 0 <= 800 <= 2000.
Proof.
  intros users reqs.
  assert (Hreqs : Forall2 (whole_request "customer1") reqs
                    [500; 700; -5; 5000]).
  { repeat (constructor;
            [split; [reflexivity|split; [reflexivity|lia]]|]).
    constructor. }
  assert (Hname : "customer1" <> "") by discriminate.
  exact (run_withdrawals_whole "customer1" reqs [500; 700; -5; 5000] Hreqs
           users (customer1 "h") customer1_account 2000 Hname eq_refl
           eq_refl eq_refl ltac:(lia)).
Defined.

Lemma withdraw_minus_sign_witness :
  let users := initial_users "h" in
  let req := request_of "customer1" [("amount", JStr "-50")] in
  withdraw users req = (users, Sent NotANumber)
  \/ withdraw users req = (users, Sent InvalidAmount).
Proof.
  intros users req.
  exact (withdraw_minus_sign users req "50" eq_refl).
Defined.

Lemma account_route_statuses_witness :
  let users := initial_users "h" in
  let token := jwt_sign Demo.jws_sign (Some "customer1") "dev-secret" 1000 in
  status (snd (account_route Demo.jws_verify withdraw users None 2000
                 (Some ("Bearer " ++ token))
                 [("amount", JObj [("toString", JNull)])]))
  = 500.
Proof.
  intros users token.
  apply (proj2 (proj2 (proj2 (proj2
           (account_route_statuses Demo.jws_verify users None 2000
              (Some ("Bearer " ++ token))
              [("amount", JObj [("toString", JNull)])]))))).
  split; [|reflexivity].
  exists {| username := Some "customer1" |}, [token]. reflexivity.
Defined.

Lemma account_route_200_witness :
  let users := initial_users "h" in
  let token := jwt_sign Demo.jws_sign (Some "customer1") "dev-secret" 1000 in
  let authorization := Some ("Bearer " ++ token) in
  exists token' p name u a,
    authorization = Some ("Bearer " ++ token')
    /\ Demo.jws_verify token' "dev-secret" = Some p
    /\ (forall t, nbf p = Some t -> t <= 2000)
    /\ (forall t, exp p = Some t -> 2000 < t)
    /\ jwt_username p = Some name
    /\ users !! name = Some u
    /\ account u = Some a
    /\ account_route Demo.jws_verify get_account users None 2000
         authorization []
       = (fst (get_account users (request_of name [])),
          respond (snd (get_account users (request_of name []))))
    /\ (get_account = get_account ->
        snd (account_route Demo.jws_verify get_account users None 2000
               authorization [])
        = {| status := 200; payload := AccountBody a |}).
Proof.
  intros users token authorization.
  exact (account_route_200 Demo.jws_verify users None 2000 authorization []
           get_account (or_introl eq_refl) eq_refl).
Defined.

Lemma seed_store_states_witness :
  let users :=
    run_withdrawals (initial_users "h")
      [ request_of "customer1" [("amount", JNum (of_Z 500))];
        request_of "constructor" [("amount", JNum (of_Z 1))];
        request_of "customer1" [("amount", JStr "1e3")] ] in
  (forall k, is_Some (users !! k) <-> k = "customer1")
  /\ exists a,
       users !! "customer1"
       = Some {| passwordHash := "h"; account := Some a |}
       /\ interestRate a = StringToNumber "0.05"
       /\ currency a = "USD"
       /\ finite_not_negative (balance a) = true
       /\ le pos_zero (balance a) = true
       /\ le (balance a) (of_Z 2000) = true
       /\ (forall w, lastWithdrawal a = Some w -> gt w pos_zero = true).
Proof.
  exact (seed_store_states "h"
           [ request_of "customer1" [("amount", JNum (of_Z 500))];
             request_of "constructor" [("amount", JNum (of_Z 1))];
             request_of "customer1" [("amount", JStr "1e3")] ]).
Defined.
